(** * minitorch/tensor_functions.py: autodifferentiation Functions for Tensor

    A shallow embedding of [src/minitorch/tensor_functions.py] and of the
    parts of the tensor library it calls, followed by the properties the
    specification states about it.

    Python floats are IEEE binary64 numbers and are modelled by the kernel's
    primitive floats.  Python exceptions are modelled by the [result] type.
    Shapes, strides and indices are natural numbers; integers that the code
    obtains by converting a float ([int(d)]) are in [Z], and a call that
    builds a tensor with a negative extent from them ends in [Outside]. *)

From Stdlib Require Import ZArith List Lia Floats Uint63 Bool.
From stdpp Require Import base option list sorting.

#[local] Set Warnings "-inexact-float,-register-all".

Local Open Scope Z_scope.
Local Open Scope nat_scope.

(** ** Python exceptions and the error monad *)

Inductive PyError : Type :=
| AssertionError      (* a failed [assert] *)
| ContiguityViolation (* [assert a._tensor.is_contiguous(), "Must be contiguous to view"] *)
| IndexError          (* list or buffer index out of range *)
| IndexingError       (* minitorch's own: bad tensor index or shapes that do not broadcast *)
| TypeError           (* wrong number or kind of arguments *)
| ValueError          (* tuple unpacking of the wrong length, [int(nan)] *)
| OverflowError       (* [int(inf)] *)
| AttributeError      (* a method called on [None] *)
| NotImplementedError
| GradientCheckFailure. (* [np.testing.assert_allclose] failed *)

(** The outcome of a call: it returns a value, it raises, or it goes on with
    a value outside of what this development describes (a tensor with a
    negative extent: the tensors here have natural numbers as extents), and
    nothing is said about what follows. *)
Inductive result (A : Type) : Type :=
| Ok (a : A)
| Raise (e : PyError)
| Outside.
Arguments Ok {A} a.
Arguments Raise {A} e.
Arguments Outside {A}.

#[global] Instance result_ret : MRet result := @Ok.
#[global] Instance result_bind : MBind result := fun A B f m =>
  match m with
  | Ok a => f a
  | Raise e => Raise e
  | Outside => Outside
  end.
#[global] Instance result_fmap : FMap result := fun A B f m =>
  match m with
  | Ok a => Ok (f a)
  | Raise e => Raise e
  | Outside => Outside
  end.

Definition from_option {A} (e : PyError) (o : option A) : result A :=
  match o with Some a => Ok a | None => Raise e end.

(** [assert c] *)
Definition py_assert (e : PyError) (c : bool) : result unit :=
  if c then Ok tt else Raise e.

(** [for x in l: acc = body(acc, x)], stopping at the first exception. *)
Fixpoint foldM {A B} (body : B -> A -> result B) (l : list A) (acc : B) : result B :=
  match l with
  | [] => Ok acc
  | x :: l' => acc' ← body acc x; foldM body l' acc'
  end.

(** [[g(x) for x in l]], stopping at the first exception. *)
Fixpoint mapM_result {A B} (g : A -> result B) (l : list A) : result (list B) :=
  match l with
  | [] => Ok []
  | x :: l' => y ← g x; ys ← mapM_result g l'; Ok (y :: ys)
  end.

(** ** Python lists and numbers *)

(** [l[i]] for a Python integer [i]: negative indices count from the end. *)
Definition py_index (len : nat) (i : Z) : option nat :=
  if (0 <=? i)%Z && (i <? Z.of_nat len)%Z then Some (Z.to_nat i)
  else if (- Z.of_nat len <=? i)%Z && (i <? 0)%Z then Some (Z.to_nat (Z.of_nat len + i))
  else None.

Definition py_getitem {A} (l : list A) (i : Z) : result A :=
  k ← from_option IndexError (py_index (length l) i);
  from_option IndexError (l !! k).

(** [l[i] = x] *)
Definition py_setitem {A} (l : list A) (i : Z) (x : A) : result (list A) :=
  k ← from_option IndexError (py_index (length l) i);
  Ok (<[k := x]> l).

(** [int(x)] for a float [x]: truncation towards zero; [nan] and the
    infinities raise. *)
Definition py_int (x : float) : result Z :=
  match Prim2SF x with
  | S754_zero _ => Ok 0%Z
  | S754_finite s m e =>
      let mag := if (0 <=? e)%Z then (Z.pos m * 2 ^ e)%Z
                 else Z.shiftr (Z.pos m) (- e) in
      Ok (if s then (- mag)%Z else mag)
  | S754_infinity _ => Raise OverflowError
  | S754_nan => Raise ValueError
  end.

(** ** operators.py *)

Module operators.

(** Modelled from the spec: [operators.prod] ([operators.py] is absent from
    [src/]), the product of a sequence of integers; the code uses it as
    [int(operators.prod(shape))], the number of elements of a shape. *)
Definition prod (l : list nat) : nat := foldr Nat.mul 1 l.

(** Modelled from the spec: [operators.prod] on Python integers that may be
    negative, as the code reaches it with a shape converted from floats. *)
Definition prod_ints (l : list Z) : Z := foldr Z.mul 1%Z l.

(** The scalar functions that the backend maps and zips are in
    [operators.py], which is absent from [src/]; they follow the table of
    4.1 of the spec. *)

(** Modelled from the spec: [operators.id], the function of Copy/Id. *)
Definition id (x : float) : float := x.

(** Modelled from the spec: [operators.neg], "elementwise negation". *)
Definition neg (x : float) : float := (- x)%float.

(** Modelled from the spec: [operators.add], "elementwise sum". *)
Definition add (x y : float) : float := (x + y)%float.

(** Modelled from the spec: [operators.mul], "elementwise product". *)
Definition mul (x y : float) : float := (x * y)%float.

(** Modelled from the spec: [operators.inv], "elementwise reciprocal". *)
Definition inv (x : float) : float := (1 / x)%float.

(** Modelled from the spec: [operators.lt], the "elementwise boolean
    comparison" less-than, as [1.0] or [0.0]. *)
Definition lt (x y : float) : float := if (x <? y)%float then 1%float else 0%float.

(** Modelled from the spec: [operators.eq], the "elementwise boolean
    comparison" equal, as [1.0] or [0.0]. *)
Definition eq (x y : float) : float := if (x =? y)%float then 1%float else 0%float.

(** Modelled from the spec: [operators.relu], "max(x,0)". *)
Definition relu (x : float) : float := if (0 <? x)%float then x else 0%float.

(** Modelled from the spec: [operators.relu_back], which the backend zips as
    [relu_back_zip(a, d)]: the backward of ReLU in the table,
    "grad_output . [x>0]", with the second argument [d] as [grad_output]. *)
Definition relu_back (x d : float) : float := if (0 <? x)%float then d else 0%float.

(** Modelled from the spec: [operators.inv_back], which the backend zips as
    [inv_back_zip(x, d)]: the backward of Invert in the table,
    "grad_output . (-1/x^2)", with the second argument [d] as
    [grad_output]. *)
Definition inv_back (x d : float) : float := (- (1 / (x * x)) * d)%float.

End operators.

(** ** tensor_data.py: shapes, strides and buffers *)

(** Modelled from the spec: [TensorData] ([tensor_data.py] is absent from
    [src/]): a buffer with a shape and strides.  [size] and [dims] are the
    number of elements and of dimensions. *)
Record TensorData : Type := mkTensorData {
  _storage : list float;
  shape : list nat;
  strides : list nat
}.

(** Modelled from the spec: [TensorData.size], the number of elements. *)
Definition size (td : TensorData) : nat := operators.prod (shape td).

(** Modelled from the spec: [TensorData.dims], the number of dimensions. *)
Definition dims (td : TensorData) : nat := length (strides td).

(** Modelled from the spec: [strides_from_shape] of [tensor_data.py], the
    row-major strides of a contiguous buffer of the given shape. *)
Fixpoint strides_from_shape (sh : list nat) : list nat :=
  match sh with
  | [] => []
  | _ :: rest => operators.prod rest :: strides_from_shape rest
  end.

(** Modelled from the spec: [index_to_position] of [tensor_data.py], the
    position in the buffer of a multidimensional index. *)
Fixpoint index_to_position (index strides : list nat) : nat :=
  match index, strides with
  | i :: index', s :: strides' => i * s + index_to_position index' strides'
  | _, _ => 0
  end.

(** Modelled from the spec: [to_index] of [tensor_data.py], the
    multidimensional index of the [ordinal]-th element of a contiguous
    tensor of shape [sh]. *)
Fixpoint to_index (ordinal : nat) (sh : list nat) : list nat :=
  match sh with
  | [] => []
  | s :: rest =>
      (ordinal / operators.prod rest) mod s :: to_index (ordinal mod operators.prod rest) rest
  end.

(** Modelled from the spec: [shape_broadcast] of [tensor_data.py] on the
    reversed shapes.  Broadcasting (6): "dimensions are aligned from the
    trailing edge; a dimension of size 1 broadcasts to match the other
    operand's size at that position; mismatched, non-1 sizes are a shape
    error". *)
Fixpoint shape_broadcast_rev (r1 r2 : list nat) : result (list nat) :=
  match r1, r2 with
  | [], r | r, [] => Ok r
  | a :: r1', b :: r2' =>
      rest ← shape_broadcast_rev r1' r2';
      if a =? b then Ok (a :: rest)
      else if a =? 1 then Ok (b :: rest)
      else if b =? 1 then Ok (a :: rest)
      else Raise IndexingError
  end.

(** Modelled from the spec: [shape_broadcast] of [tensor_data.py], the
    shape two shapes broadcast to. *)
Definition shape_broadcast (shape1 shape2 : list nat) : result (list nat) :=
  reverse <$> shape_broadcast_rev (reverse shape1) (reverse shape2).

(** Modelled from the spec: [broadcast_index] of [tensor_data.py], the index
    into a tensor of shape [sh] that an index into the larger, broadcast
    shape [big_shape] reads: leading dimensions are dropped and a dimension
    of size 1 is read at 0. *)
Definition broadcast_index (big_index big_shape sh : list nat) : list nat :=
  zip_with (fun s i => if 1 <? s then i else 0) sh
           (drop (length big_shape - length sh) big_index).

(** Modelled from the spec: the constructor
    [TensorData(storage, shape, strides)]: the strides default to the
    contiguous ones; there is one stride per dimension, and the buffer holds
    exactly [prod(shape)] elements. *)
Definition TensorData_init (storage : list float) (sh : list nat)
    (st : option (list nat)) : result TensorData :=
  let st := default (strides_from_shape sh) st in
  if negb (length st =? length sh) then Raise IndexingError
  else
    _ ← py_assert AssertionError (length storage =? operators.prod sh);
    Ok (mkTensorData storage sh st).

(** Modelled from the spec: the loop of [TensorData.is_contiguous], the
    "contiguity check" of 6: the strides never increase from one dimension
    to the next. *)
Fixpoint is_contiguous_from (last : option nat) (st : list nat) : bool :=
  match st with
  | [] => true
  | s :: st' =>
      match last with
      | Some l => if l <? s then false else is_contiguous_from (Some s) st'
      | None => is_contiguous_from (Some s) st'
      end
  end.

(** Modelled from the spec: [TensorData.is_contiguous]. *)
Definition is_contiguous (td : TensorData) : bool :=
  is_contiguous_from None (strides td).

(** Modelled from the spec: the check of [TensorData.permute] that the order
    gives a position to each dimension
    ([sorted(order) == range(len(shape))]). *)
Definition valid_order (order : list Z) (n : nat) : bool :=
  bool_decide (merge_sort Z.le order = Z.of_nat <$> seq 0 n).

(** Modelled from the spec: [TensorData.permute], the "view-level axis
    reorder" of 6: the same storage with the shape and the strides read in
    the given order. *)
Definition permute (td : TensorData) (order : list Z) : result TensorData :=
  _ ← py_assert AssertionError (valid_order order (length (shape td)));
  sh ← mapM_result (fun i => from_option IndexError (shape td !! Z.to_nat i)) order;
  st ← mapM_result (fun i => from_option IndexError (strides td !! Z.to_nat i)) order;
  TensorData_init (_storage td) sh (Some st).

(** Modelled from the spec: [TensorData.index], the position of a user
    index, checked against the shape. *)
Definition TensorData_index (td : TensorData) (key : list nat) : result nat :=
  if negb (length key =? length (shape td)) then Raise IndexingError
  else if forallb (fun '(i, s) => i <? s) (zip key (shape td))
  then Ok (index_to_position key (strides td))
  else Raise IndexingError.

(** Modelled from the spec: [TensorData.get], the element at a user index. *)
Definition TensorData_get (td : TensorData) (key : list nat) : result float :=
  p ← TensorData_index td key;
  from_option IndexError (_storage td !! p).

(** Modelled from the spec: [TensorData.set], the buffer with the element at
    a user index replaced. *)
Definition TensorData_set (td : TensorData) (key : list nat) (val : float) : result TensorData :=
  p ← TensorData_index td key;
  if p <? length (_storage td)
  then Ok (mkTensorData (<[p := val]> (_storage td)) (shape td) (strides td))
  else Raise IndexError.

(** ** Tensors, graph edges and contexts *)

(** Modelled from the spec: [TensorBackend] of [tensor_ops.py], which is
    absent from [src/]: a backend names the kernels a tensor computes with
    (the Primitive Backend of 2); [SimpleBackend] is the default of the
    constructors of this file.  All backends compute the kernels of 6. *)
Inductive TensorBackend : Type :=
| SimpleBackend
| OtherBackend (id : nat).

(** The subclasses of [Function] in this file, as a [History] refers to
    them. *)
Inductive FunctionCls : Type :=
| NegCls | InvCls | AddCls | AllCls | MulCls | SigmoidCls | ReLUCls | LogCls
| ExpCls | SumCls | LTCls | EQCls | IsCloseCls | PermuteCls | ViewCls
| CopyCls | MatMulCls.

(** Modelled from the spec (3, Data model; [tensor.py] and [autodiff.py] are
    absent from [src/]): a Tensor Node is a value, an optional Graph Edge, an
    accumulated-gradient slot and its backend; a Graph Edge ([History]) is
    the producing class, its Context and the ordered inputs; a Context is the
    no-gradient flag and the saved values, which are tensors, [None], a list
    of integers or a shape. *)
Inductive Tensor : Type :=
| mkTensor (td : TensorData) (hist : option History) (gr : option Tensor)
           (be : TensorBackend)
with History : Type :=
| mkHistory (fn : option FunctionCls) (c : option Context) (ins : list Tensor)
with Context : Type :=
| mkContext (ng : bool) (saved : list SavedValue)
with SavedValue : Type :=
| SavedTensor (t : Tensor)
| SavedNone
| SavedInts (l : list Z)
| SavedShape (sh : list nat).

(** The attributes of a tensor: [t._tensor], [t.history], [t.grad] and
    [t.backend] (also [t.f]). *)
Definition _tensor (t : Tensor) : TensorData := let 'mkTensor td _ _ _ := t in td.
Definition history (t : Tensor) : option History := let 'mkTensor _ h _ _ := t in h.
Definition grad (t : Tensor) : option Tensor := let 'mkTensor _ _ g _ := t in g.
Definition backend (t : Tensor) : TensorBackend := let 'mkTensor _ _ _ b := t in b.

(** The attributes of a [History]. *)
Definition last_fn (h : History) : option FunctionCls := let 'mkHistory f _ _ := h in f.
Definition ctx (h : History) : option Context := let 'mkHistory _ c _ := h in c.
Definition inputs (h : History) : list Tensor := let 'mkHistory _ _ i := h in i.

(** The attributes of a [Context]. *)
Definition no_grad (c : Context) : bool := let 'mkContext n _ := c in n.
Definition saved_values (c : Context) : list SavedValue := let 'mkContext _ s := c in s.

(** Modelled from the spec: [History()] of [autodiff.py], the Graph Edge of
    a leaf that requires gradients: no producing class, no Context, no
    inputs. *)
Definition empty_History : History := mkHistory None None [].

(** Modelled from the spec: [Context.save_for_backward] of [autodiff.py]; it
    "stores values into the Context regardless of the no-gradient flag"
    (4.2). *)
Definition save_for_backward (c : Context) (values : list SavedValue) : Context :=
  mkContext (no_grad c) values.

(** Modelled from the spec: the constructor [Tensor(v, back, backend)] of
    [tensor.py]: a node with the given value and Graph Edge and an empty
    gradient slot. *)
Definition Tensor_init (v : TensorData) (back : option History) (be : TensorBackend) : Tensor :=
  mkTensor v back None be.

(** Modelled from the spec: [Tensor.make(storage, shape, backend)] of
    [tensor.py], the "builder for leaf nodes from raw values/shape" (6): a
    contiguous tensor without a Graph Edge. *)
Definition Tensor_make (storage : list float) (sh : list nat) (be : TensorBackend)
  : result Tensor :=
  td ← TensorData_init storage sh None;
  Ok (Tensor_init td None be).

(** Modelled from the spec: [Tensor.make(storage, shape, backend)] on a
    shape of Python integers, which the code obtains with [int] from floats
    and does not check.  The constructor of [TensorData] compares the size
    of the buffer with the product of the extents, as integers.  On extents
    that are natural numbers this is [Tensor_make].  A shape with a negative
    extent whose product is the size of the buffer passes that check: the
    call returns a tensor with a negative extent, which is outside of the
    tensors described here. *)
Definition Tensor_make_ints (storage : list float) (sh : list Z) (be : TensorBackend)
  : result Tensor :=
  if forallb (fun z => (0 <=? z)%Z) sh then Tensor_make storage (Z.to_nat <$> sh) be
  else if (Z.of_nat (length storage) =? operators.prod_ints sh)%Z then Outside
  else Raise AssertionError.

(** Modelled from the spec: [t.requires_grad()] of [tensor.py]: the node
    carries a Graph Edge ("if requires-gradient is false, no Graph Edge is
    retained", 3). *)
Definition requires_grad (t : Tensor) : bool :=
  match history t with Some _ => true | None => false end.

(** Modelled from the spec: [t.requires_grad_(x)] of [tensor.py] sets the
    requires-gradient flag of a leaf: the node gets the Graph Edge of a leaf,
    or none. *)
Definition requires_grad_ (x : bool) (t : Tensor) : Tensor :=
  mkTensor (_tensor t) (if x then Some empty_History else None) (grad t) (backend t).

(** Modelled from the spec: [t.zero_grad_()] of [tensor.py], the "external
    reset operation" of 3 that clears the accumulated-gradient slot. *)
Definition zero_grad_ (t : Tensor) : Tensor :=
  mkTensor (_tensor t) (history t) None (backend t).

(** Modelled from the spec: [t.detach()] of [tensor.py]: the raw value,
    "gradient tracking stripped" (4.2). *)
Definition detach (t : Tensor) : Tensor := Tensor_init (_tensor t) None (backend t).

(** Modelled from the spec: [t._new(td)] of [tensor.py]: a tensor with the
    value [td] on [t]'s backend, without a Graph Edge. *)
Definition _new (t : Tensor) (td : TensorData) : Tensor := Tensor_init td None (backend t).

(** Modelled from the spec: [t.zeros(shape)] of [tensor.py]: a zero tensor
    on [t]'s backend. *)
Definition Tensor_zeros (t : Tensor) (sh : list nat) : result Tensor :=
  Tensor_make (replicate (operators.prod sh) 0%float) sh (backend t).

(** Modelled from the spec: [t.item()] of [tensor.py]: the element of a
    one-element tensor. *)
Definition item (t : Tensor) : result float :=
  _ ← py_assert AssertionError (size (_tensor t) =? 1);
  from_option IndexError (_storage (_tensor t) !! 0).

(** Modelled from the spec: [t[key]] of [tensor.py], the element at an
    index. *)
Definition Tensor_getitem (t : Tensor) (key : list nat) : result float :=
  TensorData_get (_tensor t) key.

(** Modelled from the spec: [t[key] = val] of [tensor.py], which writes the
    element at an index into the buffer of [t]. *)
Definition Tensor_setitem (t : Tensor) (key : list nat) (val : float) : result Tensor :=
  td ← TensorData_set (_tensor t) key val;
  Ok (mkTensor td (history t) (grad t) (backend t)).

(** ** The backend's kernels (6)

    [tensor_ops.py] is absent from [src/]. *)

(** Modelled from the spec: the loop of [map(unary_fn, tensor)], the
    "elementwise unary transform": [fn] of the input, read with
    broadcasting, at every position of a fresh contiguous buffer of shape
    [out_shape]. *)
Definition map_storage (fn : float -> float) (a : TensorData) (out_shape : list nat)
  : result (list float) :=
  mapM_result
    (fun ordinal =>
       let out_index := to_index ordinal out_shape in
       let in_index := broadcast_index out_index out_shape (shape a) in
       x ← from_option IndexError (_storage a !! index_to_position in_index (strides a));
       Ok (fn x))
    (seq 0 (operators.prod out_shape)).

(** Modelled from the spec: [map(unary_fn, tensor)], "same shape as input":
    a fresh contiguous tensor on the backend of the input. *)
Definition tensor_map (fn : float -> float) (a : Tensor) : result Tensor :=
  st ← map_storage fn (_tensor a) (shape (_tensor a));
  Tensor_make st (shape (_tensor a)) (backend a).

(** Modelled from the spec: the loop of [zip(binary_fn, a, b)], the
    "elementwise binary transform with broadcasting". *)
Definition zip_storage (fn : float -> float -> float) (a b : TensorData)
    (out_shape : list nat) : result (list float) :=
  mapM_result
    (fun ordinal =>
       let out_index := to_index ordinal out_shape in
       let a_index := broadcast_index out_index out_shape (shape a) in
       let b_index := broadcast_index out_index out_shape (shape b) in
       x ← from_option IndexError (_storage a !! index_to_position a_index (strides a));
       y ← from_option IndexError (_storage b !! index_to_position b_index (strides b));
       Ok (fn x y))
    (seq 0 (operators.prod out_shape)).

(** Modelled from the spec: [zip(binary_fn, a, b)]: a fresh contiguous
    tensor of the broadcast shape on [a]'s backend. *)
Definition tensor_zip (fn : float -> float -> float) (a b : Tensor) : result Tensor :=
  c_shape ← shape_broadcast (shape (_tensor a)) (shape (_tensor b));
  st ← zip_storage fn (_tensor a) (_tensor b) c_shape;
  Tensor_make st c_shape (backend a).

(** Modelled from the spec: the loop of [reduce(binary_fn, tensor, dim)],
    which "collapses the given dimension to size 1 by folding with
    [binary_fn]", from [start] and along the dimension in increasing
    order. *)
Definition reduce_storage (fn : float -> float -> float) (start : float)
    (a : TensorData) (out_shape : list nat) (reduce_dim : nat) : result (list float) :=
  mapM_result
    (fun ordinal =>
       let out_index := to_index ordinal out_shape in
       foldM
         (fun acc s =>
            let j := index_to_position (<[reduce_dim := s]> out_index) (strides a) in
            x ← from_option IndexError (_storage a !! j);
            Ok (fn acc x))
         (seq 0 (default 0 (shape a !! reduce_dim))) start)
    (seq 0 (operators.prod out_shape)).

(** Modelled from the spec: [reduce(binary_fn, tensor, dim)]: a fresh
    contiguous tensor on the backend of the input, of the shape of the input
    with the dimension [dim] (a Python index) set to 1. *)
Definition tensor_reduce (fn : float -> float -> float) (start : float)
    (a : Tensor) (dim : Z) : result Tensor :=
  d ← from_option IndexError (py_index (length (shape (_tensor a))) dim);
  let out_shape := <[d := 1]> (shape (_tensor a)) in
  st ← reduce_storage fn start (_tensor a) out_shape d;
  Tensor_make st out_shape (backend a).

(** Modelled from the spec: the kernels by the names the backend gives them
    ([a.f.neg_map], [a.f.add_zip], [a.f.add_reduce], ...); sums start from
    [0.0] and products from [1.0]. *)
Definition neg_map := tensor_map operators.neg.
Definition inv_map := tensor_map operators.inv.
Definition relu_map := tensor_map operators.relu.
Definition id_map := tensor_map operators.id.
Definition add_zip := tensor_zip operators.add.
Definition mul_zip := tensor_zip operators.mul.
Definition lt_zip := tensor_zip operators.lt.
Definition eq_zip := tensor_zip operators.eq.
Definition relu_back_zip := tensor_zip operators.relu_back.
Definition inv_back_zip := tensor_zip operators.inv_back.
Definition add_reduce := tensor_reduce operators.add 0%float.
Definition mul_reduce := tensor_reduce operators.mul 1%float.

(** ** tensor_functions.py

    From here on the definitions embed [src/minitorch/tensor_functions.py],
    under the names of the source; a definition that models absent code says
    so. *)

(** One gradient, as a [backward] returns it: a tensor or a Python float. *)
Inductive GradValue : Type :=
| GradTensor (t : Tensor)
| GradFloat (x : float).

(** What a [backward] returns: one gradient or a tuple of gradients. *)
Inductive PyReturn : Type :=
| ReturnOne (v : GradValue)
| ReturnTuple (vs : list GradValue).

(** [wrap_tuple]: turn a possible value into a tuple. *)
Definition wrap_tuple (x : PyReturn) : list GradValue :=
  match x with
  | ReturnTuple vs => vs
  | ReturnOne v => [v]
  end.

(** A subclass of [Function] (the [cls] of the class methods): its name and
    its static methods [forward] and [backward].  The context is a mutable
    object that [forward] may write to: [forward] returns the context as it
    leaves it, also when it raises. *)
Record Function : Type := mkFunction {
  cls_name : FunctionCls;
  cls_forward : Context -> list Tensor -> Context * result Tensor;
  cls_backward : Context -> Tensor -> result PyReturn
}.

(** [Function._backward] *)
Definition _backward (cls : Function) (c : Context) (grad_out : Tensor)
  : result (list GradValue) :=
  wrap_tuple <$> cls_backward cls c grad_out.

(** [Function._forward] *)
Definition _forward (cls : Function) (c : Context) (inps : list Tensor)
  : Context * result Tensor :=
  cls_forward cls c inps.

(** The loop of [apply] over [vals], from [raw_vals = []] and
    [need_grad = False]: [if v.requires_grad(): need_grad = True] and
    [raw_vals.append(v.detach())]. *)
Definition apply_loop (vals : list Tensor) : list Tensor * bool :=
  fold_left
    (fun '(raw_vals, need_grad) v =>
       (raw_vals ++ [detach v], if requires_grad v then true else need_grad))
    vals ([], false).

(** [Function.apply]: call the forward function and track history. *)
Definition apply (cls : Function) (vals : list Tensor) : result Tensor :=
  let '(raw_vals, need_grad) := apply_loop vals in
  let c0 := mkContext (negb need_grad) [] in
  let '(c1, r) := _forward cls c0 raw_vals in
  c ← r;
  let back := if need_grad then Some (mkHistory (Some (cls_name cls)) (Some c1) vals)
              else None in
  Ok (Tensor_init (_tensor c) back (backend c)).

(** An optional tensor ([None] or a tensor) as a saved value. *)
Definition from_option_saved (o : option Tensor) : SavedValue :=
  match o with
  | Some t => SavedTensor t
  | None => SavedNone
  end.

(** Tuple unpacking [(v,) = ctx.saved_values]; a tuple of another length
    raises (the SavedStateArityError of 7). *)
Definition unpack1 (c : Context) : result SavedValue :=
  match saved_values c with
  | [v] => Ok v
  | _ => Raise ValueError
  end.

(** Tuple unpacking [v, w = ctx.saved_values]. *)
Definition unpack2 (c : Context) : result (SavedValue * SavedValue) :=
  match saved_values c with
  | [v; w] => Ok (v, w)
  | _ => Raise ValueError
  end.

(** A saved value used as a tensor: a method called on another value
    raises. *)
Definition as_tensor (v : SavedValue) : result Tensor :=
  match v with
  | SavedTensor t => Ok t
  | _ => Raise AttributeError
  end.

(** [forward(ctx, *inps)] for a [forward] of one argument: another number of
    arguments raises. *)
Definition arity1 (fwd : Context -> Tensor -> Context * result Tensor)
    (c : Context) (inps : list Tensor) : Context * result Tensor :=
  match inps with
  | [a] => fwd c a
  | _ => (c, Raise TypeError)
  end.

(** [forward(ctx, *inps)] for a [forward] of two arguments. *)
Definition arity2 (fwd : Context -> Tensor -> Tensor -> Context * result Tensor)
    (c : Context) (inps : list Tensor) : Context * result Tensor :=
  match inps with
  | [a; b] => fwd c a b
  | _ => (c, Raise TypeError)
  end.

Module Neg.
(** Negate the input tensor.  (The assertion [t1.f is not None] holds of
    every tensor: a tensor has a backend.) *)
Definition forward (c : Context) (t1 : Tensor) : Context * result Tensor :=
  (c, neg_map t1).
(** Compute gradient for negation operation. *)
Definition backward (c : Context) (grad_output : Tensor) : result PyReturn :=
  g ← neg_map grad_output; Ok (ReturnOne (GradTensor g)).
Definition cls : Function := mkFunction NegCls (arity1 forward) backward.
End Neg.

Module Inv.
(** Compute the element-wise inverse of the input tensor. *)
Definition forward (c : Context) (t1 : Tensor) : Context * result Tensor :=
  let c := save_for_backward c [SavedTensor t1] in
  (c, inv_map t1).
(** Compute gradient for inverse operation. *)
Definition backward (c : Context) (grad_output : Tensor) : result PyReturn :=
  v ← unpack1 c;
  t1 ← as_tensor v;
  g ← inv_back_zip t1 grad_output;
  Ok (ReturnOne (GradTensor g)).
Definition cls : Function := mkFunction InvCls (arity1 forward) backward.
End Inv.

Module Add.
(** Add two tensors element-wise. *)
Definition forward (c : Context) (t1 t2 : Tensor) : Context * result Tensor :=
  (c, add_zip t1 t2).
(** Compute gradient for addition operation. *)
Definition backward (c : Context) (grad_output : Tensor) : result PyReturn :=
  Ok (ReturnTuple [GradTensor grad_output; GradTensor grad_output]).
Definition cls : Function := mkFunction AddCls (arity2 forward) backward.
End Add.

Module Mul.
(** Forward pass for element-wise multiplication of two tensors. *)
Definition forward (c : Context) (a b : Tensor) : Context * result Tensor :=
  let c := save_for_backward c [SavedTensor a; SavedTensor b] in
  (c, mul_zip a b).
(** Backward pass for element-wise multiplication:
    [grad_a = grad_output * b] and [grad_b = grad_output * a]. *)
Definition backward (c : Context) (grad_output : Tensor) : result PyReturn :=
  '(va, vb) ← unpack2 c;
  b ← as_tensor vb;
  grad_a ← mul_zip grad_output b;
  a ← as_tensor va;
  grad_b ← mul_zip grad_output a;
  Ok (ReturnTuple [GradTensor grad_a; GradTensor grad_b]).
Definition cls : Function := mkFunction MulCls (arity2 forward) backward.
End Mul.

(** The arithmetic of [Tensor] is in [tensor.py], which is absent from
    [src/]: "a caller combines Tensor Nodes through Operation Variants" (2),
    so each operator dispatches its variant through [apply]. *)

(** Modelled from the spec: [-a] dispatches Negate. *)
Definition Tensor_neg (a : Tensor) : result Tensor := apply Neg.cls [a].

(** Modelled from the spec: [a + b] dispatches Add. *)
Definition Tensor_add (a b : Tensor) : result Tensor := apply Add.cls [a; b].

(** Modelled from the spec: [a - b] dispatches Add on [a] and the negation
    of [b]. *)
Definition Tensor_sub (a b : Tensor) : result Tensor :=
  nb ← Tensor_neg b; apply Add.cls [a; nb].

(** Modelled from the spec: [a * b] dispatches Multiply. *)
Definition Tensor_mul (a b : Tensor) : result Tensor := apply Mul.cls [a; b].

(** Modelled from the spec: [a / b] dispatches Multiply on [a] and the
    reciprocal of [b]. *)
Definition Tensor_truediv (a b : Tensor) : result Tensor :=
  ib ← apply Inv.cls [b]; apply Mul.cls [a; ib].

(** *** Helpers for constructing tensors *)

(** [zeros(shape, backend)]: produce a zero tensor of size [shape]. *)
Definition zeros (sh : list nat) (be : TensorBackend) : result Tensor :=
  Tensor_make (replicate (operators.prod sh) 0%float) sh be.

(** The function [_tensor(ls, shape, backend, requires_grad)]: produce a
    tensor with data [ls] and shape [shape].  (It is named apart from the
    attribute [_tensor] of a tensor.) *)
Definition _tensor_fn (ls : list float) (sh : list nat) (be : TensorBackend)
    (rg : bool) : result Tensor :=
  t ← Tensor_make ls sh be;
  Ok (requires_grad_ rg t).

(** Nested Python lists of floats, the argument of [tensor]. *)
Inductive PyData : Type :=
| PyFloat (x : float)
| PyList (l : list PyData).

(** The local function [shape] of [tensor]:
    [[len(ls)] + shape(ls[0])] for a list, [[]] otherwise. *)
Fixpoint tensor_shape (ls : PyData) : result (list nat) :=
  match ls with
  | PyList l =>
      match l with
      | [] => Raise IndexError
      | x :: _ => rest ← tensor_shape x; Ok (length l :: rest)
      end
  | PyFloat _ => Ok []
  end.

(** The local function [flatten] of [tensor]. *)
Fixpoint tensor_flatten (ls : PyData) : list float :=
  match ls with
  | PyList l => concat (map tensor_flatten l)
  | PyFloat x => [x]
  end.

(** [tensor(ls, backend, requires_grad)]: produce a tensor with data and
    shape from [ls]. *)
Definition tensor (ls : PyData) (be : TensorBackend) (rg : bool) : result Tensor :=
  let cur := tensor_flatten ls in
  shape2 ← tensor_shape ls;
  _tensor_fn cur shape2 be rg.

(** Modelled from the spec: [Tensor.expand] ([tensor.py] is absent from
    [src/]), used when the output of [backward] is of a different size than
    the input of [forward] (4.3): [other] is broadcast to the common shape
    and then reduce-summed over the broadcast dimensions until it matches
    the shape of [self]. *)
Definition expand (self other : Tensor) : result Tensor :=
  let self_shape := shape (_tensor self) in
  if bool_decide (self_shape = shape (_tensor other)) then Ok other
  else
    true_shape ← shape_broadcast self_shape (shape (_tensor other));
    st ← map_storage operators.id (_tensor other) true_shape;
    buf ← Tensor_make st true_shape (backend self);
    if bool_decide (self_shape = true_shape) then Ok buf
    else
      let orig_shape :=
        replicate (length true_shape - length self_shape) 1 ++ self_shape in
      out ← foldM
              (fun out '(dim, (o, s)) =>
                 if (o =? 1) && negb (s =? 1)
                 then add_reduce out (Z.of_nat dim) else Ok out)
              (zip (seq 0 (length true_shape)) (zip orig_shape true_shape)) buf;
      _ ← py_assert AssertionError (size (_tensor out) =? size (_tensor self));
      Tensor_make (_storage (_tensor out)) self_shape (backend self).

Module Sigmoid.
Section WithMath.
(** [operators.sigmoid] ([operators.py] is absent from [src/]): the sigmoid
    of the math library, a parameter. *)
Variable sigmoid : float -> float.
(** Forward pass for the sigmoid activation function: the output is saved. *)
Definition forward (c : Context) (a : Tensor) : Context * result Tensor :=
  match tensor_map sigmoid a with
  | Ok out => (save_for_backward c [SavedTensor out], Ok out)
  | Raise e => (c, Raise e)
  | Outside => (c, Outside)
  end.
(** Backward pass for the sigmoid activation function:
    [grad_output * out * (one - out)] with [one = tensor([1.0])]. *)
Definition backward (c : Context) (grad_output : Tensor) : result PyReturn :=
  v ← unpack1 c;
  one ← tensor (PyList [PyFloat 1%float]) SimpleBackend false;
  out ← as_tensor v;
  go ← Tensor_mul grad_output out;
  d ← Tensor_sub one out;
  g ← Tensor_mul go d;
  Ok (ReturnOne (GradTensor g)).
Definition cls : Function := mkFunction SigmoidCls (arity1 forward) backward.
End WithMath.
End Sigmoid.

Module ReLU.
(** Forward pass for the ReLU activation function. *)
Definition forward (c : Context) (a : Tensor) : Context * result Tensor :=
  let c := save_for_backward c [SavedTensor a] in
  (c, relu_map a).
(** Backward pass for the ReLU activation function:
    [grad_output * a.f.relu_back_zip(a, grad_output)]. *)
Definition backward (c : Context) (grad_output : Tensor) : result PyReturn :=
  v ← unpack1 c;
  a ← as_tensor v;
  r ← relu_back_zip a grad_output;
  g ← Tensor_mul grad_output r;
  Ok (ReturnOne (GradTensor g)).
Definition cls : Function := mkFunction ReLUCls (arity1 forward) backward.
End ReLU.

Module Log.
Section WithMath.
(** [operators.log] ([operators.py] is absent from [src/]): the logarithm
    of the math library, a parameter. *)
Variable log : float -> float.
(** Forward pass for the natural logarithm function. *)
Definition forward (c : Context) (a : Tensor) : Context * result Tensor :=
  let c := save_for_backward c [SavedTensor a] in
  (c, tensor_map log a).
(** Backward pass for the natural logarithm function: [grad_output / a]. *)
Definition backward (c : Context) (grad_output : Tensor) : result PyReturn :=
  v ← unpack1 c;
  a ← as_tensor v;
  g ← Tensor_truediv grad_output a;
  Ok (ReturnOne (GradTensor g)).
Definition cls : Function := mkFunction LogCls (arity1 forward) backward.
End WithMath.
End Log.

Module Exp.
Section WithMath.
(** [operators.exp] ([operators.py] is absent from [src/]): the exponential
    of the math library, a parameter. *)
Variable exp : float -> float.
(** Forward pass for the exponential function: the output is saved. *)
Definition forward (c : Context) (a : Tensor) : Context * result Tensor :=
  match tensor_map exp a with
  | Ok out => (save_for_backward c [SavedTensor out], Ok out)
  | Raise e => (c, Raise e)
  | Outside => (c, Outside)
  end.
(** Backward pass for the exponential function: [grad_output * out]. *)
Definition backward (c : Context) (grad_output : Tensor) : result PyReturn :=
  v ← unpack1 c;
  out ← as_tensor v;
  g ← Tensor_mul grad_output out;
  Ok (ReturnOne (GradTensor g)).
Definition cls : Function := mkFunction ExpCls (arity1 forward) backward.
End WithMath.
End Exp.

Module Sum.
(** [dims_to_sum]: [[int(d) for d in dim._tensor._storage]] if
    [dim._tensor.size > 1], else [[int(dim._tensor._storage[0])]]. *)
Definition dims_to_sum (dim : Tensor) : result (list Z) :=
  if 1 <? size (_tensor dim)
  then mapM_result py_int (_storage (_tensor dim))
  else
    x ← from_option IndexError (_storage (_tensor dim) !! 0);
    d ← py_int x;
    Ok [d].

(** [for d in dims_to_sum: result = result.f.add_reduce(result, d)] *)
Definition reduce_dims (a : Tensor) (ds : list Z) : result Tensor :=
  foldM (fun res d => add_reduce res d) ds a.

(** Forward pass for the sum reduction operation; [dim] is a tensor or
    [None]. *)
Definition forward (c : Context) (a : Tensor) (dim : option Tensor)
  : Context * result Tensor :=
  let c := save_for_backward c
             [SavedTensor a; from_option_saved dim] in
  match dim with
  | None => (c, Ok a)
  | Some dim =>
      (c,
       ds ← dims_to_sum dim;
       res ← reduce_dims a ds;
       if 1 <? size (_tensor res) then Ok res
       else
         x ← from_option IndexError (_storage (_tensor res) !! 0);
         tensor (PyList [PyFloat x]) SimpleBackend false)
  end.

(** Backward pass for the sum reduction operation. *)
Definition backward (c : Context) (grad_output : Tensor) : result PyReturn :=
  '(va, vdim) ← unpack2 c;
  match vdim with
  | SavedNone =>
      a ← as_tensor va;
      g ← expand a grad_output;
      Ok (ReturnOne (GradTensor g))
  | _ =>
      a ← as_tensor va;
      g ← expand a grad_output;
      dim ← as_tensor vdim;
      z ← zeros (shape (_tensor dim)) SimpleBackend;
      Ok (ReturnTuple [GradTensor g; GradTensor z])
  end.

(** The class on input tensors ([*inps: Tensor]), as [apply] passes them:
    both arguments are tensors.  A call with [None] in place of the
    dimension, which [forward] accepts, is [forward c a None]. *)
Definition cls : Function :=
  mkFunction SumCls (arity2 (fun c a dim => forward c a (Some dim))) backward.
End Sum.

Module LT.
(** Forward pass for the less than comparison operation. *)
Definition forward (c : Context) (a b : Tensor) : Context * result Tensor :=
  (c, lt_zip a b).
(** Backward pass for the less than comparison operation:
    [zeros(grad_output.shape), zeros(grad_output.shape)]. *)
Definition backward (c : Context) (grad_output : Tensor) : result PyReturn :=
  z1 ← zeros (shape (_tensor grad_output)) SimpleBackend;
  z2 ← zeros (shape (_tensor grad_output)) SimpleBackend;
  Ok (ReturnTuple [GradTensor z1; GradTensor z2]).
Definition cls : Function := mkFunction LTCls (arity2 forward) backward.
End LT.

Module EQ.
(** Forward pass for the equality comparison operation. *)
Definition forward (c : Context) (a b : Tensor) : Context * result Tensor :=
  (c, eq_zip a b).
(** Backward pass for the equality comparison operation. *)
Definition backward (c : Context) (grad_output : Tensor) : result PyReturn :=
  z1 ← zeros (shape (_tensor grad_output)) SimpleBackend;
  z2 ← zeros (shape (_tensor grad_output)) SimpleBackend;
  Ok (ReturnTuple [GradTensor z1; GradTensor z2]).
Definition cls : Function := mkFunction EQCls (arity2 forward) backward.
End EQ.

Module IsClose.
Section WithOperators.
(** [operators.is_close] ([operators.py] is absent from [src/], and the
    spec gives no tolerance for it): a parameter. *)
Variable is_close : float -> float -> float.
(** Forward pass for the is_close comparison operation. *)
Definition forward (c : Context) (a b : Tensor) : Context * result Tensor :=
  (c, tensor_zip is_close a b).
End WithOperators.
(** Backward pass for the is_close comparison operation. *)
Definition backward (c : Context) (grad_output : Tensor) : result PyReturn :=
  z1 ← zeros (shape (_tensor grad_output)) SimpleBackend;
  z2 ← zeros (shape (_tensor grad_output)) SimpleBackend;
  Ok (ReturnTuple [GradTensor z1; GradTensor z2]).
Definition cls (is_close : float -> float -> float) : Function :=
  mkFunction IsCloseCls (arity2 (forward is_close)) backward.
End IsClose.

Module Copy.
(** Id function makes contiguous. *)
Definition forward (c : Context) (a : Tensor) : Context * result Tensor :=
  (c, id_map a).
(** Undo. *)
Definition backward (c : Context) (grad_output : Tensor) : result PyReturn :=
  Ok (ReturnOne (GradTensor grad_output)).
Definition cls : Function := mkFunction CopyCls (arity1 forward) backward.
End Copy.

(** Modelled from the spec: [Tensor.contiguous] of [tensor.py], which is
    absent from [src/]: it dispatches Copy/Id, which "forces a contiguous
    materialized copy". *)
Definition contiguous (a : Tensor) : result Tensor := apply Copy.cls [a].

(** [numpy]'s [astype(int)] on a float: truncation towards zero to a 64-bit
    integer; for [nan], the infinities and the floats whose truncation is
    no 64-bit integer it gives the least 64-bit integer. *)
Definition numpy_astype_int (x : float) : Z :=
  match py_int x with
  | Ok z => if (- 2 ^ 63 <=? z)%Z && (z <? 2 ^ 63)%Z then z else (- 2 ^ 63)%Z
  | _ => (- 2 ^ 63)%Z
  end.

(** Modelled from the spec: [t.to_numpy().astype(int).tolist()]
    ([Tensor.to_numpy] is in [tensor.py], absent from [src/]): the elements
    of the contiguous copy of a one-dimensional tensor as integers; a tensor
    of another rank does not give a list of integers. *)
Definition to_int_list (t : Tensor) : result (list Z) :=
  c ← contiguous t;
  if dims (_tensor t) =? 1 then Ok (numpy_astype_int <$> _storage (_tensor c))
  else Raise TypeError.

Module Permute.
(** Forward pass for the permute operation. *)
Definition forward (c : Context) (a order : Tensor) : Context * result Tensor :=
  match to_int_list order with
  | Raise e => (c, Raise e)
  | Outside => (c, Outside)
  | Ok orders =>
      let c := save_for_backward c [SavedInts orders] in
      (c, td ← permute (_tensor a) orders; Ok (_new a td))
  end.

(** [reverse = [0] * len(orders)] and the loop
    [for i in range(len(orders)): reverse[int(orders[i])] = i]. *)
Definition reverse_order (orders : list Z) : result (list Z) :=
  foldM
    (fun reverse i =>
       o ← from_option IndexError (orders !! i);
       py_setitem reverse o (Z.of_nat i))
    (seq 0 (length orders)) (replicate (length orders) 0%Z).

(** Backward pass for the permute operation. *)
Definition backward (c : Context) (grad_output : Tensor) : result PyReturn :=
  v ← unpack1 c;
  orders ← match v with SavedInts l => Ok l | _ => Raise TypeError end;
  reverse ← reverse_order orders;
  td ← permute (_tensor grad_output) reverse;
  Ok (ReturnTuple [GradTensor (_new grad_output td); GradFloat 0%float]).

Definition cls : Function := mkFunction PermuteCls (arity2 forward) backward.
End Permute.

Module View.
(** [shape2 = [int(shape[i]) for i in range(shape.size)]]: Python integers,
    of either sign. *)
Definition shape2 (sh : Tensor) : result (list Z) :=
  mapM_result
    (fun i =>
       x ← Tensor_getitem sh [i];
       py_int x)
    (seq 0 (size (_tensor sh))).

(** Reshape a tensor to the specified shape. *)
Definition forward (c : Context) (a sh : Tensor) : Context * result Tensor :=
  let c := save_for_backward c [SavedShape (shape (_tensor a))] in
  if negb (is_contiguous (_tensor a)) then (c, Raise ContiguityViolation)
  else
    (c,
     s2 ← shape2 sh;
     Tensor_make_ints (_storage (_tensor a)) s2 (backend a)).

(** The backward of View: [grad_output] with the saved original shape. *)
Definition backward (c : Context) (grad_output : Tensor) : result PyReturn :=
  v ← unpack1 c;
  original ← match v with SavedShape s => Ok s | _ => Raise TypeError end;
  t ← Tensor_make (_storage (_tensor grad_output)) original (backend grad_output);
  Ok (ReturnTuple [GradTensor t; GradFloat 0%float]).

Definition cls : Function := mkFunction ViewCls (arity2 forward) backward.
End View.

(** A Python integer (here a natural number) as the float a tensor stores
    for it. *)
Definition float_of_nat (n : nat) : float :=
  PrimFloat.of_uint63 (Uint63.of_Z (Z.of_nat n)).

(** Modelled from the spec: [Tensor.view] of [tensor.py], which is absent
    from [src/]: it dispatches View with the requested shape as a tensor. *)
Definition view (a : Tensor) (sh : list nat) : result Tensor :=
  s ← tensor (PyList (PyFloat <$> (float_of_nat <$> sh))) SimpleBackend false;
  apply View.cls [a; s].

Module All.
(** Return 1 if all are true; [dim] is a tensor or [None]. *)
Definition forward (c : Context) (a : Tensor) (dim : option Tensor)
  : Context * result Tensor :=
  match dim with
  | Some dim =>
      (c, x ← item dim; d ← py_int x; mul_reduce a d)
  | None =>
      (c,
       ca ← contiguous a;
       v ← view ca [operators.prod (shape (_tensor a))];
       mul_reduce v 0%Z)
  end.
(** The class defines no [backward]: looking it up raises. *)
Definition backward (c : Context) (grad_output : Tensor) : result PyReturn :=
  Raise AttributeError.
(** The class on input tensors ([*inps: Tensor]), as [apply] passes them:
    both arguments are tensors.  A call with [None] in place of the
    dimension, which [forward] accepts, is [forward c a None]. *)
Definition cls : Function :=
  mkFunction AllCls (arity2 (fun c a dim => forward c a (Some dim))) backward.
End All.

Module MatMul.
Section WithBackend.
(** The backend's [matrix_multiply] (6; [tensor_ops.py] is absent from
    [src/]): the "batched product over the trailing two dimensions", or an
    exception; a parameter. *)
Variable matrix_multiply : Tensor -> Tensor -> result Tensor.

(** Matrix Multiply Forward *)
Definition forward (c : Context) (t1 t2 : Tensor) : Context * result Tensor :=
  let c := save_for_backward c [SavedTensor t1; SavedTensor t2] in
  (c, matrix_multiply t1 t2).

(** The local function [transpose] of [backward]:
    [order = list(range(a.dims))], the last two entries swapped, and
    [a._new] of [a._tensor.permute] at that order. *)
Definition transpose (a : Tensor) : result Tensor :=
  let order := Z.of_nat <$> seq 0 (dims (_tensor a)) in
  x ← py_getitem order (-1);
  y ← py_getitem order (-2);
  order ← py_setitem order (-2) x;
  order ← py_setitem order (-1) y;
  td ← permute (_tensor a) order;
  Ok (_new a td).

(** Matrix Multiply backward *)
Definition backward (c : Context) (grad_output : Tensor) : result PyReturn :=
  '(v1, v2) ← unpack2 c;
  t2 ← as_tensor v2;
  tt2 ← transpose t2;
  g1 ← matrix_multiply grad_output tt2;
  t1 ← as_tensor v1;
  tt1 ← transpose t1;
  g2 ← matrix_multiply tt1 grad_output;
  Ok (ReturnTuple [GradTensor g1; GradTensor g2]).

Definition cls : Function := mkFunction MatMulCls (arity2 forward) backward.
End WithBackend.
End MatMul.

(** Modelled from the spec: [Tensor.sum] with no dimension ([tensor.py] is
    absent from [src/]): Sum-reduce "sums over ... the fully flattened
    tensor if no dimension given"; it dispatches Sum on the contiguous
    one-dimensional view, over dimension 0. *)
Definition Tensor_sum (a : Tensor) : result Tensor :=
  ca ← contiguous a;
  v ← view ca [size (_tensor a)];
  d ← Tensor_make [0%float] [1] (backend a);
  apply Sum.cls [v; d].

(** ** Random tensors and the gradient check *)

(** The state of the global random generator of Python's [random]: unseeded,
    or what the seed and the number of draws since determine. *)
Inductive RngState : Type :=
| Unseeded
| Seeded (seed : Z) (draws : nat).

(** The mutable state [grad_check] works on: the tensor objects its
    arguments refer to (an argument is an index into [objects], so that one
    object passed twice is one object) and the random generator. *)
Record World : Type := mkWorld {
  objects : list Tensor;
  rng : RngState
}.

(** [random.seed(n)] *)
Definition random_seed (n : Z) (w : World) : World :=
  mkWorld (objects w) (Seeded n 0).

(** The object an argument refers to. *)
Definition deref (w : World) (x : nat) : result Tensor :=
  from_option AttributeError (objects w !! x).

(** An in-place update of the object an argument refers to. *)
Definition update (x : nat) (g : Tensor -> Tensor) (w : World) : result World :=
  t ← deref w x;
  Ok (mkWorld (<[x := g t]> (objects w)) (rng w)).

Section Random.

(** [random.random()]: a float in [0, 1) and the generator after the draw;
    a parameter. *)
Variable random_random : RngState -> float * RngState.

(** [[random.random() for _ in range(n)]] *)
Fixpoint random_list (n : nat) (r : RngState) : list float * RngState :=
  match n with
  | 0 => ([], r)
  | S n =>
      let '(x, r) := random_random r in
      let '(xs, r) := random_list n r in
      (x :: xs, r)
  end.

(** [rand(shape, backend, requires_grad)]: produce a random tensor of size
    [shape]. *)
Definition rand (sh : list nat) (be : TensorBackend) (rg : bool) (w : World)
  : result (Tensor * World) :=
  let '(vals, r) := random_list (operators.prod sh) (rng w) in
  t ← Tensor_make vals sh be;
  Ok (requires_grad_ rg t, mkWorld (objects w) r).

End Random.

(** An argument of the function under test: an object of the store, which
    the function may change in place, or a temporary tensor that only the
    call holds. *)
Inductive Argument : Type :=
| Stored (x : nat)
| Temporary (t : Tensor).

(** The tensor an argument is when the call begins. *)
Definition arg_value (w : World) (a : Argument) : result Tensor :=
  match a with
  | Stored x => deref w x
  | Temporary t => Ok t
  end.

Section GradCheck.

(** The function under test, called on the unpacked [vals]: a Python
    function that is given the argument objects and runs in the state of the
    program; it may draw from the global random generator and change the
    objects of the store in place; it returns a tensor, or raises. *)
Variable f : list Argument -> World -> result (Tensor * World).

(** [[x if j != arg else op(x, up) for j, x in enumerate(vals)]]: the
    argument objects themselves but at position [arg], where it is a new
    tensor. *)
Definition perturb (op : Tensor -> Tensor -> result Tensor) (vals : list nat)
    (arg : nat) (up : Tensor) (w : World) : result (list Argument) :=
  mapM_result
    (fun '(j, x) =>
       if negb (j =? arg) then Ok (Stored x)
       else t ← deref w x; t' ← op t up; Ok (Temporary t'))
    (zip (seq 0 (length vals)) vals).

(** Compute gradient using central difference method. *)
Definition grad_central_difference (vals : list nat) (arg : nat)
    (epsilon : float) (ind : list nat) (w : World) : result (float * World) :=
  r ← from_option IndexError (vals !! arg);
  x ← deref w r;
  up ← zeros (shape (_tensor x)) SimpleBackend;
  up ← Tensor_setitem up ind epsilon;
  vals1 ← perturb Tensor_add vals arg up w;
  vals2 ← perturb Tensor_sub vals arg up w;
  '(o1, w) ← f vals1 w;
  s1 ← Tensor_sum o1;
  '(o2, w) ← f vals2 w;
  s2 ← Tensor_sum o2;
  delta ← Tensor_sub s1 s2;
  d0 ← Tensor_getitem delta [0];
  Ok ((d0 / (2 * epsilon))%float, w).

(** The Backward Engine (4.3; [autodiff.py] and [tensor.py] are absent from
    [src/]), [t.backward()] for a tensor [t], which deposits gradients into
    the objects of the graph: a parameter. *)
Variable backward_engine : Tensor -> World -> result World.

(** [x._tensor.sample()] ([tensor_data.py] is absent from [src/]): a random
    index into the tensor, and the generator after it; a parameter. *)
Variable sample : RngState -> TensorData -> list nat * RngState.

(** [np.testing.assert_allclose(actual, desired, rtol, atol)] of [numpy]:
    whether the assertion holds; a parameter. *)
Variable assert_allclose : float -> float -> float -> float -> bool.

(** The first loop of [grad_check]:
    [for x in vals: x.requires_grad_(True); x.zero_grad_()]. *)
Definition reset_arguments (vals : list nat) (w : World) : result World :=
  foldM
    (fun w x =>
       w ← update x (requires_grad_ true) w;
       update x zero_grad_ w)
    vals w.

(** The body of the second loop of [grad_check], for
    [i, x in enumerate(vals)]; the tolerances are the third and the fourth
    argument of [assert_allclose], [rtol] and [atol].  The gradient slot of
    [x] is read after the central difference has called [f]. *)
Definition check_argument (vals : list nat) (w : World) (i x : nat) : result World :=
  t ← deref w x;
  let '(ind, r) := sample (rng w) (_tensor t) in
  let w := mkWorld (objects w) r in
  '(check, w) ← grad_central_difference vals i 1e-6%float ind w;
  t ← deref w x;
  g ← from_option AssertionError (grad t);
  actual ← Tensor_getitem g ind;
  if assert_allclose actual check 1e-2%float 1e-2%float then Ok w
  else Raise GradientCheckFailure.

(** Check whether autodiff matches central difference. *)
Definition grad_check (vals : list nat) (w : World) : result World :=
  w ← reset_arguments vals w;
  let w := random_seed 10 w in
  '(out, w) ← f (Stored <$> vals) w;
  s ← Tensor_sum out;
  w ← backward_engine s w;
  foldM (fun w '(i, x) => check_argument vals w i x)
        (zip (seq 0 (length vals)) vals) w.

End GradCheck.

(** ** Well-formed tensor data *)

(** The tensors [Tensor.make] builds: contiguous strides and a buffer of the
    size of the shape. *)
Definition contiguous_data (td : TensorData) : Prop :=
  strides td = strides_from_shape (shape td)
  /\ length (_storage td) = operators.prod (shape td).

(** The entries of [l] at the positions [p]. *)
Definition select (l : list nat) (p : list nat) : list nat :=
  (fun i => default 0 (l !! i)) <$> p.

(** The tensor data that the constructor accepts with explicit strides. *)
Definition valid_data (td : TensorData) : Prop :=
  length (strides td) = length (shape td)
  /\ length (_storage td) = operators.prod (shape td).

(** *** The inverse order computed by the backward of Permute *)
(** The writes of the loop, on natural numbers. *)
Definition write_inverse (r : list nat) (ij : nat * nat) : list nat :=
  <[ij.2 := ij.1]> r.

(** The inverse of an order, as the loop of the backward of Permute builds
    it. *)
Definition inverse_order (p : list nat) : list nat :=
  fold_left write_inverse (zip (seq 0 (length p)) p) (replicate (length p) 0).

(** The order of [transpose] for [n + 2] dimensions: the last two axes
    swapped. *)
Definition swapped_order (n : nat) : list nat := seq 0 n ++ [S n; n].

(** The contract of the Backward Engine with the rest of the state (5):
    "the only mutable state is each node's gradient-accumulation slot,
    written exclusively by the Backward Engine"; it leaves the random
    generator, the number of objects and the value and the Graph Edge of
    every object as they are. *)
Definition writes_gradients_only (engine : Tensor -> World -> result World) : Prop :=
  forall s w w',
    engine s w = Ok w' ->
    rng w' = rng w
    /\ forall x t, objects w !! x = Some t ->
         exists t', objects w' !! x = Some t'
           /\ history t' = history t /\ _tensor t' = _tensor t.

(** A function under test that leaves the state of the program as it is: it
    draws nothing from the random generator and changes no object. *)
Definition leaves_state (f : list Argument -> World -> result (Tensor * World)) : Prop :=
  forall args w out w', f args w = Ok (out, w') -> w' = w.

(** The random generator after one index was sampled for each of the
    arguments [vals], in order. *)
Definition rng_after_samples (sample : RngState -> TensorData -> list nat * RngState)
    (objs : list Tensor) (vals : list nat) (r : RngState) : RngState :=
  fold_left
    (fun r x =>
       match objs !! x with
       | Some t => (sample r (_tensor t)).2
       | None => r
       end)
    vals r.

(** ** Indices, bounds and broadcasting *)

(** Whether [key] is an index into a tensor of shape [sh]: one entry per
    dimension, each below the extent of its dimension. *)
Definition valid_index (key sh : list nat) : bool :=
  (length key =? length sh) && forallb (fun '(i, s) => i <? s) (zip key sh).

(** Whether every index into the tensor is at a position of its buffer. *)
Definition in_bounds (td : TensorData) : bool :=
  forallb
    (fun ordinal =>
       index_to_position (to_index ordinal (shape td)) (strides td)
         <? length (_storage td))
    (seq 0 (size td)).

(** Whether a tensor of shape [small] broadcasts to the shape [big] itself:
    aligned from the trailing edge, each extent of [small] is the extent of
    [big] or 1. *)
Definition broadcasts_to (small big : list nat) : bool :=
  (length small <=? length big)
  && forallb (fun '(s, gs) => (gs =? s) || (gs =? 1))
       (zip (drop (length big - length small) big) small).

(** Whether the Python integer [i] indexes a list of length [len]. *)
Definition in_range (len : nat) (i : Z) : Prop :=
  (- Z.of_nat len <= i < Z.of_nat len)%Z.

(** Whether nested lists are rectangular, of shape [sh]: every list at depth
    [k] has as many elements as the [k]-th extent, which is not zero. *)
Fixpoint is_rectangular (ls : PyData) (sh : list nat) : bool :=
  match ls, sh with
  | PyFloat _, [] => true
  | PyList l, n :: sh' =>
      (length l =? n) && (0 <? n) && forallb (fun x => is_rectangular x sh') l
  | _, _ => false
  end.

(** The generator after [n] draws of [random.random()]. *)
Definition rng_after_draws (random_random : RngState -> float * RngState) (n : nat)
    (r : RngState) : RngState :=
  Nat.iter n (fun r => (random_random r).2) r.

(** The subclasses of [Function] of this file, in the order of the file, for
    given functions of the math library and a given matrix product of the
    backend. *)
Definition functions (sigmoid log exp : float -> float)
    (is_close : float -> float -> float)
    (matrix_multiply : Tensor -> Tensor -> result Tensor) : list Function :=
  [Neg.cls; Inv.cls; Add.cls; All.cls; Mul.cls; Sigmoid.cls sigmoid; ReLU.cls;
   Log.cls log; Exp.cls exp; Sum.cls; LT.cls; EQ.cls; IsClose.cls is_close;
   Permute.cls; View.cls; Copy.cls; MatMul.cls matrix_multiply].

(** A saved value that is no tensor, or a tensor without a Graph Edge and
    without a gradient. *)
Definition untracked (v : SavedValue) : Prop :=
  match v with
  | SavedTensor t => history t = None /\ grad t = None
  | _ => True
  end.

(** ** Concrete inputs

    Small tensors on which the functions above are evaluated below. *)

(** A contiguous tensor without history, as [Tensor.make] builds it. *)
Definition contiguous_tensor (storage : list float) (sh : list nat)
    (be : TensorBackend) : Tensor :=
  mkTensor (mkTensorData storage sh (strides_from_shape sh)) None None be.

(** [Context(False)] *)
Definition tracking_ctx : Context := mkContext false [].

(** [tensor([1.0, 2.0])] and [tensor([1.5])]: shapes (2,) and (1,). *)
Definition t_1_2 : Tensor := contiguous_tensor [1; 2]%float [2] SimpleBackend.
Definition t_15 : Tensor := contiguous_tensor [1.5]%float [1] SimpleBackend.
(** A gradient of ones of shape (2,). *)
Definition ones_2 : Tensor := contiguous_tensor [1; 1]%float [2] SimpleBackend.
(** [tensor([1.0])] and [tensor([2.0])] *)
Definition t_1 : Tensor := contiguous_tensor [1]%float [1] SimpleBackend.
Definition t_2 : Tensor := contiguous_tensor [2]%float [1] SimpleBackend.

(** A 2 x 3 tensor and the order (1, 0) as a tensor. *)
Definition t_2x3 : Tensor :=
  contiguous_tensor [1; 2; 3; 4; 5; 6]%float [2; 3] SimpleBackend.
Definition order_1_0 : Tensor := contiguous_tensor [1; 0]%float [2] SimpleBackend.

(** The 2 x 3 tensor with its axes permuted to 3 x 2: a view that is not
    contiguous. *)
Definition t_2x3_permuted : Tensor :=
  mkTensor (mkTensorData [1; 2; 3; 4; 5; 6]%float [3; 2] [1; 3]) None None SimpleBackend.

(** The shapes (3, 2), (2, 2), (-2, -3) and (-1,) as tensors. *)
Definition shape_3_2 : Tensor := contiguous_tensor [3; 2]%float [2] SimpleBackend.
Definition shape_2_2 : Tensor := contiguous_tensor [2; 2]%float [2] SimpleBackend.
Definition shape_m2_m3 : Tensor := contiguous_tensor [-2; -3]%float [2] SimpleBackend.
Definition shape_m1 : Tensor := contiguous_tensor [-1]%float [1] SimpleBackend.

(** A 2 x 3 tensor on another backend, and the dimensions (0, 1) and (0,) as
    tensors. *)
Definition t_2x3_other : Tensor :=
  contiguous_tensor [1; 2; 3; 4; 5; 6]%float [2; 3] (OtherBackend 7).
Definition dims_0_1 : Tensor := contiguous_tensor [0; 1]%float [2] SimpleBackend.
Definition dims_0 : Tensor := contiguous_tensor [0]%float [1] SimpleBackend.

(** A matrix product for two-dimensional tensors, read through their
    strides: the element [(i, j)] of the result is the sum over [k], in
    increasing order and from [0.0], of the products of the elements
    [(i, k)] and [(k, j)]. *)
Definition matmul_2d (a b : Tensor) : result Tensor :=
  match shape (_tensor a), shape (_tensor b) with
  | [m; k], [k'; n] =>
      _ ← py_assert AssertionError (k =? k');
      st ← mapM_result
             (fun ordinal =>
                let i := ordinal / n in
                let j := ordinal mod n in
                foldM
                  (fun acc kk =>
                     x ← TensorData_get (_tensor a) [i; kk];
                     y ← TensorData_get (_tensor b) [kk; j];
                     Ok (acc + x * y)%float)
                  (seq 0 k) 0%float)
             (seq 0 (m * n));
      Tensor_make st [m; n] (backend a)
  | _, _ => Raise NotImplementedError
  end.

(** The matrices [[1, 2], [3, 4]] and [[5, 6], [7, 8]], and the output
    gradient [[1, 10], [100, 1000]]. *)
Definition m_a : Tensor := contiguous_tensor [1; 2; 3; 4]%float [2; 2] SimpleBackend.
Definition m_b : Tensor := contiguous_tensor [5; 6; 7; 8]%float [2; 2] SimpleBackend.
Definition m_g : Tensor :=
  contiguous_tensor [1; 10; 100; 1000]%float [2; 2] SimpleBackend.

(** The function [f(x) = x] of one argument, which leaves the state as it
    is. *)
Definition f_identity (vals : list Argument) (w : World) : result (Tensor * World) :=
  match vals with
  | [x] => t ← arg_value w x; Ok (t, w)
  | _ => Raise TypeError
  end.

(** The identity function of one argument that also seeds the random
    generator with 3, as a function under test that changes the state. *)
Definition f_reseed (vals : list Argument) (w : World) : result (Tensor * World) :=
  match vals with
  | [x] => t ← arg_value w x; Ok (t, random_seed 3 w)
  | _ => Raise TypeError
  end.

(** A tensor of ones like [t]. *)
Definition ones_like (t : Tensor) : Tensor :=
  contiguous_tensor (replicate (size (_tensor t)) 1%float) (shape (_tensor t)) (backend t).

(** The Backward Engine on the graph of [x.sum()] for a leaf [x]: the
    derivative of the sum with respect to every element of [x] is one, and
    it is deposited into the objects that require gradients. *)
Definition deposit_ones (s : Tensor) (w : World) : result World :=
  Ok (mkWorld
        ((fun t => if requires_grad t
                   then mkTensor (_tensor t) (history t) (Some (ones_like t)) (backend t)
                   else t) <$> objects w)
        (rng w)).

(** A sample that is the first index, after one draw. *)
Definition sample_first (r : RngState) (td : TensorData) : list nat * RngState :=
  (replicate (length (shape td)) 0,
   match r with
   | Seeded s d => Seeded s (S d)
   | Unseeded => Unseeded
   end).

(** [numpy]'s criterion: [|actual - desired| <= atol + rtol * |desired|]. *)
Definition allclose (actual desired rtol atol : float) : bool :=
  (abs (actual - desired) <=? atol + rtol * abs desired)%float.

(** A world with one object, [tensor([1.0])], and an unseeded generator. *)
Definition world_1 : World := mkWorld [t_1] Unseeded.

(** That world after [grad_check] of the identity on its object: the object
    requires gradients and holds the gradient [tensor([1.0])], and one
    sample was drawn after the seed 10. *)
Definition world_1_checked : World :=
  mkWorld
    [mkTensor (_tensor t_1) (Some empty_History) (Some t_1) SimpleBackend]
    (Seeded 10 1).

(** The nested list [[[1, 2, 3], [4, 5, 6]]]. *)
Definition nested_2_3 : PyData :=
  PyList [PyList [PyFloat 1; PyFloat 2; PyFloat 3];
          PyList [PyFloat 4; PyFloat 5; PyFloat 6]]%float.

(** A one-dimensional tensor on another backend, and a gradient of shape
    (1, 3). *)
Definition t_1_2_3 : Tensor := contiguous_tensor [1; 2; 3]%float [3] (OtherBackend 7).
Definition g_1x3 : Tensor := contiguous_tensor [1; 10; 100]%float [1; 3] SimpleBackend.

(** A function of one float and a function of two floats, to stand in for
    the functions of the math library. *)
Definition double (x : float) : float := (x + x)%float.
Definition never_close (x y : float) : float := 0%float.

(** The matrix [m_a] as a leaf that requires gradients, and the Graph Edge
    of the product of that leaf and [m_b]. *)
Definition m_a_leaf : Tensor := requires_grad_ true m_a.
Definition mul_history : History :=
  mkHistory (Some MulCls)
    (Some (mkContext false [SavedTensor (detach m_a_leaf); SavedTensor (detach m_b)]))
    [m_a_leaf; m_b].

(** * Properties *)

(** ** The error monad *)

Lemma bind_Ok {A B} (m : result A) (k : A -> result B) b :
  m ≫= k = Ok b -> exists a, m = Ok a /\ k a = Ok b.
Proof. destruct m as [a|e|]; simpl; [eauto | discriminate | discriminate]. Qed.

Lemma mapM_result_Ok_map {A B} (g : A -> result B) (h : A -> B) l :
  (forall x, x ∈ l -> g x = Ok (h x)) -> mapM_result g l = Ok (h <$> l).
Proof.
  induction l as [|x l IH]; intros Hg; simpl; [done|].
  rewrite Hg by left. simpl. rewrite IH; [done|].
  intros y Hy. apply Hg. by right.
Qed.


Lemma apply_loop_acc vals raw ng :
  fold_left
    (fun '(raw_vals, need_grad) v =>
       (raw_vals ++ [detach v], if requires_grad v then true else need_grad))
    vals (raw, ng)
  = (raw ++ (detach <$> vals), ng || existsb requires_grad vals).
Proof.
  revert raw ng. induction vals as [|v vals IH]; intros raw ng; simpl.
  - by rewrite app_nil_r, orb_false_r.
  - rewrite IH. rewrite <- app_assoc. simpl. f_equal.
    destruct (requires_grad v), ng; reflexivity.
Qed.

Lemma apply_loop_spec vals :
  apply_loop vals = (detach <$> vals, existsb requires_grad vals).
Proof. unfold apply_loop. by rewrite apply_loop_acc. Qed.

(** [apply] as one equation: the context has the negated disjunction of the
    inputs' flags, [forward] gets the detached inputs, and the result carries
    a [History] exactly when the disjunction holds. *)
Lemma apply_unfold (cls : Function) (vals : list Tensor) :
  apply cls vals =
    (let need_grad := existsb requires_grad vals in
     let c0 := mkContext (negb need_grad) [] in
     let raw_vals := detach <$> vals in
     c ← snd (cls_forward cls c0 raw_vals);
     Ok (mkTensor (_tensor c)
           (if need_grad
            then Some (mkHistory (Some (cls_name cls))
                         (Some (fst (cls_forward cls c0 raw_vals))) vals)
            else None)
           None (backend c))).
Proof.
  unfold apply. rewrite apply_loop_spec. unfold _forward. cbv zeta.
  destruct (cls_forward cls _ _) as [c1 r]. reflexivity.
Qed.

Lemma existsb_requires_grad vals :
  existsb requires_grad vals = true <-> exists v, v ∈ vals /\ requires_grad v = true.
Proof.
  rewrite existsb_exists. split; intros (v & Hv & Hr); exists v.
  - by rewrite list_elem_of_In.
  - by rewrite <- list_elem_of_In.
Qed.

(** C4. [apply] attaches a Graph Edge to its result if and only if one of the
    inputs requires gradients; the Context it creates has its no-gradient
    flag equal to the negation of that disjunction; and [forward] runs on
    the detached inputs, none of which tracks gradients. *)
Theorem apply_attaches_history (cls : Function) (vals : list Tensor) :
  let need_grad := existsb requires_grad vals in
  let c0 := mkContext (negb need_grad) [] in
  let raw_vals := detach <$> vals in
  apply cls vals =
    (c ← snd (cls_forward cls c0 raw_vals);
     Ok (mkTensor (_tensor c)
           (if need_grad
            then Some (mkHistory (Some (cls_name cls))
                         (Some (fst (cls_forward cls c0 raw_vals))) vals)
            else None)
           None (backend c)))
  /\ no_grad c0 = negb need_grad
  /\ (need_grad = true <-> exists v, v ∈ vals /\ requires_grad v = true)
  /\ Forall (fun v => requires_grad v = false /\ exists v0, v0 ∈ vals /\ v = detach v0)
       raw_vals
  /\ (forall r, apply cls vals = Ok r ->
        (is_Some (history r) <-> exists v, v ∈ vals /\ requires_grad v = true)).
Proof.
  intros need_grad c0 raw_vals.
  pose proof (existsb_requires_grad vals) as Hex. fold need_grad in Hex.
  split; [apply apply_unfold|]. split; [reflexivity|]. split; [exact Hex|]. split.
  - unfold raw_vals. rewrite Forall_fmap. apply Forall_forall. intros v Hv.
    split; [reflexivity|]. by exists v.
  - intros r. rewrite apply_unfold. cbv zeta. fold need_grad. intros Hr.
    apply bind_Ok in Hr as (c & _ & [= <-]).
    rewrite <- Hex. simpl. destruct need_grad; split; intros H; try done.
Qed.


(** ** Constructors *)

Lemma length_strides_from_shape sh : length (strides_from_shape sh) = length sh.
Proof. induction sh; simpl; congruence. Qed.

Lemma TensorData_init_default storage sh :
  length storage = operators.prod sh ->
  TensorData_init storage sh None = Ok (mkTensorData storage sh (strides_from_shape sh)).
Proof.
  intros H. unfold TensorData_init. simpl.
  rewrite length_strides_from_shape, Nat.eqb_refl. simpl.
  rewrite H, Nat.eqb_refl. reflexivity.
Qed.

Lemma Tensor_make_Ok storage sh be :
  length storage = operators.prod sh ->
  Tensor_make storage sh be = Ok (contiguous_tensor storage sh be).
Proof. intros H. unfold Tensor_make. by rewrite TensorData_init_default. Qed.

Lemma Tensor_make_inv storage sh be t :
  Tensor_make storage sh be = Ok t ->
  t = contiguous_tensor storage sh be /\ length storage = operators.prod sh.
Proof.
  unfold Tensor_make, TensorData_init. simpl.
  rewrite length_strides_from_shape, Nat.eqb_refl. simpl.
  destruct (length storage =? operators.prod sh) eqn:E; simpl; [|discriminate].
  intros [= <-]. split; [reflexivity|]. by apply Nat.eqb_eq.
Qed.

Lemma zeros_Ok sh be :
  zeros sh be = Ok (contiguous_tensor (replicate (operators.prod sh) 0%float) sh be).
Proof. unfold zeros. apply Tensor_make_Ok. apply length_replicate. Qed.

(** ** Comparisons *)

(** C3 (as amended). The backward of less-than, equal and is-close returns a
    pair of all-zero tensors on the default backend, each of the shape of
    [grad_output], which is the shape of the output of the comparison. *)
Theorem comparison_backward_zeros_like_grad_output (c : Context) (grad_output : Tensor) :
  let z := contiguous_tensor
             (replicate (operators.prod (shape (_tensor grad_output))) 0%float)
             (shape (_tensor grad_output)) SimpleBackend in
  LT.backward c grad_output = Ok (ReturnTuple [GradTensor z; GradTensor z])
  /\ EQ.backward c grad_output = Ok (ReturnTuple [GradTensor z; GradTensor z])
  /\ IsClose.backward c grad_output = Ok (ReturnTuple [GradTensor z; GradTensor z])
  /\ shape (_tensor z) = shape (_tensor grad_output)
  /\ Forall (fun x => x = 0%float) (_storage (_tensor z)).
Proof.
  intros z. unfold LT.backward, EQ.backward, IsClose.backward.
  rewrite zeros_Ok. fold z. simpl.
  repeat split; try reflexivity.
  apply Forall_forall. intros x Hx. by apply elem_of_replicate in Hx as [-> _].
Qed.

(** C3, counterexample. With [a] of shape (2,) and [b] of shape (1,), [a < b]
    broadcasts to shape (2,); on a gradient of that shape the backward of
    less-than returns for [b] a zero tensor of shape (2,), which is not the
    shape of [b]. *)
Lemma LT_backward_gradient_not_of_input_shape :
  exists out ga gb,
    snd (LT.forward tracking_ctx t_1_2 t_15) = Ok out
    /\ shape (_tensor out) = shape (_tensor ones_2)
    /\ LT.backward (fst (LT.forward tracking_ctx t_1_2 t_15)) ones_2
         = Ok (ReturnTuple [GradTensor ga; GradTensor gb])
    /\ shape (_tensor gb) = [2]
    /\ shape (_tensor t_15) = [1]
    /\ shape (_tensor gb) <> shape (_tensor t_15).
Proof.
  eexists _, _, _. split; [reflexivity|]. split; [reflexivity|].
  split; [reflexivity|]. by repeat split.
Qed.

(** ** The kernels on contiguous tensors *)

Lemma fmap_seq_lookup {A} (l : list A) (h : nat -> A) :
  (forall i x, l !! i = Some x -> h i = x) -> h <$> seq 0 (length l) = l.
Proof.
  intros H. apply list_eq. intros i. rewrite list_lookup_fmap.
  destruct (l !! i) as [x|] eqn:E.
  - rewrite lookup_seq_lt by (by eapply lookup_lt_Some). simpl. f_equal. eauto.
  - rewrite lookup_seq_ge; [done|]. by apply lookup_ge_None.
Qed.

Lemma length_to_index o sh : length (to_index o sh) = length sh.
Proof. revert o. induction sh; intros o; simpl; [done|]. by rewrite IHsh. Qed.

Lemma index_to_position_to_index sh o :
  o < operators.prod sh ->
  index_to_position (to_index o sh) (strides_from_shape sh) = o.
Proof.
  revert o. induction sh as [|s rest IH]; intros o Ho; simpl in *.
  - lia.
  - set (P := operators.prod rest) in *.
    assert (HP : P <> 0) by (intros E; rewrite E in Ho; lia).
    rewrite IH by (apply Nat.mod_upper_bound; exact HP).
    rewrite Nat.mod_small by (apply Nat.Div0.div_lt_upper_bound; lia).
    pose proof (Nat.div_mod_eq o P). lia.
Qed.

Lemma zip_with_to_index sh o :
  o < operators.prod sh ->
  zip_with (fun s i => if 1 <? s then i else 0) sh (to_index o sh) = to_index o sh.
Proof.
  revert o. induction sh as [|s rest IH]; intros o Ho; simpl in *; [done|].
  set (P := operators.prod rest) in *.
  assert (HP : P <> 0) by (intros E; rewrite E in Ho; lia).
  rewrite IH by (apply Nat.mod_upper_bound; exact HP). f_equal.
  destruct (1 <? s) eqn:E; [done|].
  apply Nat.ltb_ge in E.
  assert (s = 1) as -> by (destruct s as [|[|]]; simpl in *; lia).
  by rewrite Nat.mod_1_r.
Qed.

Lemma broadcast_index_same sh o :
  o < operators.prod sh ->
  broadcast_index (to_index o sh) sh sh = to_index o sh.
Proof.
  intros Ho. unfold broadcast_index. rewrite Nat.sub_diag, drop_0.
  by apply zip_with_to_index.
Qed.

Lemma mapM_result_seq_list {B} (g : nat -> result B) (l : list B) k :
  (forall i x, l !! i = Some x -> g (k + i) = Ok x) ->
  mapM_result g (seq k (length l)) = Ok l.
Proof.
  revert k. induction l as [|y l IH]; intros k H; simpl; [done|].
  rewrite <- (Nat.add_0_r k) at 1. rewrite (H 0 y eq_refl). simpl.
  rewrite IH; [done|]. intros i x Hi.
  replace (S k + i) with (k + S i) by lia. by apply H.
Qed.

Lemma read_contiguous td i x :
  contiguous_data td -> _storage td !! i = Some x ->
  _storage td
    !! index_to_position (broadcast_index (to_index i (shape td)) (shape td) (shape td))
         (strides td) = Some x.
Proof.
  intros [Hst Hlen] Hi.
  assert (i < operators.prod (shape td)).
  { rewrite <- Hlen. by eapply lookup_lt_Some. }
  rewrite broadcast_index_same, Hst, index_to_position_to_index by done. done.
Qed.

Lemma map_storage_contiguous fn td :
  contiguous_data td ->
  map_storage fn td (shape td) = Ok (fn <$> _storage td).
Proof.
  intros Hc. unfold map_storage.
  destruct Hc as [Hst Hlen]. rewrite <- Hlen, <- (length_fmap fn).
  apply mapM_result_seq_list. intros i x Hi. simpl.
  apply list_lookup_fmap_Some in Hi as (y & -> & Hy).
  erewrite read_contiguous by (done || by split). done.
Qed.

Lemma zip_storage_contiguous fn a b :
  contiguous_data a -> contiguous_data b -> shape a = shape b ->
  zip_storage fn a b (shape a) = Ok (zip_with fn (_storage a) (_storage b)).
Proof.
  intros Ha Hb Hs. unfold zip_storage.
  assert (Hl : length (zip_with fn (_storage a) (_storage b)) = operators.prod (shape a)).
  { rewrite length_zip_with. destruct Ha as [_ ->], Hb as [_ ->]. rewrite Hs. lia. }
  rewrite <- Hl. apply mapM_result_seq_list. intros i z Hi. simpl.
  apply lookup_zip_with_Some in Hi as (x & y & -> & Hx & Hy).
  erewrite read_contiguous by done. simpl.
  rewrite Hs. erewrite read_contiguous by done. done.
Qed.

Lemma shape_broadcast_rev_same r : shape_broadcast_rev r r = Ok r.
Proof.
  induction r as [|a r IH]; simpl; [done|].
  rewrite IH. simpl. by rewrite Nat.eqb_refl.
Qed.

Lemma shape_broadcast_same sh : shape_broadcast sh sh = Ok sh.
Proof.
  unfold shape_broadcast. rewrite shape_broadcast_rev_same. simpl.
  by rewrite reverse_involutive.
Qed.

Lemma contiguous_tensor_data st sh be :
  length st = operators.prod sh -> contiguous_data (_tensor (contiguous_tensor st sh be)).
Proof. intros H. by split. Qed.

Lemma tensor_map_contiguous fn a :
  contiguous_data (_tensor a) ->
  tensor_map fn a
  = Ok (contiguous_tensor (fn <$> _storage (_tensor a)) (shape (_tensor a)) (backend a)).
Proof.
  intros Hc. unfold tensor_map. rewrite map_storage_contiguous by done. simpl.
  apply Tensor_make_Ok. rewrite length_fmap. apply Hc.
Qed.

Lemma tensor_zip_contiguous fn a b :
  contiguous_data (_tensor a) -> contiguous_data (_tensor b) ->
  shape (_tensor a) = shape (_tensor b) ->
  tensor_zip fn a b
  = Ok (contiguous_tensor (zip_with fn (_storage (_tensor a)) (_storage (_tensor b)))
          (shape (_tensor a)) (backend a)).
Proof.
  intros Ha Hb Hs. unfold tensor_zip. rewrite <- Hs, shape_broadcast_same. simpl.
  rewrite zip_storage_contiguous by done. simpl.
  apply Tensor_make_Ok. rewrite length_zip_with.
  destruct Ha as [_ ->], Hb as [_ ->]. rewrite Hs. lia.
Qed.

(** ** ReLU *)

Lemma Tensor_mul_contiguous a b :
  contiguous_data (_tensor a) -> contiguous_data (_tensor b) ->
  shape (_tensor a) = shape (_tensor b) ->
  exists t, Tensor_mul a b = Ok t
    /\ _tensor t = mkTensorData
                     (zip_with operators.mul (_storage (_tensor a)) (_storage (_tensor b)))
                     (shape (_tensor a)) (strides_from_shape (shape (_tensor a)))
    /\ backend t = backend a.
Proof.
  intros Ha Hb Hs. unfold Tensor_mul.
  rewrite apply_unfold. simpl.
  unfold mul_zip. rewrite tensor_zip_contiguous by done. simpl.
  eexists. split; [reflexivity|]. done.
Qed.

Lemma ReLU_backward_contiguous c a grad_output :
  contiguous_data (_tensor a) -> contiguous_data (_tensor grad_output) ->
  shape (_tensor a) = shape (_tensor grad_output) ->
  exists t,
    ReLU.backward (fst (ReLU.forward c a)) grad_output = Ok (ReturnOne (GradTensor t))
    /\ _storage (_tensor t)
       = zip_with (fun x d => (d * operators.relu_back x d)%float)
           (_storage (_tensor a)) (_storage (_tensor grad_output))
    /\ shape (_tensor t) = shape (_tensor grad_output).
Proof.
  intros Ha Hg Hs. unfold ReLU.backward, ReLU.forward. simpl.
  unfold relu_back_zip. rewrite tensor_zip_contiguous by done. simpl.
  set (r := contiguous_tensor _ _ _).
  destruct (Tensor_mul_contiguous grad_output r) as (t & Ht & Htd & _).
  - done.
  - apply contiguous_tensor_data. rewrite length_zip_with.
    destruct Ha as [_ ->], Hg as [_ ->]. rewrite Hs. lia.
  - subst r. simpl. congruence.
  - rewrite Ht. simpl. exists t. split; [done|]. rewrite Htd. simpl. split; [|done].
    clear. generalize (_storage (_tensor a)). 
    induction (_storage (_tensor grad_output)) as [|d l IH]; intros [|x l']; simpl; try done.
    f_equal. apply IH.
Qed.

(** C2 at [x = tensor([1.0])] and [grad_output = tensor([2.0])]. The
    backward of ReLU multiplies [grad_output] by the result of
    [relu_back_zip], which already is [grad_output] where [x] is positive:
    it returns [4.0], not [2.0]. *)
Theorem ReLU_backward_multiplies_by_grad_output_twice :
  relu_back_zip t_1 t_2 = Ok t_2
  /\ ReLU.backward (fst (ReLU.forward tracking_ctx t_1)) t_2
     = Ok (ReturnOne (GradTensor (contiguous_tensor [4%float] [1] SimpleBackend))).
Proof. split; reflexivity. Qed.

(** ** Sum *)

Lemma shape_broadcast_scalar sh : sh <> [] -> shape_broadcast sh [1] = Ok sh.
Proof.
  intros Hne. unfold shape_broadcast.
  destruct (reverse sh) as [|b r] eqn:E.
  { apply (f_equal reverse) in E. rewrite reverse_involutive in E. done. }
  change (reverse [1]) with [1]. simpl.
  assert (shape_broadcast_rev r [] = Ok r) as -> by (by destruct r).
  simpl.
  destruct (b =? 1) eqn:Eb; simpl.
  all: rewrite <- E; by rewrite reverse_involutive.
Qed.

Lemma map_storage_scalar fn g s sh :
  sh <> [] ->
  map_storage fn (mkTensorData [g] [1] [s]) sh
  = Ok (replicate (operators.prod sh) (fn g)).
Proof.
  intros Hne. unfold map_storage.
  rewrite <- (length_replicate (operators.prod sh) (fn g)) at 1.
  apply mapM_result_seq_list. intros i x Hi.
  apply lookup_replicate in Hi as [-> Hi]. simpl.
  unfold broadcast_index. simpl.
  pose proof (length_to_index i sh) as Hl.
  destruct (drop (length sh - 1) (to_index i sh)) as [|y l] eqn:E.
  { apply (f_equal length) in E. rewrite length_drop in E. simpl in E.
    destruct sh; [done|]. simpl in *. lia. }
  simpl. destruct l; reflexivity.
Qed.

Lemma expand_scalar a g s be :
  exists t, expand a (mkTensor (mkTensorData [g] [1] [s]) None None be) = Ok t
    /\ shape (_tensor t) = shape (_tensor a)
    /\ _storage (_tensor t) = replicate (operators.prod (shape (_tensor a))) g.
Proof.
  unfold expand, size. simpl.
  destruct (shape (_tensor a)) as [|n sh] eqn:Esh.
  - rewrite bool_decide_false by done. eexists. split; [reflexivity|]. done.
  - case_bool_decide as E1.
    + eexists. split; [reflexivity|]. simpl. injection E1 as -> ->. done.
    + rewrite shape_broadcast_scalar by done. simpl.
      rewrite map_storage_scalar by done. simpl.
      rewrite Tensor_make_Ok by apply length_replicate. simpl.
      rewrite bool_decide_true by done.
      eexists. split; [reflexivity|]. done.
Qed.

Lemma Sum_forward_None c a :
  Sum.forward c a None = (save_for_backward c [SavedTensor a; SavedNone], Ok a).
Proof. reflexivity. Qed.

(** Without a dimension, the backward of Sum broadcasts a one-element
    gradient to every position of the input. *)
Lemma Sum_backward_None_broadcasts c a g s be :
  exists t,
    Sum.backward (fst (Sum.forward c a None))
      (mkTensor (mkTensorData [g] [1] [s]) None None be)
    = Ok (ReturnOne (GradTensor t))
    /\ shape (_tensor t) = shape (_tensor a)
    /\ _storage (_tensor t) = replicate (size (_tensor a)) g.
Proof.
  destruct (expand_scalar a g s be) as (t & Ht & Hs & Hst).
  exists t. unfold Sum.backward. simpl. rewrite Ht. simpl. done.
Qed.

(** C1 at [tensor([1.0, 2.0])]. Without a dimension the forward of Sum
    returns its input unchanged, a tensor of two elements, where the sum of
    all elements is the one-element tensor [3.0] that [Tensor.sum] computes;
    the sibling [All.forward] does reduce the flattened tensor to one
    element when the dimension is [None]. *)
Theorem Sum_forward_without_dim_returns_input :
  snd (Sum.forward tracking_ctx t_1_2 None) = Ok t_1_2
  /\ _storage (_tensor t_1_2) = [1; 2]%float
  /\ size (_tensor t_1_2) = 2
  /\ _tensor <$> Tensor_sum t_1_2 = Ok (mkTensorData [3%float] [1] [1])
  /\ _tensor <$> snd (All.forward tracking_ctx t_1_2 None)
     = Ok (mkTensorData [2%float] [1] [1]).
Proof. repeat split; reflexivity. Qed.

Lemma tensor_reduce_inv fn start a d r :
  tensor_reduce fn start a d = Ok r ->
  length (_storage (_tensor r)) = size (_tensor r) /\ backend r = backend a.
Proof.
  unfold tensor_reduce. intros H.
  apply bind_Ok in H as (k & _ & H).
  apply bind_Ok in H as (st & _ & H).
  apply Tensor_make_inv in H as [-> Hl]. done.
Qed.

Lemma reduce_dims_inv ds : forall a r,
  length (_storage (_tensor a)) = size (_tensor a) ->
  Sum.reduce_dims a ds = Ok r ->
  length (_storage (_tensor r)) = size (_tensor r) /\ backend r = backend a.
Proof.
  unfold Sum.reduce_dims.
  induction ds as [|d ds IH]; intros a r Ha H; simpl in H.
  - injection H as <-. done.
  - apply bind_Ok in H as (a1 & H1 & H).
    apply tensor_reduce_inv in H1 as [Hl Hb].
    apply IH in H as [? ?]; [|done]. split; [done|congruence].
Qed.

(** C9. When the sequential reduction over the listed dimensions leaves
    exactly one element, the forward of Sum returns a new tensor of shape
    (1,) on the default backend holding that element, and not the reduced
    tensor, which is on the backend of the input; when it leaves more than
    one element, it returns the reduced tensor itself. *)
Theorem Sum_forward_single_element (c : Context) (a dim : Tensor) (ds : list Z)
    (r : Tensor) :
  length (_storage (_tensor a)) = size (_tensor a) ->
  Sum.dims_to_sum dim = Ok ds ->
  Sum.reduce_dims a ds = Ok r ->
  backend r = backend a
  /\ (size (_tensor r) = 1 ->
      exists x, _storage (_tensor r) = [x]
        /\ snd (Sum.forward c a (Some dim))
           = Ok (mkTensor (mkTensorData [x] [1] [1]) None None SimpleBackend))
  /\ (1 < size (_tensor r) -> snd (Sum.forward c a (Some dim)) = Ok r).
Proof.
  intros Ha Hds Hr.
  destruct (reduce_dims_inv ds a r Ha Hr) as [Hl Hb].
  split; [exact Hb|]. unfold Sum.forward. simpl. rewrite Hds. simpl. rewrite Hr. simpl.
  split; intros Hsz.
  - rewrite Hsz in *. destruct (_storage (_tensor r)) as [|x [|]] eqn:E; simpl in Hl; try lia.
    exists x. split; [reflexivity|]. reflexivity.
  - apply Nat.ltb_lt in Hsz. by rewrite Hsz.
Qed.

Lemma Sum_forward_single_element_witness :
  Sum.reduce_dims t_2x3_other [0; 1]%Z
    = Ok (contiguous_tensor [21]%float [1; 1] (OtherBackend 7))
  /\ exists x,
       _storage (_tensor (contiguous_tensor [21]%float [1; 1] (OtherBackend 7))) = [x]
       /\ snd (Sum.forward tracking_ctx t_2x3_other (Some dims_0_1))
          = Ok (mkTensor (mkTensorData [x] [1] [1]) None None SimpleBackend).
Proof.
  split; [reflexivity|].
  apply (Sum_forward_single_element tracking_ctx t_2x3_other dims_0_1 [0; 1]%Z
           (contiguous_tensor [21]%float [1; 1] (OtherBackend 7))).
  - reflexivity.
  - reflexivity.
  - reflexivity.
  - reflexivity.
Defined.

(** Summing the 2 x 3 tensor over dimension 0 leaves three elements: the
    reduced tensor, of shape (1, 3) and on the backend of the input, is
    returned as it is. *)
Example Sum_forward_keeps_reduced_tensor :
  snd (Sum.forward tracking_ctx t_2x3_other (Some dims_0))
  = Ok (contiguous_tensor [5; 7; 9]%float [1; 3] (OtherBackend 7)).
Proof. reflexivity. Qed.

(** ** View *)

Lemma prod_ints_to_nat zs :
  Forall (fun z => (0 <= z)%Z) zs ->
  Z.of_nat (operators.prod (Z.to_nat <$> zs)) = operators.prod_ints zs.
Proof.
  induction 1 as [|z zs Hz _ IH]; [done|].
  change (Z.of_nat (Z.to_nat z * operators.prod (Z.to_nat <$> zs))
          = (z * operators.prod_ints zs)%Z).
  rewrite Nat2Z.inj_mul, IH, Z2Nat.id by done. done.
Qed.

Lemma forallb_nonneg zs :
  forallb (fun z => (0 <=? z)%Z) zs = true <-> Forall (fun z => (0 <= z)%Z) zs.
Proof.
  rewrite forallb_forall, List.Forall_forall.
  split; intros H z Hz; apply Z.leb_le; auto.
Qed.

Lemma Tensor_make_ints_nonneg storage zs be :
  Forall (fun z => (0 <= z)%Z) zs ->
  Tensor_make_ints storage zs be = Tensor_make storage (Z.to_nat <$> zs) be.
Proof. intros H. unfold Tensor_make_ints. apply forallb_nonneg in H. by rewrite H. Qed.

Lemma Tensor_make_ints_mismatch storage zs be :
  operators.prod_ints zs <> Z.of_nat (length storage) ->
  Tensor_make_ints storage zs be = Raise AssertionError.
Proof.
  intros Hne. unfold Tensor_make_ints.
  destruct (forallb (fun z => (0 <=? z)%Z) zs) eqn:E.
  - apply forallb_nonneg, prod_ints_to_nat in E.
    unfold Tensor_make, TensorData_init. simpl.
    rewrite length_strides_from_shape, Nat.eqb_refl. simpl.
    destruct (length storage =? operators.prod (Z.to_nat <$> zs)) eqn:El; [|done].
    apply Nat.eqb_eq in El. rewrite El in Hne. by rewrite E in Hne.
  - destruct (Z.of_nat (length storage) =? operators.prod_ints zs)%Z eqn:El; [|done].
    apply Z.eqb_eq in El. by rewrite El in Hne.
Qed.

Lemma Tensor_make_ints_inv storage zs be t :
  Tensor_make_ints storage zs be = Ok t ->
  Forall (fun z => (0 <= z)%Z) zs
  /\ Tensor_make storage (Z.to_nat <$> zs) be = Ok t.
Proof.
  unfold Tensor_make_ints.
  destruct (forallb (fun z => (0 <=? z)%Z) zs) eqn:E.
  - intros H. split; [by apply forallb_nonneg | done].
  - by destruct (Z.of_nat (length storage) =? operators.prod_ints zs)%Z.
Qed.

Lemma mapM_result_seq {A B} (g : nat -> result B) (h : A -> result B) (l : list A) k :
  (forall i x, l !! i = Some x -> g (k + i) = h x) ->
  mapM_result g (seq k (length l)) = mapM_result h l.
Proof.
  revert k. induction l as [|x l IH]; intros k H; simpl; [done|].
  rewrite <- (H 0 x eq_refl), Nat.add_0_r.
  rewrite (IH (S k)); [done|].
  intros i y Hy. rewrite <- (H (S i) y Hy). f_equal. lia.
Qed.

(** The requested shape of a one-dimensional contiguous shape tensor, as
    [tensor([...])] builds it: its entries, each through [int], in order. *)
Lemma shape2_one_dimensional sh :
  shape (_tensor sh) = [length (_storage (_tensor sh))] ->
  strides (_tensor sh) = [1] ->
  View.shape2 sh = mapM_result py_int (_storage (_tensor sh)).
Proof.
  intros Hsh Hst. unfold View.shape2, size. rewrite Hsh.
  replace (operators.prod [length (_storage (_tensor sh))])
    with (length (_storage (_tensor sh)))
    by (unfold operators.prod; simpl; lia).
  apply mapM_result_seq. intros i x Hx. simpl.
  unfold Tensor_getitem, TensorData_get, TensorData_index.
  rewrite Hsh, Hst. simpl.
  apply lookup_lt_Some in Hx as Hi.
  apply Nat.ltb_lt in Hi. rewrite Hi. simpl.
  replace (i * 1 + 0) with i by lia. by rewrite Hx.
Qed.

(** C7. On an input whose buffer is not contiguous the forward of View
    fails at once with the contiguity violation, whatever the requested
    shape.  On a contiguous input it does not always succeed.  The requested
    shape is read from the shape tensor, here one-dimensional and contiguous
    as [tensor([...])] builds it: its entries through [int], in order, the
    integers [zs].  When the product of [zs] is not the number of elements
    of the buffer, the call raises [AssertionError] in the constructor of
    the tensor data.  When it is and no extent is negative, the call returns
    a tensor of the shape [zs] on the backend of the input whose storage is
    the storage of the input.  When it is and an extent is negative, the
    call goes on with a tensor that has a negative extent. *)
Theorem View_forward_contiguity (c : Context) (a sh : Tensor) :
  (is_contiguous (_tensor a) = false ->
   snd (View.forward c a sh) = Raise ContiguityViolation)
  /\ (is_contiguous (_tensor a) = true ->
      shape (_tensor sh) = [length (_storage (_tensor sh))] ->
      strides (_tensor sh) = [1] ->
      forall zs, mapM_result py_int (_storage (_tensor sh)) = Ok zs ->
      (operators.prod_ints zs <> Z.of_nat (length (_storage (_tensor a))) ->
       snd (View.forward c a sh) = Raise AssertionError)
      /\ (operators.prod_ints zs = Z.of_nat (length (_storage (_tensor a))) ->
          Forall (fun z => (0 <= z)%Z) zs ->
          exists t, snd (View.forward c a sh) = Ok t
            /\ Z.of_nat <$> shape (_tensor t) = zs
            /\ _storage (_tensor t) = _storage (_tensor a)
            /\ backend t = backend a)
      /\ (operators.prod_ints zs = Z.of_nat (length (_storage (_tensor a))) ->
          Exists (fun z => (z < 0)%Z) zs ->
          snd (View.forward c a sh) = Outside)).
Proof.
  unfold View.forward. split; intros Hc.
  - by rewrite Hc.
  - intros Hsh Hst zs Hzs. rewrite Hc. simpl.
    rewrite (shape2_one_dimensional sh Hsh Hst), Hzs. simpl.
    split; [|split].
    + apply Tensor_make_ints_mismatch.
    + intros Hp Hpos. rewrite Tensor_make_ints_nonneg by done.
      rewrite Tensor_make_Ok.
      * eexists. split; [reflexivity|]. simpl. split; [|done].
        rewrite <- list_fmap_compose.
        rewrite <- (list_fmap_id zs) at 2. apply Forall_fmap_ext_1.
        eapply Forall_impl; [exact Hpos|]. intros z Hz. by apply Z2Nat.id.
      * apply Nat2Z.inj. by rewrite prod_ints_to_nat.
    + intros Hp Hneg. unfold Tensor_make_ints.
      destruct (forallb (fun z => (0 <=? z)%Z) zs) eqn:E.
      * apply forallb_nonneg in E. apply Exists_exists in Hneg as (z & Hz & Hlt).
        rewrite Forall_forall in E. apply E in Hz. lia.
      * rewrite Hp, Z.eqb_refl. done.
Qed.

Lemma View_forward_contiguity_witness :
  is_contiguous (_tensor t_2x3) = true
  /\ mapM_result py_int (_storage (_tensor shape_3_2)) = Ok [3; 2]%Z
  /\ exists t, snd (View.forward tracking_ctx t_2x3 shape_3_2) = Ok t
       /\ Z.of_nat <$> shape (_tensor t) = [3; 2]%Z
       /\ _storage (_tensor t) = _storage (_tensor t_2x3)
       /\ backend t = backend t_2x3.
Proof.
  split; [reflexivity|]. split; [reflexivity|].
  destruct (View_forward_contiguity tracking_ctx t_2x3 shape_3_2) as [_ H].
  destruct (H eq_refl eq_refl eq_refl [3; 2]%Z eq_refl) as (_ & H2 & _).
  apply H2; [reflexivity|]. repeat constructor; lia.
Defined.

(** The permuted 2 x 3 tensor is not contiguous and View refuses it; the
    2 x 3 tensor itself is viewed as 3 x 2 on the same storage. *)
Example View_forward_on_permuted_tensor :
  is_contiguous (_tensor t_2x3_permuted) = false
  /\ snd (View.forward tracking_ctx t_2x3_permuted shape_3_2) = Raise ContiguityViolation.
Proof. split; reflexivity. Qed.

Example View_forward_on_contiguous_tensor :
  is_contiguous (_tensor t_2x3) = true
  /\ snd (View.forward tracking_ctx t_2x3 shape_3_2)
     = Ok (contiguous_tensor (_storage (_tensor t_2x3)) [3; 2] SimpleBackend).
Proof. split; reflexivity. Qed.

(** C7, counterexample. A contiguous input on which the forward of View
    does not succeed: the 2 x 3 tensor with the requested shape (2, 2),
    which holds four elements where the buffer holds six. *)
Lemma View_forward_contiguous_input_fails :
  is_contiguous (_tensor t_2x3) = true
  /\ View.shape2 shape_2_2 = Ok [2; 2]%Z
  /\ snd (View.forward tracking_ctx t_2x3 shape_2_2) = Raise AssertionError.
Proof. repeat split; reflexivity. Qed.

(** A requested shape with a negative extent whose product is the size of
    the buffer passes the check of the constructor. *)
Example View_forward_negative_extents :
  View.shape2 shape_m2_m3 = Ok [-2; -3]%Z
  /\ snd (View.forward tracking_ctx t_2x3 shape_m2_m3) = Outside.
Proof. split; reflexivity. Qed.

(** ** Permutations of the axes *)
Lemma Sorted_of_nat_seq k n : Sorted Z.le (Z.of_nat <$> seq k n).
Proof.
  revert k. induction n as [|n IH]; intros k; simpl; constructor.
  - apply IH.
  - destruct n; simpl; constructor. lia.
Qed.

Lemma valid_order_perm p n :
  valid_order p n = true ->
  exists p', p = Z.of_nat <$> p' /\ p' ≡ₚ seq 0 n.
Proof.
  unfold valid_order. intros H. apply bool_decide_eq_true in H.
  pose proof (merge_sort_Permutation Z.le p) as Hp. rewrite H in Hp.
  exists (Z.to_nat <$> p). split.
  - rewrite <- list_fmap_compose. symmetry.
    erewrite list_fmap_ext; [apply list_fmap_id|].
    intros i x Hx. simpl.
    assert (x ∈ Z.of_nat <$> seq 0 n) as Hin.
    { rewrite Hp. by eapply list_elem_of_lookup_2. }
    apply list_elem_of_fmap in Hin as (k & -> & _). by rewrite Nat2Z.id.
  - rewrite <- Hp, <- list_fmap_compose.
    erewrite list_fmap_ext; [by rewrite list_fmap_id|].
    intros i x _. simpl. apply Nat2Z.id.
Qed.

Lemma valid_order_of_perm p' n :
  p' ≡ₚ seq 0 n -> valid_order (Z.of_nat <$> p') n = true.
Proof.
  intros Hp. unfold valid_order. apply bool_decide_eq_true.
  apply (Sorted_unique Z.le).
  - apply Sorted_merge_sort. apply _.
  - apply Sorted_of_nat_seq.
  - rewrite merge_sort_Permutation. by rewrite Hp.
Qed.

Lemma prod_Permutation l l' : l ≡ₚ l' -> operators.prod l = operators.prod l'.
Proof.
  induction 1; simpl; try lia. 
Qed.

Lemma select_seq l : select l (seq 0 (length l)) = l.
Proof.
  unfold select. apply fmap_seq_lookup. intros i x Hi. by rewrite Hi.
Qed.

Lemma select_Permutation l p :
  p ≡ₚ seq 0 (length l) -> select l p ≡ₚ l.
Proof.
  intros Hp. unfold select. rewrite Hp. fold (select l (seq 0 (length l))).
  by rewrite select_seq.
Qed.

Lemma length_select l p : length (select l p) = length p.
Proof. apply length_fmap. Qed.

Lemma mapM_lookup_select l (p : list nat) :
  Forall (fun i => i < length l) p ->
  mapM_result (fun i => from_option IndexError (l !! Z.to_nat i)) (Z.of_nat <$> p)
  = Ok (select l p).
Proof.
  induction p as [|i p IH]; intros Hb; [done|].
  apply Forall_cons in Hb as [Hi Hb]. rewrite fmap_cons. simpl.
  rewrite Nat2Z.id. apply lookup_lt_is_Some in Hi as [x Hx]. rewrite Hx. simpl.
  rewrite IH by done. simpl. done.
Qed.

Lemma perm_seq_bound p n : p ≡ₚ seq 0 n -> Forall (fun i => i < n) p.
Proof.
  intros Hp. apply Forall_forall. intros i Hi. rewrite Hp in Hi.
  apply elem_of_seq in Hi. lia.
Qed.

Lemma permute_perm td p :
  valid_data td -> p ≡ₚ seq 0 (length (shape td)) ->
  permute td (Z.of_nat <$> p)
  = Ok (mkTensorData (_storage td) (select (shape td) p) (select (strides td) p)).
Proof.
  intros [Hst Hlen] Hp. unfold permute.
  rewrite valid_order_of_perm by done. simpl.
  pose proof (perm_seq_bound _ _ Hp) as Hb.
  rewrite (mapM_lookup_select (shape td) p Hb). simpl.
  rewrite <- Hst in Hb.
  rewrite (mapM_lookup_select (strides td) p Hb). simpl.
  unfold TensorData_init. simpl. rewrite !length_select, Nat.eqb_refl. simpl.
  rewrite (prod_Permutation _ _ (select_Permutation _ _ Hp)), Hlen, Nat.eqb_refl.
  reflexivity.
Qed.

Lemma py_index_in_range len j : j < len -> py_index len (Z.of_nat j) = Some j.
Proof.
  intros H. unfold py_index.
  assert ((0 <=? Z.of_nat j)%Z && (Z.of_nat j <? Z.of_nat len)%Z = true) as ->.
  { apply andb_true_iff. split; [apply Z.leb_le|apply Z.ltb_lt]; lia. }
  by rewrite Nat2Z.id.
Qed.

Lemma py_setitem_in_range {A} (l : list A) j x :
  j < length l -> py_setitem l (Z.of_nat j) x = Ok (<[j := x]> l).
Proof. intros H. unfold py_setitem. by rewrite py_index_in_range. Qed.

Lemma py_getitem_in_range {A} (l : list A) j x :
  l !! j = Some x -> py_getitem l (Z.of_nat j) = Ok x.
Proof.
  intros H. unfold py_getitem.
  rewrite py_index_in_range by (by eapply lookup_lt_Some). simpl. by rewrite H.
Qed.

Lemma reverse_order_loop (p : list nat) n : forall k (r : list nat),
  length r = n -> Forall (fun j => j < n) p ->
  forall full : list Z, (forall i j, p !! i = Some j -> full !! (k + i) = Some (Z.of_nat j)) ->
  foldM
    (fun reverse i =>
       o ← from_option IndexError (full !! i);
       py_setitem reverse o (Z.of_nat i))
    (seq k (length p)) (Z.of_nat <$> r)
  = Ok (Z.of_nat <$> fold_left write_inverse (zip (seq k (length p)) p) r).
Proof.
  induction p as [|j p IH]; intros k r Hr Hb full Hfull; simpl; [done|].
  apply Forall_cons in Hb as [Hj Hb].
  rewrite <- (Nat.add_0_r k) at 1. rewrite (Hfull 0 j eq_refl). simpl.
  rewrite py_setitem_in_range by (rewrite length_fmap; lia). simpl.
  rewrite <- (list_fmap_insert Z.of_nat).
  rewrite (IH (S k) (<[j:=k]> r)); [done|by rewrite length_insert|done|].
  intros i j' Hi. replace (S k + i) with (k + S i) by lia. by apply Hfull.
Qed.

Lemma reverse_order_nat (p : list nat) :
  Forall (fun j => j < length p) p ->
  Permute.reverse_order (Z.of_nat <$> p)
  = Ok (Z.of_nat <$> fold_left write_inverse (zip (seq 0 (length p)) p)
                       (replicate (length p) 0)).
Proof.
  intros Hb. unfold Permute.reverse_order. rewrite length_fmap.
  change (replicate (length p) 0%Z) with (replicate (length p) (Z.of_nat 0)).
  rewrite <- fmap_replicate.
  apply reverse_order_loop with (n := length p).
  - apply length_replicate.
  - done.
  - intros i j Hi. simpl. by rewrite list_lookup_fmap, Hi.
Qed.

Lemma write_inverse_length ps : forall r,
  length (fold_left write_inverse ps r) = length r.
Proof.
  induction ps as [|ij ps IH]; intros r; simpl; [done|].
  rewrite IH. apply length_insert.
Qed.

Lemma write_inverse_other ps : forall r j,
  j ∉ ps.*2 -> fold_left write_inverse ps r !! j = r !! j.
Proof.
  induction ps as [|[i j'] ps IH]; intros r j Hj; simpl; [done|].
  simpl in Hj. apply not_elem_of_cons in Hj as [Hne Hj].
  rewrite IH by done. unfold write_inverse. simpl.
  by apply list_lookup_insert_ne.
Qed.

Lemma write_inverse_lookup ps : forall r i j,
  NoDup ps.*2 -> Forall (fun j => j < length r) ps.*2 ->
  (i, j) ∈ ps -> fold_left write_inverse ps r !! j = Some i.
Proof.
  induction ps as [|[i' j'] ps IH]; intros r i j Hnd Hb Hin; simpl.
  - by apply elem_of_nil in Hin.
  - simpl in Hnd, Hb. apply NoDup_cons in Hnd as [Hj' Hnd].
    apply Forall_cons in Hb as [Hlt Hb].
    apply elem_of_cons in Hin as [[= -> ->]|Hin].
    + rewrite write_inverse_other by done. unfold write_inverse. simpl.
      by apply list_lookup_insert_eq.
    + apply IH; [done| |done]. unfold write_inverse. simpl. by rewrite length_insert.
Qed.

Lemma perm_seq_length p n : p ≡ₚ seq 0 n -> length p = n.
Proof. intros H. apply Permutation_length in H. by rewrite length_seq in H. Qed.

Lemma inverse_order_length p : length (inverse_order p) = length p.
Proof. unfold inverse_order. rewrite write_inverse_length. apply length_replicate. Qed.

Lemma inverse_order_lookup p n i j :
  p ≡ₚ seq 0 n -> p !! i = Some j -> inverse_order p !! j = Some i.
Proof.
  intros Hp Hi. pose proof (perm_seq_length _ _ Hp) as Hn.
  assert (Hsnd : (zip (seq 0 (length p)) p).*2 = p).
  { apply snd_zip. rewrite length_seq. lia. }
  unfold inverse_order. apply write_inverse_lookup.
  - rewrite Hsnd, Hp. apply NoDup_seq.
  - rewrite Hsnd, length_replicate, Hn. by apply perm_seq_bound.
  - apply list_elem_of_lookup. exists i. apply lookup_zip_with_Some.
    exists i, j. split; [done|]. split; [|done].
    apply lookup_seq. split; [done|]. by eapply lookup_lt_Some.
Qed.

Lemma inverse_order_total p n j :
  p ≡ₚ seq 0 n -> j < n ->
  exists i, i < n /\ p !! i = Some j /\ inverse_order p !! j = Some i.
Proof.
  intros Hp Hj. pose proof (perm_seq_length _ _ Hp) as Hn.
  assert (j ∈ p) as Hin by (rewrite Hp; apply elem_of_seq; lia).
  apply list_elem_of_lookup in Hin as [i Hi].
  exists i. split; [rewrite <- Hn; by eapply lookup_lt_Some|].
  split; [done|]. by eapply inverse_order_lookup.
Qed.

Lemma inverse_order_perm p n : p ≡ₚ seq 0 n -> inverse_order p ≡ₚ seq 0 n.
Proof.
  intros Hp. pose proof (perm_seq_length _ _ Hp) as Hn.
  assert (Hq : forall j x, inverse_order p !! j = Some x -> x < n /\ p !! x = Some j).
  { intros j x Hx.
    assert (j < n) as Hj.
    { rewrite <- Hn, <- inverse_order_length. by eapply lookup_lt_Some. }
    destruct (inverse_order_total p n j Hp Hj) as (i & Hi & Hpi & Hqi).
    rewrite Hqi in Hx. injection Hx as <-. done. }
  apply NoDup_Permutation.
  - apply NoDup_alt. intros j1 j2 x H1 H2.
    apply Hq in H1 as [_ H1]. apply Hq in H2 as [_ H2]. congruence.
  - apply NoDup_seq.
  - intros x. rewrite elem_of_seq. split.
    + intros Hx. apply list_elem_of_lookup in Hx as [j Hj]. apply Hq in Hj. lia.
    + intros Hx. assert (x < length p) as Hl by lia.
      apply lookup_lt_is_Some in Hl as [j Hj].
      apply list_elem_of_lookup. exists j. by eapply inverse_order_lookup.
Qed.

Lemma select_inverse l p :
  p ≡ₚ seq 0 (length l) -> select (select l p) (inverse_order p) = l.
Proof.
  intros Hp. pose proof (perm_seq_length _ _ Hp) as Hn.
  apply list_eq. intros j. unfold select at 1. rewrite list_lookup_fmap.
  destruct (decide (j < length l)) as [Hj|Hj].
  - destruct (inverse_order_total p _ j Hp Hj) as (i & Hi & Hpi & Hqi).
    rewrite Hqi. simpl. unfold select. rewrite list_lookup_fmap, Hpi. simpl.
    apply lookup_lt_is_Some in Hj as [x Hx]. by rewrite Hx.
  - rewrite (lookup_ge_None_2 l) by lia.
    rewrite lookup_ge_None_2; [done|]. rewrite inverse_order_length. lia.
Qed.

(** Permuting by an order and then by its inverse gives back the shape and
    the strides, on the same storage. *)
Lemma permute_round_trip td p :
  valid_data td -> p ≡ₚ seq 0 (length (shape td)) ->
  exists td',
    permute td (Z.of_nat <$> p) = Ok td'
    /\ permute td' (Z.of_nat <$> inverse_order p) = Ok td
    /\ valid_data td' /\ length (shape td') = length (shape td).
Proof.
  intros Hv Hp. pose proof (perm_seq_length _ _ Hp) as Hn.
  destruct Hv as [Hst Hlen].
  eexists. split; [by apply permute_perm|].
  assert (Hv' : valid_data
            (mkTensorData (_storage td) (select (shape td) p) (select (strides td) p))).
  { split; simpl.
    - by rewrite !length_select.
    - by rewrite (prod_Permutation _ _ (select_Permutation _ _ Hp)). }
  split; [|split; [done|simpl; by rewrite length_select]].
  rewrite permute_perm; [|done|].
  - simpl. rewrite !select_inverse; [by destruct td|by rewrite Hst|done].
  - simpl. rewrite length_select, Hn. by apply inverse_order_perm.
Qed.

(** C6. For a valid permutation order [p] the forward of Permute saves [p]
    and permutes the axes of [a] by it; the backward applies to
    [grad_output] the order [q] that its loop computes, which is the inverse
    of [p]; permuting by [p] and then by [q] gives back the original layout
    of the tensor, and the backward gives back the original layout of a
    gradient that was permuted by [p]. *)
Theorem Permute_backward_inverts_forward (c : Context) (a order : Tensor) (p : list Z) :
  to_int_list order = Ok p ->
  valid_order p (length (shape (_tensor a))) = true ->
  valid_data (_tensor a) ->
  exists (a' : Tensor) (q : list Z),
    Permute.forward c a order = (save_for_backward c [SavedInts p], Ok a')
    /\ permute (_tensor a) p = Ok (_tensor a')
    /\ backend a' = backend a
    /\ Permute.reverse_order p = Ok q
    /\ (forall i j, p !! i = Some j -> q !! Z.to_nat j = Some (Z.of_nat i))
    /\ permute (_tensor a') q = Ok (_tensor a)
    /\ (forall g : Tensor,
          Permute.backward (fst (Permute.forward c a order)) g
          = (td ← permute (_tensor g) q;
             Ok (ReturnTuple [GradTensor (_new g td); GradFloat 0%float])))
    /\ (forall g g0 : Tensor,
          valid_data (_tensor g0) ->
          length (shape (_tensor g0)) = length (shape (_tensor a)) ->
          permute (_tensor g0) p = Ok (_tensor g) ->
          Permute.backward (fst (Permute.forward c a order)) g
          = Ok (ReturnTuple [GradTensor (_new g (_tensor g0)); GradFloat 0%float])).
Proof.
  intros Ho Hvalid Hv.
  destruct (valid_order_perm _ _ Hvalid) as (p' & -> & Hp).
  destruct (permute_round_trip _ _ Hv Hp) as (td' & Hfwd & Hback & _ & _).
  pose proof (perm_seq_length _ _ Hp) as Hn.
  assert (Hrev : Permute.reverse_order (Z.of_nat <$> p')
                 = Ok (Z.of_nat <$> inverse_order p')).
  { apply reverse_order_nat. rewrite Hn. by apply perm_seq_bound. }
  assert (Hfw : Permute.forward c a order
                = (save_for_backward c [SavedInts (Z.of_nat <$> p')], Ok (_new a td'))).
  { unfold Permute.forward. rewrite Ho, Hfwd. reflexivity. }
  assert (Hbw : forall g : Tensor,
          Permute.backward (fst (Permute.forward c a order)) g
          = (td ← permute (_tensor g) (Z.of_nat <$> inverse_order p');
             Ok (ReturnTuple [GradTensor (_new g td); GradFloat 0%float]))).
  { intros g. rewrite Hfw. unfold Permute.backward. simpl. rewrite Hrev. reflexivity. }
  exists (_new a td'), (Z.of_nat <$> inverse_order p').
  split; [exact Hfw|]. split; [exact Hfwd|]. split; [reflexivity|].
  split; [exact Hrev|]. split; [|split; [exact Hback|split; [exact Hbw|]]].
  - intros i j Hi. apply list_lookup_fmap_Some in Hi as (j' & -> & Hj').
    rewrite Nat2Z.id, list_lookup_fmap.
    by rewrite (inverse_order_lookup _ _ _ _ Hp Hj').
  - intros g g0 Hv0 Hlen Hg. rewrite Hbw.
    rewrite <- Hlen in Hp.
    destruct (permute_round_trip _ _ Hv0 Hp) as (tdg & Hg1 & Hg2 & _ & _).
    rewrite Hg in Hg1. injection Hg1 as <-. rewrite Hg2. reflexivity.
Qed.

Lemma Permute_backward_inverts_forward_witness :
  exists (a' : Tensor) (q : list Z),
    Permute.forward tracking_ctx t_2x3 order_1_0
      = (save_for_backward tracking_ctx [SavedInts [1; 0]%Z], Ok a')
    /\ permute (_tensor t_2x3) [1; 0]%Z = Ok (_tensor a')
    /\ backend a' = backend t_2x3
    /\ Permute.reverse_order [1; 0]%Z = Ok q
    /\ (forall i j, [1; 0]%Z !! i = Some j -> q !! Z.to_nat j = Some (Z.of_nat i))
    /\ permute (_tensor a') q = Ok (_tensor t_2x3)
    /\ (forall g : Tensor,
          Permute.backward (fst (Permute.forward tracking_ctx t_2x3 order_1_0)) g
          = (td ← permute (_tensor g) q;
             Ok (ReturnTuple [GradTensor (_new g td); GradFloat 0%float])))
    /\ (forall g g0 : Tensor,
          valid_data (_tensor g0) ->
          length (shape (_tensor g0)) = length (shape (_tensor t_2x3)) ->
          permute (_tensor g0) [1; 0]%Z = Ok (_tensor g) ->
          Permute.backward (fst (Permute.forward tracking_ctx t_2x3 order_1_0)) g
          = Ok (ReturnTuple [GradTensor (_new g (_tensor g0)); GradFloat 0%float])).
Proof.
  apply (Permute_backward_inverts_forward tracking_ctx t_2x3 order_1_0 [1; 0]%Z).
  - reflexivity.
  - reflexivity.
  - split; reflexivity.
Defined.

(** ** Matrix multiply *)
Lemma py_index_neg len k :
  0 < k <= len -> py_index len (- Z.of_nat k) = Some (len - k).
Proof.
  intros H. unfold py_index.
  assert ((0 <=? - Z.of_nat k)%Z = false) as -> by (apply Z.leb_gt; lia).
  simpl.
  assert ((- Z.of_nat len <=? - Z.of_nat k)%Z && (- Z.of_nat k <? 0)%Z = true) as ->.
  { apply andb_true_iff. split; [apply Z.leb_le|apply Z.ltb_lt]; lia. }
  f_equal. lia.
Qed.

Lemma select_app_seq pre tl : select (pre ++ tl) (seq 0 (length pre)) = pre.
Proof.
  unfold select. apply fmap_seq_lookup. intros i x Hi.
  by rewrite lookup_app_l, Hi by (by eapply lookup_lt_Some).
Qed.

Lemma swapped_order_perm n : swapped_order n ≡ₚ seq 0 (n + 2).
Proof.
  unfold swapped_order. rewrite seq_app. simpl.
  apply Permutation_app_head. apply perm_swap.
Qed.

Lemma select_swapped pre (m k : nat) :
  select (pre ++ [m; k]) (swapped_order (length pre)) = pre ++ [k; m].
Proof.
  unfold swapped_order, select. rewrite fmap_app.
  fold (select (pre ++ [m; k]) (seq 0 (length pre))). rewrite select_app_seq.
  f_equal. simpl.
  rewrite !lookup_app_r by lia.
  replace (S (length pre) - length pre) with 1 by lia.
  rewrite Nat.sub_diag. reflexivity.
Qed.

Lemma transpose_swaps_last_two (a : Tensor) pre m k spre sm sk :
  shape (_tensor a) = pre ++ [m; k] ->
  strides (_tensor a) = spre ++ [sm; sk] ->
  length spre = length pre ->
  length (_storage (_tensor a)) = operators.prod (shape (_tensor a)) ->
  MatMul.transpose a
  = Ok (mkTensor
          (mkTensorData (_storage (_tensor a)) (pre ++ [k; m]) (spre ++ [sk; sm]))
          None None (backend a)).
Proof.
  intros Hsh Hst Hlen Hsto. unfold MatMul.transpose, dims.
  set (n := length pre).
  assert (Hd : length (strides (_tensor a)) = n + 2).
  { rewrite Hst, length_app, Hlen. simpl. lia. }
  rewrite Hd.
  assert (Hseq : seq 0 (n + 2) = seq 0 n ++ [n; S n]).
  { rewrite seq_app. reflexivity. }
  set (order := Z.of_nat <$> seq 0 (n + 2)).
  assert (Hlo : length order = n + 2) by (unfold order; by rewrite length_fmap, length_seq).
  assert (py_getitem order (-1) = Ok (Z.of_nat (S n))) as ->.
  { unfold py_getitem. rewrite Hlo.
    change (-1)%Z with (- Z.of_nat 1)%Z. rewrite py_index_neg by lia. simpl.
    unfold order. rewrite list_lookup_fmap, lookup_seq_lt by lia.
    simpl. do 2 f_equal. lia. }
  assert (py_getitem order (-2) = Ok (Z.of_nat n)) as ->.
  { unfold py_getitem. rewrite Hlo.
    change (-2)%Z with (- Z.of_nat 2)%Z. rewrite py_index_neg by lia. simpl.
    unfold order. rewrite list_lookup_fmap, lookup_seq_lt by lia.
    simpl. do 2 f_equal. lia. }
  simpl.
  assert (py_setitem order (-2) (Z.of_nat (S n)) = Ok (<[n := Z.of_nat (S n)]> order)) as ->.
  { unfold py_setitem. rewrite Hlo.
    change (-2)%Z with (- Z.of_nat 2)%Z. rewrite py_index_neg by lia. simpl.
    do 2 f_equal. lia. }
  simpl.
  assert (py_setitem (<[n := Z.of_nat (S n)]> order) (-1) (Z.of_nat n)
          = Ok (<[S n := Z.of_nat n]> (<[n := Z.of_nat (S n)]> order))) as ->.
  { unfold py_setitem. rewrite length_insert, Hlo.
    change (-1)%Z with (- Z.of_nat 1)%Z. rewrite py_index_neg by lia. simpl.
    do 2 f_equal. lia. }
  simpl.
  assert (<[S n := Z.of_nat n]> (<[n := Z.of_nat (S n)]> order)
          = Z.of_nat <$> swapped_order n) as ->.
  { unfold order, swapped_order. rewrite Hseq.
    rewrite <- !list_fmap_insert. f_equal.
    rewrite insert_app_r_alt by (rewrite length_seq; lia).
    rewrite insert_app_r_alt by (rewrite length_seq; lia).
    rewrite length_seq, Nat.sub_diag.
    replace (S n - n) with 1 by lia. reflexivity. }
  rewrite permute_perm.
  - simpl. unfold _new, Tensor_init. do 3 f_equal.
    + rewrite Hsh. apply select_swapped.
    + rewrite Hst. unfold n. rewrite <- Hlen. apply select_swapped.
  - split; [|done]. rewrite Hd, Hsh, length_app. simpl. lia.
  - rewrite Hsh, length_app. simpl. apply swapped_order_perm.
Qed.

Lemma index_to_position_swap_last_two idx : forall spre i j sm sk,
  length idx = length spre ->
  index_to_position (idx ++ [j; i]) (spre ++ [sk; sm])
  = index_to_position (idx ++ [i; j]) (spre ++ [sm; sk]).
Proof.
  induction idx as [|x idx IH]; intros [|s spre] i j sm sk Hl; simpl in *; try lia.
  rewrite (IH spre i j sm sk) by lia. reflexivity.
Qed.

(** C5. The backward of matrix multiply returns the pair of the products
    [grad_output . transpose(t2)] and [transpose(t1) . grad_output], where
    [t1] and [t2] are the operands the forward saved in the context; the
    transposition swaps the last two axes of the shape and of the strides on
    the same storage, so that the element at [(..., j, i)] of the transpose
    is the element at [(..., i, j)] of the operand. *)
Theorem MatMul_backward_transposed_products
    (matrix_multiply : Tensor -> Tensor -> result Tensor)
    (c : Context) (t1 t2 grad_output : Tensor) :
  MatMul.backward matrix_multiply
    (fst (MatMul.forward matrix_multiply c t1 t2)) grad_output
  = (tt2 ← MatMul.transpose t2;
     g1 ← matrix_multiply grad_output tt2;
     tt1 ← MatMul.transpose t1;
     g2 ← matrix_multiply tt1 grad_output;
     Ok (ReturnTuple [GradTensor g1; GradTensor g2]))
  /\ (forall (a : Tensor) pre m k spre sm sk,
        shape (_tensor a) = pre ++ [m; k] ->
        strides (_tensor a) = spre ++ [sm; sk] ->
        length spre = length pre ->
        length (_storage (_tensor a)) = operators.prod (shape (_tensor a)) ->
        MatMul.transpose a
        = Ok (mkTensor
                (mkTensorData (_storage (_tensor a)) (pre ++ [k; m]) (spre ++ [sk; sm]))
                None None (backend a))
        /\ forall idx i j, length idx = length spre ->
             index_to_position (idx ++ [j; i]) (spre ++ [sk; sm])
             = index_to_position (idx ++ [i; j]) (strides (_tensor a))).
Proof.
  split; [reflexivity|].
  intros a pre m k spre sm sk Hsh Hst Hlen Hsto. split.
  - by apply transpose_swaps_last_two.
  - intros idx i j Hl. rewrite Hst. by apply index_to_position_swap_last_two.
Qed.

(** On 2 x 2 matrices and with the matrix product [matmul_2d] as the
    backend's: the gradients are [G . transpose(B)] and [transpose(A) . G]. *)
Example MatMul_backward_2x2 :
  MatMul.backward matmul_2d (fst (MatMul.forward matmul_2d tracking_ctx m_a m_b)) m_g
  = Ok (ReturnTuple
          [GradTensor (contiguous_tensor [65; 87; 6500; 8700]%float [2; 2] SimpleBackend);
           GradTensor (contiguous_tensor [301; 3010; 402; 4020]%float [2; 2] SimpleBackend)]).
Proof. reflexivity. Qed.

(** ** Floats *)

Lemma float_add_opp (x y : float) : (x + - y)%float = (x - y)%float.
Proof.
  apply Prim2SF_inj. rewrite FloatAxioms.add_spec, FloatAxioms.sub_spec, FloatAxioms.opp_spec.
  destruct (Prim2SF x) as [sx|sx| |sx mx ex], (Prim2SF y) as [sy|sy| |sy my ey];
    try reflexivity.
  all: unfold SF64add, SF64sub, SFadd, SFsub, SFopp; simpl.
  - by destruct sx, sy.
  - by destruct sx, sy.
  - f_equal. destruct sy; simpl; lia.
Qed.

(** ** Gradient check *)










Lemma index_to_position_bound key : forall sh,
  length key = length sh ->
  forallb (fun '(i, s) => i <? s) (zip key sh) = true ->
  index_to_position key (strides_from_shape sh) < operators.prod sh.
Proof.
  induction key as [|i key IH]; intros [|s sh] Hl Hb; simpl in *; try lia.
  apply andb_true_iff in Hb as [Hi Hb]. apply Nat.ltb_lt in Hi.
  specialize (IH sh ltac:(lia) Hb). nia.
Qed.







Section GradCheckProperties.

Variable f : list Argument -> World -> result (Tensor * World).
Variable backward_engine : Tensor -> World -> result World.
Variable sample : RngState -> TensorData -> list nat * RngState.
Variable assert_allclose : float -> float -> float -> float -> bool.


(** The central difference of a function that leaves the state as it is
    returns in the state it was called in. *)
Lemma grad_central_difference_leaves_state vals arg epsilon ind w check w' :
  leaves_state f ->
  grad_central_difference f vals arg epsilon ind w = Ok (check, w') -> w' = w.
Proof.
  intros Hf H. unfold grad_central_difference in H.
  apply bind_Ok in H as (r & _ & H).
  apply bind_Ok in H as (x & _ & H).
  apply bind_Ok in H as (z & _ & H).
  apply bind_Ok in H as (up & _ & H).
  apply bind_Ok in H as (vals1 & _ & H).
  apply bind_Ok in H as (vals2 & _ & H).
  apply bind_Ok in H as ([o1 w1] & Ho1 & H).
  apply bind_Ok in H as (s1 & _ & H).
  apply bind_Ok in H as ([o2 w2] & Ho2 & H).
  apply bind_Ok in H as (s2 & _ & H).
  apply bind_Ok in H as (delta & _ & H).
  apply bind_Ok in H as (d0 & _ & H).
  injection H as _ <-.
  apply Hf in Ho1 as ->. by apply Hf in Ho2 as ->.
Qed.

(** What one pass of the second loop of [grad_check] does and checks: an
    index is sampled from the argument, the central difference at that index
    is computed, which calls [f], and the gradient of the argument in the
    state then reached is compared at the same index with the central
    difference, with relative and absolute tolerance 1e-2. *)
Lemma check_argument_Ok vals w i x w' :
  check_argument f sample assert_allclose vals w i x = Ok w' ->
  exists t0 t g actual check,
    objects w !! x = Some t0
    /\ grad_central_difference f vals i 1e-6%float
         (sample (rng w) (_tensor t0)).1
         (mkWorld (objects w) (sample (rng w) (_tensor t0)).2)
       = Ok (check, w')
    /\ objects w' !! x = Some t
    /\ grad t = Some g
    /\ Tensor_getitem g (sample (rng w) (_tensor t0)).1 = Ok actual
    /\ assert_allclose actual check 1e-2%float 1e-2%float = true.
Proof.
  unfold check_argument. intros H.
  apply bind_Ok in H as (t0 & Ht0 & H).
  destruct (sample (rng w) (_tensor t0)) as [ind r] eqn:Es.
  apply bind_Ok in H as ([check wb] & Hcheck & H).
  apply bind_Ok in H as (t & Ht & H).
  apply bind_Ok in H as (g & Hg & H).
  apply bind_Ok in H as (actual & Hactual & H).
  destruct (assert_allclose actual check _ _) eqn:Ea; [|discriminate].
  injection H as <-.
  unfold deref in Ht0, Ht.
  destruct (objects w !! x) as [u0|] eqn:E0; [|discriminate].
  destruct (objects wb !! x) as [u|] eqn:E1; [|discriminate].
  simpl in Ht0, Ht. simplify_eq.
  destruct (grad t) as [g0|] eqn:Eg; [|discriminate]. simpl in Hg. simplify_eq.
  exists t0, t, g, actual, check. rewrite Es. simpl. by repeat split.
Qed.

Lemma check_argument_leaves_state vals w i x w' :
  leaves_state f ->
  check_argument f sample assert_allclose vals w i x = Ok w' ->
  objects w' = objects w
  /\ exists t, objects w !! x = Some t /\ rng w' = (sample (rng w) (_tensor t)).2.
Proof.
  intros Hf H. apply check_argument_Ok in H as (t0 & _ & _ & _ & check & Ht0 & H & _).
  apply (grad_central_difference_leaves_state _ _ _ _ _ _ _ Hf) in H as ->.
  split; [done|]. by exists t0.
Qed.

Lemma check_loop_Ok vals l : forall w w',
  foldM (fun w '(i, x) => check_argument f sample assert_allclose vals w i x) l w = Ok w' ->
  forall i x, (i, x) ∈ l ->
    exists wa t0 wb t g actual check,
      objects wa !! x = Some t0
      /\ grad_central_difference f vals i 1e-6%float
           (sample (rng wa) (_tensor t0)).1
           (mkWorld (objects wa) (sample (rng wa) (_tensor t0)).2)
         = Ok (check, wb)
      /\ objects wb !! x = Some t
      /\ grad t = Some g
      /\ Tensor_getitem g (sample (rng wa) (_tensor t0)).1 = Ok actual
      /\ assert_allclose actual check 1e-2%float 1e-2%float = true.
Proof.
  induction l as [|[i x] l IH]; intros w w' H i' x' Hin; simpl in H.
  - by apply elem_of_nil in Hin.
  - apply bind_Ok in H as (w1 & H1 & H).
    apply elem_of_cons in Hin as [[= -> ->]|Hin].
    + apply check_argument_Ok in H1 as (t0 & t & g & actual & check & H1).
      by exists w, t0, w1, t, g, actual, check.
    + by eapply IH.
Qed.

(** The state in which the second loop ends is the one the check of the
    last argument leaves: the slot of that argument holds a gradient. *)
Lemma check_loop_last vals l : forall w w' i x,
  foldM (fun w '(i, x) => check_argument f sample assert_allclose vals w i x) l w = Ok w' ->
  last l = Some (i, x) ->
  exists t g, objects w' !! x = Some t /\ grad t = Some g.
Proof.
  induction l as [|[j y] l IH]; intros w w' i x H Hl; [done|].
  simpl in H. apply bind_Ok in H as (w1 & H1 & H).
  destruct l as [|p l].
  - simpl in H, Hl. simplify_eq.
    apply check_argument_Ok in H1 as (_ & t & g & _ & _ & _ & _ & Ht & Hg & _).
    by exists t, g.
  - by eapply IH.
Qed.

Lemma check_loop_leaves_state vals l : forall w w',
  leaves_state f ->
  foldM (fun w '(i, x) => check_argument f sample assert_allclose vals w i x) l w = Ok w' ->
  objects w' = objects w
  /\ rng w' = rng_after_samples sample (objects w) l.*2 (rng w).
Proof.
  induction l as [|[i x] l IH]; intros w w' Hf H; simpl in H.
  - by injection H as <-.
  - apply bind_Ok in H as (w1 & H1 & H).
    apply (check_argument_leaves_state _ _ _ _ _ Hf) in H1 as (Ho & t & Ht & Hr).
    apply IH in H as (Ho' & Hr'); [|done]. split; [congruence|].
    simpl. by rewrite Ht, <- Hr, <- Ho.
Qed.

(** With an [f] that leaves the state as it is, the slot of every argument
    holds a gradient when the loop ends. *)
Lemma check_loop_gradients vals l : forall w w',
  leaves_state f ->
  foldM (fun w '(i, x) => check_argument f sample assert_allclose vals w i x) l w = Ok w' ->
  forall i x, (i, x) ∈ l -> exists t g, objects w' !! x = Some t /\ grad t = Some g.
Proof.
  induction l as [|[j y] l IH]; intros w w' Hf H i x Hin; simpl in H.
  - by apply elem_of_nil in Hin.
  - apply bind_Ok in H as (w1 & H1 & H).
    apply elem_of_cons in Hin as [[= -> ->]|Hin].
    + apply check_argument_Ok in H1 as (_ & t & g & _ & _ & _ & _ & Ht & Hg & _).
      apply (check_loop_leaves_state _ _ _ _ Hf) in H as [Ho _].
      exists t, g. by rewrite Ho.
    + by eapply IH.
Qed.

Lemma elem_of_enumerate {A} (l : list A) i x :
  l !! i = Some x -> (i, x) ∈ zip (seq 0 (length l)) l.
Proof.
  intros H. apply list_elem_of_lookup. exists i. apply lookup_zip_with_Some.
  exists i, x. split; [done|]. split; [|done].
  apply lookup_seq. split; [done|]. by eapply lookup_lt_Some.
Qed.

Lemma last_enumerate {A} (l : list A) x : forall k,
  last l = Some x -> exists i, last (zip (seq k (length l)) l) = Some (i, x).
Proof.
  induction l as [|y l IH]; intros k H; [done|].
  destruct l as [|z l].
  - simpl in H. injection H as ->. by exists k.
  - apply (IH (S k)) in H as [i Hi]. by exists i.
Qed.

(** A successful [grad_check]: its steps. *)
Lemma grad_check_Ok vals w w' :
  grad_check f backward_engine sample assert_allclose vals w = Ok w' ->
  exists w1 out w2 s w3,
    reset_arguments vals w = Ok w1
    /\ f (Stored <$> vals) (random_seed 10 w1) = Ok (out, w2)
    /\ Tensor_sum out = Ok s
    /\ backward_engine s w2 = Ok w3
    /\ foldM (fun w '(i, x) => check_argument f sample assert_allclose vals w i x)
         (zip (seq 0 (length vals)) vals) w3 = Ok w'.
Proof.
  unfold grad_check. intros H.
  apply bind_Ok in H as (w1 & Hw1 & H).
  apply bind_Ok in H as ([out w2] & Hout & H).
  apply bind_Ok in H as (s & Hs & H).
  apply bind_Ok in H as (w3 & Hw3 & H).
  by exists w1, out, w2, s, w3.
Qed.

(** An object after the first loop of [grad_check]. *)
Lemma reset_arguments_spec vals : forall w,
  Forall (fun x => x < length (objects w)) vals ->
  exists w1,
    reset_arguments vals w = Ok w1
    /\ rng w1 = rng w
    /\ length (objects w1) = length (objects w)
    /\ forall y, objects w1 !! y
         = if bool_decide (y ∈ vals)
           then (fun t => zero_grad_ (requires_grad_ true t)) <$> objects w !! y
           else objects w !! y.
Proof.
  induction vals as [|x vals IH]; intros w Hb.
  - exists w. split; [done|]. split; [done|]. split; [done|]. intros y.
    rewrite bool_decide_false; [done|]. apply not_elem_of_nil.
  - apply Forall_cons in Hb as [Hx Hb].
    apply lookup_lt_is_Some in Hx as [t Ht].
    set (w0 := mkWorld (<[x := zero_grad_ (requires_grad_ true t)]> (objects w)) (rng w)).
    assert (Hstep : (w ← update x (requires_grad_ true) w; update x zero_grad_ w) = Ok w0).
    { unfold update, deref. rewrite Ht. simpl.
      rewrite list_lookup_insert_eq by (by eapply lookup_lt_Some). simpl.
      by rewrite list_insert_insert_eq. }
    destruct (IH w0) as (w1 & Hw1 & Hr & Hl & Hobj).
    { simpl. by rewrite length_insert. }
    exists w1. split; [|split; [|split]].
    + unfold reset_arguments in *. simpl. rewrite Hstep. simpl. exact Hw1.
    + by rewrite Hr.
    + rewrite Hl. simpl. by rewrite length_insert.
    + intros y. rewrite Hobj. simpl.
      destruct (decide (y = x)) as [->|Hne].
      * rewrite list_lookup_insert_eq by (by eapply lookup_lt_Some).
        rewrite (bool_decide_true (x ∈ x :: vals)) by left.
        rewrite Ht. simpl. by case_bool_decide.
      * rewrite list_lookup_insert_ne by done.
        case_bool_decide as E1.
        -- rewrite bool_decide_true; [done|]. by right.
        -- rewrite bool_decide_false; [done|].
           intros Hin. apply elem_of_cons in Hin as [?|?]; done.
Qed.


(** C10 (as amended). [grad_check] mutates every argument in place before
    it evaluates [f]: the requires-gradient flag of each argument is set and
    its gradient slot is cleared, the other objects are left as they are,
    and the global random generator is seeded with 10; [f] is then called on
    the argument objects in that state, and what follows runs in the state
    that [f] leaves.  When [grad_check] returns, the cleared slot has not
    persisted: the slot of the last argument holds a gradient, and so does
    the slot of every argument when [f] leaves the state as it is.  The flag
    and the seed persist under conditions: with an [f] that leaves the state
    as it is and a Backward Engine that writes gradient slots only, the flag
    of every argument is still set when [grad_check] returns, and the
    generator is the one seeded with 10, advanced by the index samples. *)
Theorem grad_check_resets_arguments_before_f (vals : list nat) (w : World) :
  Forall (fun x => x < length (objects w)) vals ->
  exists w1,
    reset_arguments vals w = Ok w1
    /\ (forall y, objects w1 !! y
          = if bool_decide (y ∈ vals)
            then (fun t => zero_grad_ (requires_grad_ true t)) <$> objects w !! y
            else objects w !! y)
    /\ rng (random_seed 10 w1) = Seeded 10 0
    /\ (forall x, x ∈ vals ->
          exists t, objects (random_seed 10 w1) !! x = Some t
                    /\ requires_grad t = true /\ grad t = None)
    /\ grad_check f backward_engine sample assert_allclose vals w
       = ('(out, w2) ← f (Stored <$> vals) (random_seed 10 w1);
          s ← Tensor_sum out;
          w3 ← backward_engine s w2;
          foldM (fun w '(i, x) => check_argument f sample assert_allclose vals w i x)
            (zip (seq 0 (length vals)) vals) w3)
    /\ (forall w', grad_check f backward_engine sample assert_allclose vals w = Ok w' ->
         forall x, last vals = Some x ->
           exists t g, objects w' !! x = Some t /\ grad t = Some g)
    /\ (leaves_state f ->
         forall w', grad_check f backward_engine sample assert_allclose vals w = Ok w' ->
           forall x, x ∈ vals ->
             exists t g, objects w' !! x = Some t /\ grad t = Some g)
    /\ (leaves_state f -> writes_gradients_only backward_engine ->
         forall w', grad_check f backward_engine sample assert_allclose vals w = Ok w' ->
           rng w' = rng_after_samples sample (objects w') vals (Seeded 10 0)
           /\ forall x, x ∈ vals ->
                exists t, objects w' !! x = Some t /\ requires_grad t = true).
Proof.
  intros Hb. destruct (reset_arguments_spec vals w Hb) as (w1 & Hw1 & Hr & Hl & Hobj).
  assert (Hreset : forall x, x ∈ vals ->
            exists t, objects (random_seed 10 w1) !! x = Some t
                      /\ requires_grad t = true /\ grad t = None).
  { intros x Hx. simpl. rewrite Hobj, bool_decide_true by done.
    rewrite Forall_forall in Hb. apply Hb, lookup_lt_is_Some in Hx as [t Ht].
    rewrite Ht. simpl. eexists. split; [reflexivity|]. by split. }
  exists w1. repeat (split; [done|]). split; [|split; [|split]].
  - unfold grad_check. rewrite Hw1. reflexivity.
  - intros w' H x Hx.
    apply grad_check_Ok in H as (_ & _ & _ & _ & w3 & _ & _ & _ & _ & H).
    apply (last_enumerate _ _ 0) in Hx as [i Hi].
    by eapply check_loop_last.
  - intros Hf w' H x Hx.
    apply grad_check_Ok in H as (_ & _ & _ & _ & w3 & _ & _ & _ & _ & H).
    apply list_elem_of_lookup in Hx as [i Hi]. apply elem_of_enumerate in Hi.
    by eapply check_loop_gradients.
  - intros Hf Heng w' H.
    apply grad_check_Ok in H as (w1' & out & w2 & s & w3 & Hw1' & Hout & _ & Hw3 & H).
    rewrite Hw1 in Hw1'. injection Hw1' as <-.
    apply Hf in Hout as ->.
    destruct (Heng _ _ _ Hw3) as (Hr3 & Hkeep).
    apply (check_loop_leaves_state _ _ _ _ Hf) in H as (Ho & Hrng). split.
    + rewrite Hrng, snd_zip by (rewrite length_seq; lia). by rewrite Ho, Hr3.
    + intros x Hx. destruct (Hreset x Hx) as (t & Ht & Hrg & _).
      destruct (Hkeep x t Ht) as (t' & Ht' & Hh & _).
      exists t'. rewrite Ho. split; [done|]. unfold requires_grad in *. by rewrite Hh.
Qed.

End GradCheckProperties.

(** The identity function leaves the state as it is. *)
Lemma f_identity_leaves_state : leaves_state f_identity.
Proof.
  intros [|a [|b args]] w out w' H; simpl in H; try discriminate.
  apply bind_Ok in H as (t & _ & H). by injection H as _ <-.
Qed.

(** The check of the identity function on [tensor([1.0])] succeeds. *)
Lemma grad_check_identity :
  grad_check f_identity deposit_ones sample_first allclose [0] world_1
  = Ok world_1_checked.
Proof. vm_compute. reflexivity. Qed.

Lemma deposit_ones_writes_gradients_only : writes_gradients_only deposit_ones.
Proof.
  intros s w w' [= <-]. split; [reflexivity|]. intros x t Hx. simpl.
  rewrite list_lookup_fmap, Hx. simpl.
  destruct (requires_grad t); eexists; (split; [reflexivity|]); by split.
Qed.

(** C10, counterexample. For the identity function and the one argument
    [tensor([1.0])], [grad_check] returns, and the gradient slot of the
    argument is then not cleared: it holds the gradient the backward pass
    deposited. *)
Lemma grad_check_leaves_gradient_in_slot :
  grad_check f_identity deposit_ones sample_first allclose [0] world_1
    = Ok world_1_checked
  /\ exists t g,
       objects world_1_checked !! 0 = Some t
       /\ requires_grad t = true
       /\ grad t = Some g
       /\ _storage (_tensor g) = [1%float].
Proof.
  split; [exact grad_check_identity|].
  eexists _, _. split; [reflexivity|]. split; [reflexivity|]. split; reflexivity.
Qed.

(** A function under test that changes the state: the identity that also
    seeds the generator with 3.  The seed 10 is then not there when
    [grad_check] returns. *)
Example grad_check_seed_undone_by_f :
  exists w',
    grad_check f_reseed deposit_ones sample_first allclose [0] world_1 = Ok w'
    /\ rng w' = Seeded 3 0.
Proof. eexists. split; [vm_compute; reflexivity|reflexivity]. Qed.

Lemma grad_check_resets_arguments_before_f_witness :
  Forall (fun x => x < length (objects world_1)) [0]
  /\ (exists w1,
        reset_arguments [0] world_1 = Ok w1
        /\ rng (random_seed 10 w1) = Seeded 10 0
        /\ forall x, x ∈ [0] ->
             exists t, objects (random_seed 10 w1) !! x = Some t
                       /\ requires_grad t = true /\ grad t = None)
  /\ rng world_1_checked
     = rng_after_samples sample_first (objects world_1_checked) [0] (Seeded 10 0)
  /\ (forall x, x ∈ [0] ->
       exists t g, objects world_1_checked !! x = Some t
                   /\ requires_grad t = true /\ grad t = Some g).
Proof.
  assert (Hb : Forall (fun x => x < length (objects world_1)) [0]).
  { repeat constructor. }
  split; [exact Hb|].
  destruct (grad_check_resets_arguments_before_f f_identity deposit_ones sample_first
              allclose [0] world_1 Hb)
    as (w1 & H1 & _ & H2 & H3 & _ & _ & Hgrad & Hkeep).
  destruct (Hkeep f_identity_leaves_state deposit_ones_writes_gradients_only
              _ grad_check_identity)
    as [Hrng Hflag].
  split; [exists w1; repeat split; assumption|].
  split; [exact Hrng|].
  intros x Hx.
  destruct (Hgrad f_identity_leaves_state _ grad_check_identity x Hx) as (t & g & Ht & Hg).
  destruct (Hflag x Hx) as (t' & Ht' & Hrg).
  rewrite Ht in Ht'. injection Ht' as <-. eauto.
Defined.


(** * Properties of the remaining functions *)

(** ** Constructing tensors *)

Lemma PyData_nested_ind (P : PyData -> Prop) :
  (forall x, P (PyFloat x)) ->
  (forall l, Forall P l -> P (PyList l)) ->
  forall d, P d.
Proof.
  intros Hf Hl. fix IH 1. intros [x|l]; [apply Hf|]. apply Hl.
  induction l as [|d l IHl]; constructor; [apply IH | exact IHl].
Qed.

Lemma length_concat_const {A} (ls : list (list A)) k :
  Forall (fun l => length l = k) ls -> length (concat ls) = length ls * k.
Proof.
  induction 1 as [|l ls Hl _ IH]; simpl; [done|]. rewrite length_app, IH, Hl. lia.
Qed.

(** On rectangular nested lists the local functions [shape] and [flatten]
    of [tensor] agree: [flatten] gives as many elements as [shape] says. *)
Lemma rectangular_spec ls : forall sh,
  is_rectangular ls sh = true ->
  tensor_shape ls = Ok sh /\ length (tensor_flatten ls) = operators.prod sh.
Proof.
  induction ls as [x|l IH] using PyData_nested_ind; intros [|n sh] H; simpl in H; try done.
  apply andb_true_iff in H as [H Hall]. apply andb_true_iff in H as [Hn Hpos].
  apply Nat.eqb_eq in Hn. apply Nat.ltb_lt in Hpos.
  rewrite forallb_forall in Hall.
  assert (Hl : Forall (fun x => tensor_shape x = Ok sh
                         /\ length (tensor_flatten x) = operators.prod sh) l).
  { rewrite Forall_forall in IH |- *. intros x Hx. apply IH; [done|].
    apply Hall. by apply list_elem_of_In. }
  split.
  - destruct l as [|x l]; [simpl in Hn; lia|].
    apply Forall_cons in Hl as [[Hx _] _].
    change (tensor_shape (PyList (x :: l)))
      with (rest ← tensor_shape x; Ok (length (x :: l) :: rest)).
    rewrite Hx. simpl. by rewrite <- Hn.
  - change (tensor_flatten (PyList l)) with (concat (map tensor_flatten l)).
    rewrite (length_concat_const _ (operators.prod sh)).
    + rewrite length_map, Hn. reflexivity.
    + apply Forall_map. eapply Forall_impl; [exact Hl|]. by intros x [_ ?].
Qed.

(** X1. On a rectangular nested list of shape [sh] (no list in it is
    empty), [tensor] returns a contiguous tensor of shape [sh] on the given
    backend whose buffer holds the numbers in row-major order; its gradient
    slot is empty and it requires gradients exactly when asked to. *)
Theorem tensor_of_rectangular (ls : PyData) (sh : list nat) (be : TensorBackend)
    (rg : bool) :
  is_rectangular ls sh = true ->
  tensor ls be rg
  = Ok (mkTensor (mkTensorData (tensor_flatten ls) sh (strides_from_shape sh))
          (if rg then Some empty_History else None) None be).
Proof.
  intros H. apply rectangular_spec in H as [Hs Hl].
  unfold tensor, _tensor_fn. rewrite Hs. simpl. rewrite Tensor_make_Ok by done.
  reflexivity.
Qed.

Lemma tensor_of_rectangular_witness :
  is_rectangular nested_2_3 [2; 3] = true
  /\ tensor nested_2_3 (OtherBackend 7) true
     = Ok (mkTensor
             (mkTensorData (tensor_flatten nested_2_3) [2; 3] (strides_from_shape [2; 3]))
             (Some empty_History) None (OtherBackend 7)).
Proof.
  split; [reflexivity|].
  apply (tensor_of_rectangular nested_2_3 [2; 3] (OtherBackend 7) true). reflexivity.
Defined.

(** X2. [zeros] never raises: for every shape it returns a tensor of that
    shape on the given backend, without a Graph Edge or a gradient, that
    reads [0.0] at every index into the shape; another index raises. *)
Theorem zeros_reads_zero (sh : list nat) (be : TensorBackend) :
  exists z,
    zeros sh be = Ok z
    /\ shape (_tensor z) = sh
    /\ length (_storage (_tensor z)) = operators.prod sh
    /\ requires_grad z = false /\ grad z = None /\ backend z = be
    /\ forall key,
         Tensor_getitem z key
         = if valid_index key sh then Ok 0%float else Raise IndexingError.
Proof.
  rewrite zeros_Ok. eexists. split; [reflexivity|]. simpl.
  rewrite length_replicate. repeat (split; [reflexivity|]).
  intros key. unfold Tensor_getitem, TensorData_get, TensorData_index, valid_index. simpl.
  destruct (length key =? length sh) eqn:El; simpl; [|done].
  destruct (forallb _ _) eqn:Eb; simpl; [|done].
  rewrite lookup_replicate_2; [done|].
  apply index_to_position_bound; [by apply Nat.eqb_eq|done].
Qed.

Section RandProperties.

Variable random_random : RngState -> float * RngState.

Lemma rng_after_draws_S n r :
  rng_after_draws random_random (S n) r
  = rng_after_draws random_random n (random_random r).2.
Proof. unfold rng_after_draws. by rewrite Nat.iter_succ_r. Qed.

Lemma random_list_spec n : forall r,
  (random_list random_random n r).2 = rng_after_draws random_random n r
  /\ length (random_list random_random n r).1 = n
  /\ forall i, i < n ->
       (random_list random_random n r).1 !! i
       = Some (random_random (rng_after_draws random_random i r)).1.
Proof.
  induction n as [|n IH]; intros r.
  - simpl. split; [done|]. split; [done|]. intros i Hi. lia.
  - rewrite rng_after_draws_S.
    change (random_list random_random (S n) r)
      with (let '(x, r) := random_random r in
            let '(xs, r) := random_list random_random n r in (x :: xs, r)).
    destruct (random_random r) as [x r1] eqn:E1.
    specialize (IH r1). destruct (random_list random_random n r1) as [xs r2] eqn:E2.
    destruct IH as (Hr & Hl & Hi). cbn [fst snd] in *.
    split; [done|]. split; [simpl; by rewrite Hl|].
    intros [|i] Hlt.
    + simpl. by rewrite E1.
    + rewrite rng_after_draws_S, E1. simpl. apply Hi. lia.
Qed.

(** X3. [rand] never raises: it draws one number per element of the shape
    from the global generator, in order, so that the element at position
    [i] of the buffer is the draw after [i] earlier draws, and leaves the
    generator advanced by exactly that many draws; the tensor has the shape
    and the backend given and requires gradients exactly when asked to. *)
Theorem rand_draws_in_order (sh : list nat) (be : TensorBackend) (rg : bool)
    (w : World) :
  exists t,
    rand random_random sh be rg w
    = Ok (t, mkWorld (objects w)
               (rng_after_draws random_random (operators.prod sh) (rng w)))
    /\ shape (_tensor t) = sh
    /\ strides (_tensor t) = strides_from_shape sh
    /\ requires_grad t = rg /\ grad t = None /\ backend t = be
    /\ length (_storage (_tensor t)) = operators.prod sh
    /\ forall i, i < operators.prod sh ->
         _storage (_tensor t) !! i
         = Some (random_random (rng_after_draws random_random i (rng w))).1.
Proof.
  unfold rand.
  destruct (random_list_spec (operators.prod sh) (rng w)) as (Hr & Hl & Hi).
  destruct (random_list random_random (operators.prod sh) (rng w)) as [vals r] eqn:E.
  simpl in *. rewrite Tensor_make_Ok by done. simpl.
  eexists. split; [by rewrite Hr|]. simpl.
  repeat (split; [done|]). split; [by destruct rg|]. repeat (split; [done|]). done.
Qed.

End RandProperties.

(** ** One gradient per input *)

(** Inversion of a chain of binds that returns. *)
Ltac bind_inv H :=
  repeat match type of H with
  | (_ ≫= _) = Ok _ =>
      let x := fresh "x" in let Hx := fresh "Hx" in
      apply bind_Ok in H as (x & Hx & H)
  | (let '(_, _) := ?p in _) = Ok _ => destruct p
  end.

Lemma arity1_inv fwd c inps c' r :
  arity1 fwd c inps = (c', Ok r) -> exists a, inps = [a] /\ fwd c a = (c', Ok r).
Proof. destruct inps as [|a [|]]; simpl; try (intros [= _ ?]; done). eauto. Qed.

Lemma arity2_inv fwd c inps c' r :
  arity2 fwd c inps = (c', Ok r) -> exists a b, inps = [a; b] /\ fwd c a b = (c', Ok r).
Proof. destruct inps as [|a [|b [|]]]; simpl; try (intros [= _ ?]; done). eauto. Qed.

Section OneGradientPerInput.

Variables sigmoid log exp : float -> float.
Variable is_close : float -> float -> float.
Variable matrix_multiply : Tensor -> Tensor -> result Tensor.

Lemma _backward_inv (cls : Function) c' grad_out gs :
  _backward cls c' grad_out = Ok gs ->
  exists r, cls_backward cls c' grad_out = Ok r /\ gs = wrap_tuple r.
Proof.
  unfold _backward. intros Hb.
  destruct (cls_backward cls c' grad_out) as [r| |]; simpl in Hb; try discriminate.
  injection Hb as <-. eauto.
Qed.

(** X4. For every subclass of [Function] of the file: when [_forward]
    returns on input tensors, as [apply] passes them, leaving the context
    [c'], and [_backward] returns on [c'], then [_backward] gives a tuple
    with exactly one gradient per input of [_forward]; a [backward] that
    returns a single tensor is wrapped into a tuple of one.  This does not
    extend to Sum called with [None] in place of the dimension tensor, which
    its [forward] accepts: there [_backward] gives a tuple of one gradient
    for the two arguments of the call. *)
Theorem backward_one_gradient_per_input :
  (forall (cls : Function) (c c' : Context) (inps : list Tensor)
          (out grad_out : Tensor) (gs : list GradValue),
     cls ∈ functions sigmoid log exp is_close matrix_multiply ->
     _forward cls c inps = (c', Ok out) ->
     _backward cls c' grad_out = Ok gs ->
     length gs = length inps)
  /\ (forall (c c' : Context) (a out grad_out : Tensor) (gs : list GradValue),
        Sum.forward c a None = (c', Ok out) ->
        _backward Sum.cls c' grad_out = Ok gs ->
        length gs = 1 /\ length [Some a; None] = 2).
Proof.
  split.
  - unfold functions, _forward. intros cls c c' inps out grad_out gs Hin Hf Hb.
    apply _backward_inv in Hb as (r & Hb & ->).
    repeat (apply elem_of_cons in Hin as [->|Hin]); [..|by apply elem_of_nil in Hin];
      simpl in Hf, Hb.
    all: first [ apply arity1_inv in Hf as (a & -> & Hf)
               | apply arity2_inv in Hf as (a & b & -> & Hf) ].
    all: try (unfold Sum.forward in Hf; injection Hf as <- _).
    all: unfold Neg.backward, Inv.backward, Add.backward, All.backward, Mul.backward,
           Sigmoid.backward, ReLU.backward, Log.backward, Exp.backward, Sum.backward,
           LT.backward, EQ.backward, IsClose.backward, Permute.backward, View.backward,
           Copy.backward, MatMul.backward in Hb.
    all: try discriminate.
    all: try (injection Hb as <-; reflexivity).
    all: simpl in Hb; bind_inv Hb; try (injection Hb as <-; reflexivity).
  - intros c c' a out grad_out gs Hf Hb. split; [|reflexivity].
    apply _backward_inv in Hb as (r & Hb & ->).
    unfold Sum.forward in Hf. injection Hf as <- _.
    change (Sum.backward (save_for_backward c [SavedTensor a; SavedNone]) grad_out = Ok r)
      in Hb.
    unfold Sum.backward in Hb. simpl in Hb.
    bind_inv Hb. by injection Hb as <-.
Qed.

End OneGradientPerInput.

Lemma backward_one_gradient_per_input_witness :
  length
    [GradTensor (contiguous_tensor [1; 10; 100; 1; 10; 100]%float [2; 3] (OtherBackend 7));
     GradTensor (contiguous_tensor [0]%float [1] SimpleBackend)]
  = length [t_2x3_other; dims_0]
  /\ exists gs,
       _backward Sum.cls (Sum.forward tracking_ctx t_2x3_other None).1 t_2 = Ok gs
       /\ length gs = 1.
Proof.
  destruct (backward_one_gradient_per_input double double double never_close matmul_2d)
    as [H1 H2].
  split.
  - apply (H1 Sum.cls tracking_ctx
             (save_for_backward tracking_ctx [SavedTensor t_2x3_other; SavedTensor dims_0])
             [t_2x3_other; dims_0]
             (contiguous_tensor [5; 7; 9]%float [1; 3] (OtherBackend 7))
             g_1x3).
    + unfold functions. do 9 apply list_elem_of_further. apply list_elem_of_here.
    + reflexivity.
    + reflexivity.
  - eexists. split; [vm_compute; reflexivity|].
    apply (H2 tracking_ctx (Sum.forward tracking_ctx t_2x3_other None).1
             t_2x3_other t_2x3_other t_2).
    + reflexivity.
    + vm_compute. reflexivity.
Defined.

(** ** The derivatives of the elementwise operations *)

Lemma contiguous_data_fmap (fn : float -> float) (a : TensorData) be :
  contiguous_data a ->
  contiguous_data (_tensor (contiguous_tensor (fn <$> _storage a) (shape a) be)).
Proof. intros [_ Ha]. apply contiguous_tensor_data. by rewrite length_fmap. Qed.

(** X5. For contiguous [a], [b] and [grad_output] of one shape, the
    backward of Mul, on the context its forward leaves, returns the pair of
    the elementwise products [grad_output * b] and [grad_output * a], on
    the backend of [grad_output]. *)
Theorem Mul_backward_product_rule (c : Context) (a b grad_output : Tensor) :
  contiguous_data (_tensor a) -> contiguous_data (_tensor b) ->
  contiguous_data (_tensor grad_output) ->
  shape (_tensor a) = shape (_tensor grad_output) ->
  shape (_tensor b) = shape (_tensor grad_output) ->
  Mul.backward (Mul.forward c a b).1 grad_output
  = Ok (ReturnTuple
          [GradTensor
             (contiguous_tensor
                (zip_with (fun d y => d * y)%float
                   (_storage (_tensor grad_output)) (_storage (_tensor b)))
                (shape (_tensor grad_output)) (backend grad_output));
           GradTensor
             (contiguous_tensor
                (zip_with (fun d x => d * x)%float
                   (_storage (_tensor grad_output)) (_storage (_tensor a)))
                (shape (_tensor grad_output)) (backend grad_output))]).
Proof.
  intros Ha Hb Hg Hsa Hsb. unfold Mul.backward, Mul.forward. simpl.
  unfold mul_zip. rewrite !tensor_zip_contiguous by done. reflexivity.
Qed.

Lemma Mul_backward_product_rule_witness :
  Mul.backward (Mul.forward tracking_ctx m_a m_b).1 m_g
  = Ok (ReturnTuple
          [GradTensor
             (contiguous_tensor
                (zip_with (fun d y => d * y)%float
                   (_storage (_tensor m_g)) (_storage (_tensor m_b)))
                (shape (_tensor m_g)) (backend m_g));
           GradTensor
             (contiguous_tensor
                (zip_with (fun d x => d * x)%float
                   (_storage (_tensor m_g)) (_storage (_tensor m_a)))
                (shape (_tensor m_g)) (backend m_g))]).
Proof.
  apply (Mul_backward_product_rule tracking_ctx m_a m_b m_g);
    first [split; reflexivity | reflexivity].
Defined.

(** X6. For contiguous [t1] and [grad_output] of one shape, the backward
    of Inv, on the context its forward leaves, returns the result of
    [inv_back_zip(t1, grad_output)] as it is: elementwise
    [-(1 / t1^2) * grad_output]. *)
Theorem Inv_backward_reciprocal_rule (c : Context) (t1 grad_output : Tensor) :
  contiguous_data (_tensor t1) -> contiguous_data (_tensor grad_output) ->
  shape (_tensor t1) = shape (_tensor grad_output) ->
  exists t,
    Inv.backward (Inv.forward c t1).1 grad_output = Ok (ReturnOne (GradTensor t))
    /\ _tensor t
       = mkTensorData
           (zip_with (fun x d => - (1 / (x * x)) * d)%float
              (_storage (_tensor t1)) (_storage (_tensor grad_output)))
           (shape (_tensor grad_output))
           (strides_from_shape (shape (_tensor grad_output))).
Proof.
  intros Ha Hg Hs. unfold Inv.backward, Inv.forward. simpl.
  unfold inv_back_zip. rewrite tensor_zip_contiguous by done. simpl.
  eexists. split; [reflexivity|]. simpl. by rewrite Hs.
Qed.

Lemma Inv_backward_reciprocal_rule_witness :
  exists t,
    Inv.backward (Inv.forward tracking_ctx m_a).1 m_g = Ok (ReturnOne (GradTensor t))
    /\ _tensor t
       = mkTensorData
           (zip_with (fun x d => - (1 / (x * x)) * d)%float
              (_storage (_tensor m_a)) (_storage (_tensor m_g)))
           (shape (_tensor m_g)) (strides_from_shape (shape (_tensor m_g))).
Proof.
  apply (Inv_backward_reciprocal_rule tracking_ctx m_a m_g);
    first [split; reflexivity | reflexivity].
Defined.

Section MathProperties.

(** The function of the math library that the backend maps: the exponential
    for Exp, the logarithm for Log, the sigmoid for Sigmoid. *)
Variable fn : float -> float.

(** X7. For contiguous [a] and [grad_output] of one shape, the forward of
    Exp saves its output, [exp] of every element of [a], and not its input;
    the backward on that context returns elementwise
    [grad_output * exp(a)], on the backend of [grad_output]. *)
Theorem Exp_backward_uses_saved_output (c : Context) (a grad_output : Tensor) :
  contiguous_data (_tensor a) -> contiguous_data (_tensor grad_output) ->
  shape (_tensor a) = shape (_tensor grad_output) ->
  exists out t,
    Exp.forward fn c a = (save_for_backward c [SavedTensor out], Ok out)
    /\ _storage (_tensor out) = fn <$> _storage (_tensor a)
    /\ Exp.backward (Exp.forward fn c a).1 grad_output = Ok (ReturnOne (GradTensor t))
    /\ _tensor t
       = mkTensorData
           (zip_with (fun d x => d * fn x)%float
              (_storage (_tensor grad_output)) (_storage (_tensor a)))
           (shape (_tensor grad_output))
           (strides_from_shape (shape (_tensor grad_output)))
    /\ backend t = backend grad_output.
Proof.
  intros Ha Hg Hs. unfold Exp.forward, Exp.backward.
  rewrite tensor_map_contiguous by done. simpl.
  eexists.
  destruct (Tensor_mul_contiguous grad_output
              (contiguous_tensor (fn <$> _storage (_tensor a)) (shape (_tensor a)) (backend a)))
    as (t & Ht & Htd & Hbe).
  - done.
  - by apply contiguous_data_fmap.
  - done.
  - exists t. split; [reflexivity|]. split; [reflexivity|]. rewrite Ht. simpl.
    split; [reflexivity|]. split; [|done].
    rewrite Htd. simpl. by rewrite zip_with_fmap_r.
Qed.

(** X8. For contiguous [a] and [grad_output] of one shape, the backward of
    Log, on the context its forward leaves, returns [grad_output / a],
    which the tensor division computes as elementwise
    [grad_output * (1 / a)], on the backend of [grad_output]. *)
Theorem Log_backward_divides_by_input (c : Context) (a grad_output : Tensor) :
  contiguous_data (_tensor a) -> contiguous_data (_tensor grad_output) ->
  shape (_tensor a) = shape (_tensor grad_output) ->
  exists t,
    Log.backward (Log.forward fn c a).1 grad_output = Ok (ReturnOne (GradTensor t))
    /\ _tensor t
       = mkTensorData
           (zip_with (fun d x => d * (1 / x))%float
              (_storage (_tensor grad_output)) (_storage (_tensor a)))
           (shape (_tensor grad_output))
           (strides_from_shape (shape (_tensor grad_output)))
    /\ backend t = backend grad_output.
Proof.
  intros Ha Hg Hs. unfold Log.forward, Log.backward. simpl.
  unfold Tensor_truediv. rewrite apply_unfold. simpl.
  unfold inv_map. rewrite tensor_map_contiguous by done. simpl.
  match goal with |- context [apply Mul.cls [_; ?ib]] =>
    destruct (Tensor_mul_contiguous grad_output ib) as (t & Ht & Htd & Hbe)
  end.
  - done.
  - split; simpl; [done|]. rewrite length_fmap. apply Ha.
  - done.
  - unfold Tensor_mul in Ht. rewrite Ht. simpl. exists t. split; [done|]. split; [|done].
    rewrite Htd. simpl. by rewrite zip_with_fmap_r.
Qed.

End MathProperties.

Lemma Exp_backward_uses_saved_output_witness :
  exists out t,
    Exp.forward double tracking_ctx m_a
      = (save_for_backward tracking_ctx [SavedTensor out], Ok out)
    /\ _storage (_tensor out) = double <$> _storage (_tensor m_a)
    /\ Exp.backward (Exp.forward double tracking_ctx m_a).1 m_g
       = Ok (ReturnOne (GradTensor t))
    /\ _tensor t
       = mkTensorData
           (zip_with (fun d x => d * double x)%float
              (_storage (_tensor m_g)) (_storage (_tensor m_a)))
           (shape (_tensor m_g)) (strides_from_shape (shape (_tensor m_g)))
    /\ backend t = backend m_g.
Proof.
  apply (Exp_backward_uses_saved_output double tracking_ctx m_a m_g);
    first [split; reflexivity | reflexivity].
Defined.

Lemma Log_backward_divides_by_input_witness :
  exists t,
    Log.backward (Log.forward double tracking_ctx m_a).1 m_g
      = Ok (ReturnOne (GradTensor t))
    /\ _tensor t
       = mkTensorData
           (zip_with (fun d x => d * (1 / x))%float
              (_storage (_tensor m_g)) (_storage (_tensor m_a)))
           (shape (_tensor m_g)) (strides_from_shape (shape (_tensor m_g)))
    /\ backend t = backend m_g.
Proof.
  apply (Log_backward_divides_by_input double tracking_ctx m_a m_g);
    first [split; reflexivity | reflexivity].
Defined.

Lemma shape_broadcast_scalar_l sh : sh <> [] -> shape_broadcast [1] sh = Ok sh.
Proof.
  intros Hne. unfold shape_broadcast.
  destruct (reverse sh) as [|b r] eqn:E.
  { apply (f_equal reverse) in E. rewrite reverse_involutive in E. done. }
  change (reverse [1]) with [1]. simpl.
  destruct b as [|[|b]]; simpl; rewrite <- E; by rewrite reverse_involutive.
Qed.

Lemma broadcast_index_scalar i sh :
  sh <> [] -> broadcast_index (to_index i sh) sh [1] = [0].
Proof.
  intros Hne. unfold broadcast_index. simpl.
  pose proof (length_to_index i sh) as Hl.
  destruct (drop (length sh - 1) (to_index i sh)) as [|y l] eqn:E.
  { apply (f_equal length) in E. rewrite length_drop in E. simpl in E.
    destruct sh; [done|]. simpl in *. lia. }
  simpl. by destruct l.
Qed.

Lemma zip_storage_scalar_l fn x s b :
  contiguous_data b -> shape b <> [] ->
  zip_storage fn (mkTensorData [x] [1] [s]) b (shape b) = Ok (fn x <$> _storage b).
Proof.
  intros Hb Hne. unfold zip_storage.
  destruct Hb as [Hst Hlen]. rewrite <- Hlen, <- (length_fmap (fn x)).
  apply mapM_result_seq_list. intros i z Hi.
  apply list_lookup_fmap_Some in Hi as (y & -> & Hy).
  cbv zeta. cbn [shape strides _storage]. rewrite broadcast_index_scalar by done.
  simpl. erewrite read_contiguous by (done || by split). done.
Qed.

Section SigmoidProperties.

Variable sigmoid : float -> float.

(** X9. For contiguous [a] and [grad_output] of one shape with at least
    one dimension, the forward of Sigmoid saves its output, and the backward
    on that context returns elementwise
    [grad_output * out * (1 - out)] with [out = sigmoid(a)]: the tensor
    [tensor([1.0])] of the code broadcasts to the shape of [out]. *)
Theorem Sigmoid_backward_formula (c : Context) (a grad_output : Tensor) :
  contiguous_data (_tensor a) -> contiguous_data (_tensor grad_output) ->
  shape (_tensor a) = shape (_tensor grad_output) ->
  shape (_tensor a) <> [] ->
  exists out t,
    Sigmoid.forward sigmoid c a = (save_for_backward c [SavedTensor out], Ok out)
    /\ _storage (_tensor out) = sigmoid <$> _storage (_tensor a)
    /\ Sigmoid.backward (Sigmoid.forward sigmoid c a).1 grad_output
       = Ok (ReturnOne (GradTensor t))
    /\ _tensor t
       = mkTensorData
           (zip_with (fun d x => d * sigmoid x * (1 - sigmoid x))%float
              (_storage (_tensor grad_output)) (_storage (_tensor a)))
           (shape (_tensor grad_output))
           (strides_from_shape (shape (_tensor grad_output)))
    /\ backend t = backend grad_output.
Proof.
  intros Ha Hg Hs Hne. unfold Sigmoid.forward, Sigmoid.backward.
  rewrite tensor_map_contiguous by done. cbn [fst snd].
  set (out := contiguous_tensor (sigmoid <$> _storage (_tensor a)) (shape (_tensor a)) (backend a)).
  assert (Hout : contiguous_data (_tensor out)) by (by apply contiguous_data_fmap).
  exists out.
  change (unpack1 (save_for_backward c [SavedTensor out])) with (Ok (SavedTensor out)).
  change (tensor (PyList [PyFloat 1%float]) SimpleBackend false)
    with (Ok (contiguous_tensor [1%float] [1] SimpleBackend)).
  cbn [mbind result_bind as_tensor].
  destruct (Tensor_mul_contiguous grad_output out) as (go & Hgo & Hgotd & Hgobe);
    [done..|].
  rewrite Hgo. cbn [mbind result_bind].
  assert (Hd : exists d, Tensor_sub (contiguous_tensor [1%float] [1] SimpleBackend) out = Ok d
             /\ _tensor d
                = mkTensorData ((fun x => 1 - sigmoid x)%float <$> _storage (_tensor a))
                    (shape (_tensor a)) (strides_from_shape (shape (_tensor a)))).
  { unfold Tensor_sub, Tensor_neg. rewrite apply_unfold. simpl.
    unfold neg_map. rewrite tensor_map_contiguous by done. simpl.
    rewrite apply_unfold. simpl.
    unfold add_zip, tensor_zip. simpl.
    rewrite shape_broadcast_scalar_l by done. simpl.
    pose proof (zip_storage_scalar_l operators.add 1%float 1
                 (mkTensorData (operators.neg <$> (sigmoid <$> _storage (_tensor a)))
                    (shape (_tensor a)) (strides_from_shape (shape (_tensor a))))) as Hz.
    simpl in Hz. rewrite Hz; [|split; simpl; [done|]|done].
    - simpl. rewrite Tensor_make_Ok.
      + simpl. eexists. split; [reflexivity|]. simpl. f_equal.
        rewrite <- !list_fmap_compose. apply list_fmap_ext. intros i x _. simpl.
        unfold operators.add, operators.neg. apply float_add_opp.
      + rewrite !length_fmap. apply Ha.
    - rewrite !length_fmap. apply Ha. }
  destruct Hd as (d & Hd & Hdtd). rewrite Hd. cbn [mbind result_bind].
  destruct (Tensor_mul_contiguous go d) as (t & Ht & Httd & Htbe).
  - rewrite Hgotd. split; simpl; [done|]. rewrite length_zip_with, length_fmap.
    destruct Ha as [_ ->], Hg as [_ ->]. rewrite Hs. lia.
  - rewrite Hdtd. split; simpl; [done|]. rewrite length_fmap. apply Ha.
  - rewrite Hgotd, Hdtd. simpl. done.
  - rewrite Ht. simpl. exists t. split; [reflexivity|]. split; [reflexivity|].
    split; [reflexivity|]. split; [|congruence].
    rewrite Httd, Hgotd, Hdtd. simpl. f_equal.
    rewrite zip_with_fmap_r. clear.
    generalize (_storage (_tensor a)).
    induction (_storage (_tensor grad_output)) as [|g0 l IH]; intros [|x l']; simpl; try done.
    f_equal. apply IH.
Qed.

End SigmoidProperties.

Lemma Sigmoid_backward_formula_witness :
  exists out t,
    Sigmoid.forward double tracking_ctx m_a
      = (save_for_backward tracking_ctx [SavedTensor out], Ok out)
    /\ _storage (_tensor out) = double <$> _storage (_tensor m_a)
    /\ Sigmoid.backward (Sigmoid.forward double tracking_ctx m_a).1 m_g
       = Ok (ReturnOne (GradTensor t))
    /\ _tensor t
       = mkTensorData
           (zip_with (fun d x => d * double x * (1 - double x))%float
              (_storage (_tensor m_g)) (_storage (_tensor m_a)))
           (shape (_tensor m_g)) (strides_from_shape (shape (_tensor m_g)))
    /\ backend t = backend m_g.
Proof.
  apply (Sigmoid_backward_formula double tracking_ctx m_a m_g);
    first [split; reflexivity | reflexivity | discriminate].
Defined.

(** ** Indices and positions *)

Lemma TensorData_index_valid td key :
  TensorData_index td key
  = if valid_index key (shape td) then Ok (index_to_position key (strides td))
    else Raise IndexingError.
Proof.
  unfold TensorData_index, valid_index.
  destruct (length key =? length (shape td)); simpl; [|done].
  by destruct (forallb _ _).
Qed.

Lemma valid_index_cons i key s sh :
  valid_index (i :: key) (s :: sh) = (i <? s) && valid_index key sh.
Proof.
  unfold valid_index. simpl.
  destruct (length key =? length sh), (i <? s); simpl; done.
Qed.

Lemma valid_index_position key sh :
  valid_index key sh = true ->
  index_to_position key (strides_from_shape sh) < operators.prod sh.
Proof.
  intros H. unfold valid_index in H. apply andb_true_iff in H as [Hl Hb].
  apply index_to_position_bound; [by apply Nat.eqb_eq|done].
Qed.

Lemma to_index_valid sh : forall o,
  o < operators.prod sh -> valid_index (to_index o sh) sh = true.
Proof.
  induction sh as [|s rest IH]; intros o Ho; simpl in *; [done|].
  set (P := operators.prod rest) in *.
  assert (HP : P <> 0) by (intros E; rewrite E in Ho; lia).
  rewrite valid_index_cons, IH by (apply Nat.mod_upper_bound; exact HP).
  rewrite andb_true_r. apply Nat.ltb_lt. apply Nat.mod_upper_bound. lia.
Qed.

(** [to_index] undoes [index_to_position] on a contiguous tensor. *)
Lemma to_index_index_to_position key : forall sh,
  valid_index key sh = true ->
  to_index (index_to_position key (strides_from_shape sh)) sh = key.
Proof.
  induction key as [|i key IH]; intros [|s sh] H; try done.
  rewrite valid_index_cons in H. apply andb_true_iff in H as [Hi Hv].
  apply Nat.ltb_lt in Hi. simpl.
  pose proof (valid_index_position key sh Hv) as Hp.
  set (P := operators.prod sh) in *.
  set (p := index_to_position key (strides_from_shape sh)) in *.
  assert (HP : P <> 0) by lia.
  assert (Hdiv : (i * P + p) / P = i).
  { rewrite Nat.div_add_l by done. rewrite Nat.div_small by done. lia. }
  assert (Hmod : (i * P + p) mod P = p).
  { rewrite Nat.add_comm, Nat.Div0.mod_add. by apply Nat.mod_small. }
  rewrite Hdiv, Hmod, Nat.mod_small by done. f_equal. unfold p. by apply IH.
Qed.

Lemma in_bounds_lookup td o :
  in_bounds td = true -> o < size td ->
  is_Some (_storage td !! index_to_position (to_index o (shape td)) (strides td)).
Proof.
  unfold in_bounds. rewrite forallb_forall. intros H Ho.
  apply lookup_lt_is_Some. apply Nat.ltb_lt. apply H.
  apply in_seq. lia.
Qed.

(** The strides of a contiguous tensor without an empty dimension pass the
    contiguity check. *)
Lemma is_contiguous_strides_from_shape sh : forall last,
  forallb (fun s => 0 <? s) sh = true ->
  (forall l, last = Some l -> operators.prod sh <= l) ->
  is_contiguous_from last (strides_from_shape sh) = true.
Proof.
  induction sh as [|s rest IH]; intros last Hpos Hlast; simpl in *; [done|].
  apply andb_true_iff in Hpos as [Hs Hpos]. apply Nat.ltb_lt in Hs.
  assert (Hrec : is_contiguous_from (Some (operators.prod rest)) (strides_from_shape rest) = true).
  { apply IH; [done|]. intros l [= <-]. done. }
  destruct last as [l|]; [|done].
  specialize (Hlast l eq_refl).
  assert ((l <? operators.prod rest) = false) as ->; [|done].
  apply Nat.ltb_ge. nia.
Qed.

(** ** Copy and All *)

(** X10. On a tensor all of whose indices are at positions of its buffer,
    whatever its strides (a permuted view, for one), the forward of Copy
    returns a tensor of the same shape with the strides of a contiguous
    tensor, on the same backend, that reads at every index what the input
    reads there; without an empty dimension it passes the contiguity check
    of View. *)
Theorem Copy_forward_makes_contiguous (c : Context) (a : Tensor) :
  in_bounds (_tensor a) = true ->
  exists out,
    Copy.forward c a = (c, Ok out)
    /\ shape (_tensor out) = shape (_tensor a)
    /\ strides (_tensor out) = strides_from_shape (shape (_tensor a))
    /\ length (_storage (_tensor out)) = size (_tensor a)
    /\ backend out = backend a
    /\ (forall key, Tensor_getitem out key = Tensor_getitem a key)
    /\ (forallb (fun s => 0 <? s) (shape (_tensor a)) = true ->
        is_contiguous (_tensor out) = true).
Proof.
  intros Hb. unfold Copy.forward, id_map, tensor_map.
  set (sh := shape (_tensor a)).
  set (h := fun o => default 0%float
                       (_storage (_tensor a)
                          !! index_to_position (to_index o sh) (strides (_tensor a)))).
  assert (Hmap : map_storage operators.id (_tensor a) sh
                 = Ok (h <$> seq 0 (operators.prod sh))).
  { unfold map_storage. apply mapM_result_Ok_map. intros o Ho.
    apply elem_of_seq in Ho.
    fold sh. rewrite broadcast_index_same by lia.
    destruct (in_bounds_lookup (_tensor a) o Hb) as [x Hx];
      [unfold size; fold sh; simpl in Ho; lia|].
    unfold h. fold sh in Hx. rewrite Hx. done. }
  rewrite Hmap. simpl.
  rewrite Tensor_make_Ok by (by rewrite length_fmap, length_seq).
  eexists. split; [reflexivity|]. simpl.
  split; [done|]. split; [done|]. split; [by rewrite length_fmap, length_seq|].
  split; [done|]. split.
  - intros key. unfold Tensor_getitem, TensorData_get. rewrite !TensorData_index_valid.
    simpl. fold sh. destruct (valid_index key sh) eqn:Ev; [|done]. simpl.
    pose proof (valid_index_position key sh Ev) as Hp.
    rewrite list_lookup_fmap, lookup_seq_lt by done. simpl.
    unfold h. rewrite to_index_index_to_position by done.
    destruct (in_bounds_lookup (_tensor a) _ Hb Hp) as [x Hx].
    fold sh in Hx. rewrite to_index_index_to_position in Hx by done.
    by rewrite Hx.
  - intros Hpos. unfold is_contiguous. simpl.
    apply is_contiguous_strides_from_shape; [done|]. intros l. discriminate.
Qed.

Lemma Copy_forward_makes_contiguous_witness :
  exists out,
    Copy.forward tracking_ctx t_2x3_permuted = (tracking_ctx, Ok out)
    /\ shape (_tensor out) = shape (_tensor t_2x3_permuted)
    /\ strides (_tensor out) = strides_from_shape (shape (_tensor t_2x3_permuted))
    /\ length (_storage (_tensor out)) = size (_tensor t_2x3_permuted)
    /\ backend out = backend t_2x3_permuted
    /\ (forall key, Tensor_getitem out key = Tensor_getitem t_2x3_permuted key)
    /\ (forallb (fun s => 0 <? s) (shape (_tensor t_2x3_permuted)) = true ->
        is_contiguous (_tensor out) = true).
Proof.
  apply (Copy_forward_makes_contiguous tracking_ctx t_2x3_permuted). reflexivity.
Defined.

(** The fold of a reduction along the only dimension of a one-dimensional
    contiguous tensor. *)
Lemma foldM_lookup_fold_left (fn : float -> float -> float) (st : list float) l :
  forall k acc,
  (forall i x, l !! i = Some x -> st !! (k + i) = Some x) ->
  foldM
    (fun acc s =>
       x ← from_option IndexError (st !! (s * 1 + 0));
       Ok (fn acc x))
    (seq k (length l)) acc
  = Ok (fold_left fn l acc).
Proof.
  induction l as [|y l IH]; intros k acc H; simpl; [done|].
  replace (k * 1 + 0) with (k + 0) by lia. rewrite (H 0 y eq_refl). simpl.
  apply IH. intros i x Hi. replace (S k + i) with (k + S i) by lia. by apply H.
Qed.

Lemma tensor_reduce_one_dimensional fn start (v : Tensor) n :
  shape (_tensor v) = [n] -> strides (_tensor v) = [1] ->
  length (_storage (_tensor v)) = n ->
  tensor_reduce fn start v 0
  = Ok (contiguous_tensor [fold_left fn (_storage (_tensor v)) start] [1] (backend v)).
Proof.
  intros Hsh Hst Hl. unfold tensor_reduce. rewrite Hsh. simpl.
  unfold reduce_storage. rewrite Hsh, Hst. simpl.
  rewrite <- Hl.
  rewrite (foldM_lookup_fold_left fn (_storage (_tensor v)) (_storage (_tensor v)) 0 start)
    by (intros i x Hi; exact Hi).
  simpl. reflexivity.
Qed.

(** X11. Without a dimension, the forward of All reduces the flattened
    tensor to one element: on a contiguous tensor that passes the contiguity
    check, and whose number of elements is a float that converts back to
    itself, it returns the one-element tensor of shape (1,), on the backend
    of the input, that holds the product of all elements, multiplied from
    [1.0] in the order of the buffer. *)
Theorem All_forward_without_dim_multiplies_all (c : Context) (a : Tensor) :
  contiguous_data (_tensor a) ->
  is_contiguous (_tensor a) = true ->
  py_int (float_of_nat (size (_tensor a))) = Ok (Z.of_nat (size (_tensor a))) ->
  All.forward c a None
  = (c, Ok (contiguous_tensor
              [fold_left (fun acc x => acc * x)%float (_storage (_tensor a)) 1%float]
              [1] (backend a))).
Proof.
  intros Ha Hc Hn. unfold All.forward. f_equal.
  unfold contiguous. rewrite apply_unfold. simpl.
  unfold id_map. rewrite tensor_map_contiguous by done. simpl.
  rewrite list_fmap_id.
  unfold view. simpl. rewrite apply_unfold. simpl.
  unfold View.forward. simpl.
  assert (is_contiguous
            (mkTensorData (_storage (_tensor a)) (shape (_tensor a))
               (strides_from_shape (shape (_tensor a)))) = true) as ->.
  { unfold is_contiguous in *. simpl. by destruct Ha as [<- _]. }
  simpl. unfold View.shape2. simpl.
  unfold Tensor_getitem, TensorData_get. simpl.
  unfold size in Hn. rewrite Hn. simpl.
  rewrite Tensor_make_ints_nonneg by (repeat constructor; lia).
  simpl. rewrite Nat2Z.id.
  rewrite Tensor_make_Ok by (simpl; destruct Ha as [_ ->]; lia).
  simpl. unfold mul_reduce.
  rewrite (tensor_reduce_one_dimensional _ _ _ (operators.prod (shape (_tensor a))));
    simpl; try done.
  apply Ha.
Qed.

Lemma All_forward_without_dim_multiplies_all_witness :
  All.forward tracking_ctx t_2x3_other None
  = (tracking_ctx,
     Ok (contiguous_tensor
           [fold_left (fun acc x => acc * x)%float (_storage (_tensor t_2x3_other)) 1%float]
           [1] (backend t_2x3_other))).
Proof.
  apply (All_forward_without_dim_multiplies_all tracking_ctx t_2x3_other).
  - split; reflexivity.
  - reflexivity.
  - reflexivity.
Defined.

(** ** Sum over given dimensions *)

(** X12. On a dimension tensor whose buffer has the size of its shape,
    [dims_to_sum] converts every entry of the buffer to an integer, in
    order: the branch for one element gives what the branch for several
    elements would give; on an empty dimension tensor it raises
    [IndexError]. *)
Theorem Sum_dims_to_sum_reads_every_entry (dim : Tensor) :
  length (_storage (_tensor dim)) = size (_tensor dim) ->
  Sum.dims_to_sum dim
  = if size (_tensor dim) =? 0 then Raise IndexError
    else mapM_result py_int (_storage (_tensor dim)).
Proof.
  intros Hl. unfold Sum.dims_to_sum.
  destruct (1 <? size (_tensor dim)) eqn:E1.
  - apply Nat.ltb_lt in E1. destruct (size (_tensor dim)) as [|n]; [lia|]. done.
  - apply Nat.ltb_ge in E1.
    destruct (_storage (_tensor dim)) as [|x [|y l]]; simpl in Hl.
    + rewrite <- Hl. done.
    + rewrite <- Hl. simpl. by destruct (py_int x).
    + lia.
Qed.

Lemma Sum_dims_to_sum_reads_every_entry_witness :
  Sum.dims_to_sum dims_0_1
  = if size (_tensor dims_0_1) =? 0 then Raise IndexError
    else mapM_result py_int (_storage (_tensor dims_0_1)).
Proof. apply (Sum_dims_to_sum_reads_every_entry dims_0_1). reflexivity. Defined.

(** X13. Summing a one-dimensional contiguous tensor over its dimension:
    the forward of Sum returns a new one-element tensor of shape (1,) on the
    default backend that holds the sum of all elements, added from [0.0] in
    the order of the buffer. *)
Theorem Sum_forward_one_dimensional (c : Context) (a dim : Tensor) (n : nat) :
  shape (_tensor a) = [n] -> strides (_tensor a) = [1] ->
  length (_storage (_tensor a)) = n ->
  Sum.dims_to_sum dim = Ok [0%Z] ->
  (Sum.forward c a (Some dim)).2
  = Ok (contiguous_tensor
          [fold_left (fun acc x => acc + x)%float (_storage (_tensor a)) 0%float]
          [1] SimpleBackend).
Proof.
  intros Hsh Hst Hl Hd. unfold Sum.forward. simpl. rewrite Hd. simpl.
  unfold Sum.reduce_dims, add_reduce. simpl.
  rewrite (tensor_reduce_one_dimensional _ _ _ n) by done. simpl. reflexivity.
Qed.

Lemma Sum_forward_one_dimensional_witness :
  (Sum.forward tracking_ctx t_1_2_3 (Some dims_0)).2
  = Ok (contiguous_tensor
          [fold_left (fun acc x => acc + x)%float (_storage (_tensor t_1_2_3)) 0%float]
          [1] SimpleBackend).
Proof.
  apply (Sum_forward_one_dimensional tracking_ctx t_1_2_3 dims_0 3); reflexivity.
Defined.

Lemma broadcasts_to_Forall2 small big :
  broadcasts_to small big = true ->
  length small <= length big
  /\ Forall2 (fun s gs => gs = s \/ gs = 1) (drop (length big - length small) big) small.
Proof.
  unfold broadcasts_to. intros H. apply andb_true_iff in H as [Hl H].
  apply Nat.leb_le in Hl. split; [done|].
  assert (Hlen : length (drop (length big - length small) big) = length small).
  { rewrite length_drop. lia. }
  revert H Hlen. generalize (drop (length big - length small) big). clear.
  intros l. revert small. induction l as [|s l IH]; intros [|gs small] H Hlen;
    simpl in *; try done; try (by constructor).
  apply andb_true_iff in H as [Hs H]. constructor.
  - apply orb_true_iff in Hs as [Hs|Hs]; apply Nat.eqb_eq in Hs; auto.
  - apply IH; [done|lia].
Qed.

Lemma shape_broadcast_rev_prefix r1 r2 :
  Forall2 (fun s gs => gs = s \/ gs = 1) r1 r2 ->
  forall tl, shape_broadcast_rev (r1 ++ tl) r2 = Ok (r1 ++ tl).
Proof.
  induction 1 as [|s gs r1 r2 Hs _ IH]; intros tl; simpl.
  - by destruct tl.
  - rewrite IH. simpl. destruct (s =? gs) eqn:E; [done|].
    apply Nat.eqb_neq in E. destruct Hs as [->| ->]; [done|].
    assert ((s =? 1) = false) as -> by (apply Nat.eqb_neq; lia). done.
Qed.

Lemma shape_broadcast_to small big :
  broadcasts_to small big = true -> shape_broadcast big small = Ok big.
Proof.
  intros H. apply broadcasts_to_Forall2 in H as [Hl H].
  unfold shape_broadcast. apply Forall2_reverse in H.
  rewrite <- (take_drop (length big - length small) big) at 1.
  rewrite reverse_app, shape_broadcast_rev_prefix by done. simpl.
  by rewrite <- reverse_app, take_drop, reverse_involutive.
Qed.

Lemma valid_index_drop key : forall sh k,
  valid_index key sh = true -> valid_index (drop k key) (drop k sh) = true.
Proof.
  induction key as [|i key IH]; intros [|s sh] [|k] H; try done.
  rewrite valid_index_cons in H. apply andb_true_iff in H as [_ H].
  simpl. by apply IH.
Qed.

Lemma valid_index_broadcast sh gsh :
  Forall2 (fun s gs => gs = s \/ gs = 1) sh gsh ->
  forall key, valid_index key sh = true ->
  valid_index (zip_with (fun s i => if 1 <? s then i else 0) gsh key) gsh = true.
Proof.
  induction 1 as [|s gs sh gsh Hs _ IH]; intros [|i key] Hv; try done.
  rewrite valid_index_cons in Hv. apply andb_true_iff in Hv as [Hi Hv].
  apply Nat.ltb_lt in Hi. cbn [zip_with]. rewrite valid_index_cons, IH by done.
  rewrite andb_true_r. apply Nat.ltb_lt.
  destruct (1 <? gs) eqn:E.
  - apply Nat.ltb_lt in E. destruct Hs as [->| ->]; lia.
  - destruct Hs as [->| ->]; lia.
Qed.

Lemma broadcast_index_valid key sh gsh :
  broadcasts_to gsh sh = true -> valid_index key sh = true ->
  valid_index (broadcast_index key sh gsh) gsh = true.
Proof.
  intros H Hv. apply broadcasts_to_Forall2 in H as [Hl H].
  unfold broadcast_index. eapply valid_index_broadcast; [exact H|].
  by apply valid_index_drop.
Qed.

Lemma broadcast_index_id key : forall sh,
  valid_index key sh = true -> broadcast_index key sh sh = key.
Proof.
  intros sh Hv. unfold broadcast_index. rewrite Nat.sub_diag, drop_0.
  revert sh Hv. induction key as [|i key IH]; intros [|s sh] Hv; try done.
  rewrite valid_index_cons in Hv. apply andb_true_iff in Hv as [Hi Hv].
  apply Nat.ltb_lt in Hi. simpl. rewrite IH by done. f_equal.
  destruct (1 <? s) eqn:E; [done|]. apply Nat.ltb_ge in E. lia.
Qed.

(** [a.expand(g)] for a contiguous [g] whose shape broadcasts to the shape
    of [a]: a tensor of the shape of [a] that reads, at every index, [g] at
    the index with the broadcast dimensions at 0. *)
Lemma expand_broadcasts a g :
  contiguous_data (_tensor g) ->
  broadcasts_to (shape (_tensor g)) (shape (_tensor a)) = true ->
  exists t,
    expand a g = Ok t
    /\ shape (_tensor t) = shape (_tensor a)
    /\ forall key, valid_index key (shape (_tensor a)) = true ->
         Tensor_getitem t key
         = Tensor_getitem g (broadcast_index key (shape (_tensor a)) (shape (_tensor g))).
Proof.
  intros Hg Hb. unfold expand.
  set (sh := shape (_tensor a)) in *. set (gsh := shape (_tensor g)) in *.
  case_bool_decide as Heq.
  - exists g. split; [done|]. split; [done|]. intros key Hv.
    fold gsh. rewrite <- Heq. by rewrite broadcast_index_id.
  - rewrite shape_broadcast_to by done. simpl.
    set (h := fun o => default 0%float
                         (_storage (_tensor g)
                            !! index_to_position (broadcast_index (to_index o sh) sh gsh)
                                 (strides (_tensor g)))).
    assert (Hread : forall key, valid_index key sh = true ->
              is_Some (_storage (_tensor g)
                         !! index_to_position (broadcast_index key sh gsh)
                              (strides (_tensor g)))).
    { intros key Hv. apply lookup_lt_is_Some.
      destruct Hg as [-> ->]. apply valid_index_position.
      by apply broadcast_index_valid. }
    assert (Hmap : map_storage operators.id (_tensor g) sh
                   = Ok (h <$> seq 0 (operators.prod sh))).
    { unfold map_storage. apply mapM_result_Ok_map. intros o Ho.
      apply elem_of_seq in Ho. fold gsh.
      destruct (Hread (to_index o sh)) as [x Hx]; [apply to_index_valid; lia|].
      unfold h. rewrite Hx. done. }
    rewrite Hmap. simpl.
    rewrite Tensor_make_Ok by (by rewrite length_fmap, length_seq). simpl.
    rewrite bool_decide_true by done.
    eexists. split; [reflexivity|]. split; [done|]. intros key Hv.
    unfold Tensor_getitem, TensorData_get. rewrite !TensorData_index_valid. simpl.
    fold gsh. rewrite Hv, broadcast_index_valid by done. simpl.
    pose proof (valid_index_position key sh Hv) as Hp.
    rewrite list_lookup_fmap, lookup_seq_lt by done. simpl.
    unfold h. rewrite to_index_index_to_position by done.
    destruct (Hread key Hv) as [x Hx]. by rewrite Hx.
Qed.

(** X14. With a dimension tensor, the backward of Sum, on the context its
    forward leaves, returns two gradients.  For a contiguous [grad_output]
    whose shape broadcasts to the shape of the input (the shape of the input
    with the summed dimensions at 1, or one element), the first has the
    shape of the input and reads, at every index, [grad_output] at the index
    with the summed dimensions at 0; the second is a zero tensor of the
    shape of the dimension tensor on the default backend. *)
Theorem Sum_backward_with_dim (c : Context) (a dim grad_output : Tensor) :
  contiguous_data (_tensor grad_output) ->
  broadcasts_to (shape (_tensor grad_output)) (shape (_tensor a)) = true ->
  exists t,
    Sum.backward (Sum.forward c a (Some dim)).1 grad_output
    = Ok (ReturnTuple
            [GradTensor t;
             GradTensor
               (contiguous_tensor
                  (replicate (operators.prod (shape (_tensor dim))) 0%float)
                  (shape (_tensor dim)) SimpleBackend)])
    /\ shape (_tensor t) = shape (_tensor a)
    /\ forall key, valid_index key (shape (_tensor a)) = true ->
         Tensor_getitem t key
         = Tensor_getitem grad_output
             (broadcast_index key (shape (_tensor a)) (shape (_tensor grad_output))).
Proof.
  intros Hg Hb. destruct (expand_broadcasts a grad_output Hg Hb) as (t & Ht & Hs & Hk).
  exists t. unfold Sum.backward, Sum.forward. simpl. rewrite Ht. simpl.
  rewrite zeros_Ok. simpl. done.
Qed.

Lemma Sum_backward_with_dim_witness :
  exists t,
    Sum.backward (Sum.forward tracking_ctx t_2x3_other (Some dims_0)).1 g_1x3
    = Ok (ReturnTuple
            [GradTensor t;
             GradTensor
               (contiguous_tensor
                  (replicate (operators.prod (shape (_tensor dims_0))) 0%float)
                  (shape (_tensor dims_0)) SimpleBackend)])
    /\ shape (_tensor t) = shape (_tensor t_2x3_other)
    /\ forall key, valid_index key (shape (_tensor t_2x3_other)) = true ->
         Tensor_getitem t key
         = Tensor_getitem g_1x3
             (broadcast_index key (shape (_tensor t_2x3_other)) (shape (_tensor g_1x3))).
Proof.
  apply (Sum_backward_with_dim tracking_ctx t_2x3_other dims_0 g_1x3).
  - split; reflexivity.
  - reflexivity.
Defined.

(** ** View, forward and backward *)

Lemma Tensor_make_Raise storage sh be :
  length storage <> operators.prod sh ->
  Tensor_make storage sh be = Raise AssertionError.
Proof.
  intros H. unfold Tensor_make, TensorData_init. simpl.
  rewrite length_strides_from_shape, Nat.eqb_refl. simpl.
  apply Nat.eqb_neq in H. by rewrite H.
Qed.

Lemma View_forward_saves_shape c a sh :
  saved_values (View.forward c a sh).1 = [SavedShape (shape (_tensor a))].
Proof. unfold View.forward. by destruct (negb (is_contiguous (_tensor a))). Qed.

(** X15. The forward of View on a contiguous input fails the size check of
    the tensor constructor when the product of the requested extents, which
    are integers of either sign, is not the number of elements of the
    buffer; the shape of the input was saved in the context before. *)
Theorem View_forward_size_mismatch (c : Context) (a sh : Tensor) (s2 : list Z) :
  is_contiguous (_tensor a) = true ->
  View.shape2 sh = Ok s2 ->
  operators.prod_ints s2 <> Z.of_nat (length (_storage (_tensor a))) ->
  (View.forward c a sh).2 = Raise AssertionError
  /\ saved_values (View.forward c a sh).1 = [SavedShape (shape (_tensor a))].
Proof.
  intros Hc Hs2 Hne. split; [|apply View_forward_saves_shape].
  unfold View.forward. rewrite Hc. simpl. rewrite Hs2. simpl.
  by apply Tensor_make_ints_mismatch.
Qed.

Lemma View_forward_size_mismatch_witness :
  View.shape2 shape_m1 = Ok [-1]%Z
  /\ (View.forward tracking_ctx t_1 shape_m1).2 = Raise AssertionError
  /\ saved_values (View.forward tracking_ctx t_1 shape_m1).1
     = [SavedShape (shape (_tensor t_1))].
Proof.
  split; [reflexivity|].
  apply (View_forward_size_mismatch tracking_ctx t_1 shape_m1 [-1]%Z).
  - reflexivity.
  - reflexivity.
  - vm_compute. discriminate.
Defined.

(** X16. The backward of View, on the context its forward leaves (also when
    the forward raised), rebuilds [grad_output] with the shape of the input
    of the forward: a contiguous tensor of that shape on the buffer and the
    backend of [grad_output], and the float [0.0] for the shape argument.
    It does not check that [grad_output] is contiguous; it raises exactly
    when the buffer of [grad_output] does not hold as many elements as the
    shape of the input. *)
Theorem View_backward_restores_shape (c : Context) (a sh grad_output : Tensor) :
  View.backward (View.forward c a sh).1 grad_output
  = if length (_storage (_tensor grad_output)) =? operators.prod (shape (_tensor a))
    then Ok (ReturnTuple
               [GradTensor
                  (contiguous_tensor (_storage (_tensor grad_output))
                     (shape (_tensor a)) (backend grad_output));
                GradFloat 0%float])
    else Raise AssertionError.
Proof.
  unfold View.backward, unpack1. rewrite View_forward_saves_shape. simpl.
  destruct (_ =? _) eqn:E.
  - apply Nat.eqb_eq in E. by rewrite Tensor_make_Ok.
  - apply Nat.eqb_neq in E. by rewrite Tensor_make_Raise.
Qed.

(** X17. View round trip: when the forward of View returns [out] on an
    input whose buffer has the size of its shape, the backward on [out]
    gives back the buffer of the input under the shape of the input, as a
    contiguous tensor on the backend of the input. *)
Theorem View_round_trip (c : Context) (a sh out : Tensor) :
  length (_storage (_tensor a)) = size (_tensor a) ->
  (View.forward c a sh).2 = Ok out ->
  View.backward (View.forward c a sh).1 out
  = Ok (ReturnTuple
          [GradTensor
             (contiguous_tensor (_storage (_tensor a)) (shape (_tensor a)) (backend a));
           GradFloat 0%float]).
Proof.
  intros Ha Hout.
  unfold View.backward, unpack1. rewrite View_forward_saves_shape. simpl.
  unfold View.forward in Hout.
  destruct (negb (is_contiguous (_tensor a))); [discriminate|]. simpl in Hout.
  apply bind_Ok in Hout as (s2 & _ & Hmk).
  apply Tensor_make_ints_inv in Hmk as [_ Hmk]. apply Tensor_make_inv in Hmk as [-> _].
  simpl. by rewrite Tensor_make_Ok.
Qed.

Lemma View_round_trip_witness :
  (View.forward tracking_ctx t_2x3 shape_3_2).2
    = Ok (contiguous_tensor (_storage (_tensor t_2x3)) [3; 2] SimpleBackend)
  /\ View.backward (View.forward tracking_ctx t_2x3 shape_3_2).1
       (contiguous_tensor (_storage (_tensor t_2x3)) [3; 2] SimpleBackend)
     = Ok (ReturnTuple
             [GradTensor
                (contiguous_tensor (_storage (_tensor t_2x3)) (shape (_tensor t_2x3))
                   (backend t_2x3));
              GradFloat 0%float]).
Proof.
  split; [reflexivity|].
  apply (View_round_trip tracking_ctx t_2x3 shape_3_2
           (contiguous_tensor (_storage (_tensor t_2x3)) [3; 2] SimpleBackend)).
  - reflexivity.
  - reflexivity.
Defined.

(** ** The loop of the backward of Permute *)

Lemma py_index_is_Some len i : is_Some (py_index len i) <-> in_range len i.
Proof.
  unfold py_index, in_range.
  destruct (0 <=? i)%Z eqn:E1; destruct (i <? Z.of_nat len)%Z eqn:E2; simpl;
    try destruct (- Z.of_nat len <=? i)%Z eqn:E3; try destruct (i <? 0)%Z eqn:E4; simpl;
    rewrite ?Z.leb_le, ?Z.leb_gt, ?Z.ltb_lt, ?Z.ltb_ge in *;
    split; intros H; try (by eexists); try lia; try (by destruct H).
Qed.

Lemma py_index_None len i : py_index len i = None <-> ~ in_range len i.
Proof.
  rewrite <- py_index_is_Some. destruct (py_index len i); split; intros H; try done.
  all: try (by destruct H).
  all: try (destruct H; by eexists).
Qed.

Lemma py_setitem_eq {A} (l : list A) i x :
  py_setitem l i x
  = match py_index (length l) i with
    | Some k => Ok (<[k := x]> l)
    | None => Raise IndexError
    end.
Proof. unfold py_setitem. by destruct (py_index (length l) i). Qed.

Lemma reverse_order_loop_range (orders l : list Z) : forall k (r : list Z),
  (forall i, l !! i = orders !! (k + i)) ->
  match
    foldM
      (fun reverse i =>
         o ← from_option IndexError (orders !! i);
         py_setitem reverse o (Z.of_nat i))
      (seq k (length l)) r
  with
  | Ok r' => length r' = length r /\ Forall (in_range (length r)) l
  | Raise e => e = IndexError /\ Exists (fun o => ~ in_range (length r) o) l
  | Outside => False
  end.
Proof.
  induction l as [|o l IH]; intros k r Hl; simpl; [done|].
  pose proof (Hl 0) as H0. simpl in H0. rewrite Nat.add_0_r in H0. rewrite <- H0. simpl.
  rewrite (py_setitem_eq r o).
  destruct (py_index (length r) o) as [j|] eqn:Ej; simpl.
  - assert (Hin : in_range (length r) o) by (apply py_index_is_Some; by eexists).
    assert (Hl' : forall i, l !! i = orders !! (S k + i)).
    { intros i. replace (S k + i) with (k + S i) by lia. apply (Hl (S i)). }
    specialize (IH (S k) (<[j := Z.of_nat k]> r) Hl').
    rewrite length_insert in IH.
    destruct (foldM _ _ _) as [r'|e|].
    + destruct IH as [Hlen HF]. split; [done|]. by constructor.
    + destruct IH as [He HE]. split; [done|]. by apply Exists_cons_tl.
    + done.
  - split; [done|]. apply Exists_cons_hd. by apply py_index_None.
Qed.

(** X18. The loop of the backward of Permute that builds [reverse] from the
    saved [orders] returns a list of the length of [orders] exactly when
    every entry of [orders] indexes a list of that length (negative entries
    count from the end); otherwise it raises [IndexError]. *)
Theorem reverse_order_range (orders : list Z) :
  match Permute.reverse_order orders with
  | Ok r => length r = length orders /\ Forall (in_range (length orders)) orders
  | Raise e => e = IndexError /\ Exists (fun o => ~ in_range (length orders) o) orders
  | Outside => False
  end.
Proof.
  unfold Permute.reverse_order.
  pose proof (reverse_order_loop_range orders orders 0
                (replicate (length orders) 0%Z) (fun i => eq_refl)) as H.
  rewrite length_replicate in H. exact H.
Qed.

(** ** The transposition of the backward of MatMul *)

Lemma split_last_two {A} (l : list A) :
  2 <= length l -> exists pre x y, l = pre ++ [x; y] /\ length pre = length l - 2.
Proof.
  intros H. exists (take (length l - 2) l).
  pose proof (take_drop (length l - 2) l) as Htd.
  assert (Hd : length (drop (length l - 2) l) = 2) by (rewrite length_drop; lia).
  destruct (drop (length l - 2) l) as [|x [|y [|]]]; simpl in Hd; try lia.
  exists x, y. split; [done|]. rewrite length_take. lia.
Qed.

(** X19. The local [transpose] of the backward of MatMul raises
    [IndexError] on a tensor of fewer than two dimensions; the backward of
    MatMul transposes the second saved operand before it calls the matrix
    product, so that with a second operand of fewer than two dimensions it
    raises [IndexError] whatever the backend's matrix product is. *)
Theorem MatMul_transpose_needs_two_dimensions
    (matrix_multiply : Tensor -> Tensor -> result Tensor)
    (c : Context) (t1 t2 grad_output : Tensor) :
  dims (_tensor t2) < 2 ->
  MatMul.transpose t2 = Raise IndexError
  /\ MatMul.backward matrix_multiply (MatMul.forward matrix_multiply c t1 t2).1 grad_output
     = Raise IndexError.
Proof.
  intros Hd.
  assert (Ht : MatMul.transpose t2 = Raise IndexError).
  { unfold MatMul.transpose. destruct (dims (_tensor t2)) as [|[|n]]; [done|done|lia]. }
  split; [done|]. unfold MatMul.backward, MatMul.forward. simpl. by rewrite Ht.
Qed.

Lemma MatMul_transpose_needs_two_dimensions_witness :
  MatMul.transpose t_1_2 = Raise IndexError
  /\ MatMul.backward matmul_2d (MatMul.forward matmul_2d tracking_ctx m_a t_1_2).1 m_g
     = Raise IndexError.
Proof.
  apply (MatMul_transpose_needs_two_dimensions matmul_2d tracking_ctx m_a t_1_2 m_g).
  vm_compute. lia.
Defined.

(** X20. On a tensor of at least two dimensions with one stride per
    dimension and a buffer of the size of its shape, the local [transpose]
    of the backward of MatMul returns a view on the same buffer, and
    transposing that view gives back the value of the tensor, without its
    Graph Edge and gradient. *)
Theorem MatMul_transpose_involutive (a : Tensor) :
  valid_data (_tensor a) -> 2 <= dims (_tensor a) ->
  exists b,
    MatMul.transpose a = Ok b
    /\ _storage (_tensor b) = _storage (_tensor a)
    /\ MatMul.transpose b = Ok (detach a).
Proof.
  intros [Hlen Hsto] Hd. unfold dims in Hd.
  destruct (split_last_two (strides (_tensor a)) Hd) as (spre & sm & sk & Hst & Hspre).
  destruct (split_last_two (shape (_tensor a))) as (pre & m & k & Hsh & Hpre); [lia|].
  assert (Hl : length spre = length pre) by lia.
  rewrite (transpose_swaps_last_two a pre m k spre sm sk Hsh Hst Hl Hsto).
  eexists. split; [reflexivity|]. split; [reflexivity|].
  rewrite (transpose_swaps_last_two _ pre k m spre sk sm); simpl; try done.
  - unfold detach, Tensor_init. rewrite <- Hsh, <- Hst. by destruct (_tensor a).
  - rewrite Hsto, Hsh.
    rewrite !(prod_Permutation (pre ++ _) (_ ++ pre)) by apply Permutation_app_comm.
    simpl. lia.
Qed.

Lemma MatMul_transpose_involutive_witness :
  exists b,
    MatMul.transpose t_2x3 = Ok b
    /\ _storage (_tensor b) = _storage (_tensor t_2x3)
    /\ MatMul.transpose b = Ok (detach t_2x3).
Proof.
  apply (MatMul_transpose_involutive t_2x3).
  - split; reflexivity.
  - vm_compute. lia.
Defined.

(** ** The arguments of the central difference *)

(** X21. [grad_central_difference] checks its arguments before it calls
    [f]: an argument position past the end of [vals] raises [IndexError],
    and an index [ind] that is not an index into the argument (of another
    length than its shape, or with an entry not below the extent) raises
    [IndexingError], whatever [f] is. *)
Theorem grad_central_difference_rejects_bad_index
    (f : list Argument -> World -> result (Tensor * World)) (vals : list nat)
    (arg : nat) (epsilon : float) (ind : list nat) (w : World) :
  (length vals <= arg ->
   grad_central_difference f vals arg epsilon ind w = Raise IndexError)
  /\ (forall r x, vals !! arg = Some r -> objects w !! r = Some x ->
        valid_index ind (shape (_tensor x)) = false ->
        grad_central_difference f vals arg epsilon ind w = Raise IndexingError).
Proof.
  unfold grad_central_difference. split.
  - intros H. by rewrite lookup_ge_None_2.
  - intros r x Hr Hx Hv. rewrite Hr. simpl. unfold deref. rewrite Hx. simpl.
    rewrite zeros_Ok. simpl.
    unfold Tensor_setitem, TensorData_set. rewrite TensorData_index_valid. simpl.
    by rewrite Hv.
Qed.

Lemma grad_central_difference_rejects_bad_index_witness :
  grad_central_difference f_identity [0] 1 1e-6%float [0] world_1 = Raise IndexError
  /\ grad_central_difference f_identity [0] 0 1e-6%float [1] world_1 = Raise IndexingError.
Proof.
  split.
  - apply (proj1 (grad_central_difference_rejects_bad_index f_identity [0] 1
                    1e-6%float [0] world_1)).
    simpl. lia.
  - apply (proj2 (grad_central_difference_rejects_bad_index f_identity [0] 0
                    1e-6%float [1] world_1) 0 t_1); reflexivity.
Defined.

(** ** The values saved under apply *)

Lemma tensor_map_untracked fn a out :
  tensor_map fn a = Ok out -> history out = None /\ grad out = None.
Proof.
  unfold tensor_map. intros H. apply bind_Ok in H as (st & _ & H).
  by apply Tensor_make_inv in H as [-> _].
Qed.

Section SavedValues.

Variables sigmoid log exp : float -> float.
Variable is_close : float -> float -> float.
Variable matrix_multiply : Tensor -> Tensor -> result Tensor.

(** On inputs without a Graph Edge, a forward that returns leaves the
    no-gradient flag of the context as it was and saves only untracked
    values. *)
Lemma forward_saves_untracked (cls : Function) (c c' : Context) (inps : list Tensor)
    (out : Tensor) :
  cls ∈ functions sigmoid log exp is_close matrix_multiply ->
  Forall (fun t => history t = None /\ grad t = None) inps ->
  Forall untracked (saved_values c) ->
  cls_forward cls c inps = (c', Ok out) ->
  no_grad c' = no_grad c /\ Forall untracked (saved_values c').
Proof.
  unfold functions. intros Hin Hinps Hc Hf.
  repeat (apply elem_of_cons in Hin as [->|Hin]); [..|by apply elem_of_nil in Hin];
    simpl in Hf.
  all: first [ apply arity1_inv in Hf as (a & -> & Hf)
             | apply arity2_inv in Hf as (a & b & -> & Hf) ].
  all: repeat match goal with
       | H : Forall _ (_ :: _) |- _ => apply Forall_cons in H as [? H]
       end.
  all: unfold Neg.forward, Inv.forward, Add.forward, All.forward, Mul.forward,
         Sigmoid.forward, ReLU.forward, Log.forward, Exp.forward, Sum.forward,
         LT.forward, EQ.forward, IsClose.forward, Permute.forward, View.forward,
         Copy.forward, MatMul.forward in Hf.
  all: try (injection Hf as <- _; split; [reflexivity|]; simpl;
            first [ assumption
                  | by repeat first [apply List.Forall_nil | apply List.Forall_cons] ]).
  - destruct (tensor_map sigmoid a) as [o| |] eqn:E; [|by injection Hf|by injection Hf].
    injection Hf as <- _. split; [reflexivity|]. simpl. constructor; [|constructor].
    by eapply tensor_map_untracked.
  - destruct (tensor_map exp a) as [o| |] eqn:E; [|by injection Hf|by injection Hf].
    injection Hf as <- _. split; [reflexivity|]. simpl. constructor; [|constructor].
    by eapply tensor_map_untracked.
  - destruct (to_int_list b) as [orders| |]; [|by injection Hf|by injection Hf].
    injection Hf as <- _. split; [reflexivity|]. simpl. by repeat constructor.
  - destruct (negb (is_contiguous (_tensor a))); injection Hf as <- _;
      (split; [reflexivity|]); simpl; by repeat constructor.
Qed.

(** X22. For every subclass of [Function] of the file: when [apply]
    returns a tensor with a Graph Edge, the edge names the class and holds
    the inputs as they were given, in order, and its context has the
    no-gradient flag off and holds only untracked values: the tensors that
    the forward saved are detached inputs or fresh outputs, none of which
    has a Graph Edge or a gradient. *)
Theorem apply_saves_untracked_values (cls : Function) (vals : list Tensor)
    (r : Tensor) (h : History) :
  cls ∈ functions sigmoid log exp is_close matrix_multiply ->
  apply cls vals = Ok r ->
  history r = Some h ->
  last_fn h = Some (cls_name cls)
  /\ inputs h = vals
  /\ exists c, ctx h = Some c /\ no_grad c = false
       /\ Forall untracked (saved_values c).
Proof.
  intros Hin Hr Hh. rewrite apply_unfold in Hr. cbv zeta in Hr.
  destruct (cls_forward cls (mkContext (negb (existsb requires_grad vals)) [])
              (detach <$> vals)) as [c' res] eqn:Ef.
  simpl in Hr. apply bind_Ok in Hr as (out & -> & [= <-]). simpl in Hh.
  destruct (existsb requires_grad vals) eqn:Eng; [|discriminate].
  injection Hh as <-. simpl. split; [done|]. split; [done|].
  exists c'. split; [reflexivity|].
  eapply (forward_saves_untracked cls (mkContext false []) c' _ out Hin); [| |exact Ef].
  - rewrite Forall_fmap. apply Forall_forall. intros v _. done.
  - constructor.
Qed.

End SavedValues.

Lemma apply_saves_untracked_values_witness :
  last_fn mul_history = Some (cls_name Mul.cls)
  /\ inputs mul_history = [m_a_leaf; m_b]
  /\ exists c, ctx mul_history = Some c /\ no_grad c = false
       /\ Forall untracked (saved_values c).
Proof.
  apply (apply_saves_untracked_values double double double never_close matmul_2d
           Mul.cls [m_a_leaf; m_b]
           (mkTensor (mkTensorData [5; 12; 21; 32]%float [2; 2] [2; 1])
              (Some mul_history) None SimpleBackend)).
  - unfold functions. do 4 apply list_elem_of_further. apply list_elem_of_here.
  - reflexivity.
  - reflexivity.
Defined.

(** ** Negation *)

Lemma float_opp_involutive (x : float) : (- - x)%float = x.
Proof.
  apply Prim2SF_inj. rewrite !FloatAxioms.opp_spec.
  destruct (Prim2SF x) as [s|s| |s m e]; simpl; try reflexivity; by destruct s.
Qed.

(** X23. Neg round trip: on a contiguous tensor the forward of Neg negates
    every element, and the backward of Neg applied to that output gives back
    the elements of the input, under its shape and on its backend. *)
Theorem Neg_backward_undoes_forward (c : Context) (a : Tensor) :
  contiguous_data (_tensor a) ->
  exists out,
    Neg.forward c a = (c, Ok out)
    /\ _storage (_tensor out) = (fun x => - x)%float <$> _storage (_tensor a)
    /\ Neg.backward (Neg.forward c a).1 out
       = Ok (ReturnOne
               (GradTensor
                  (contiguous_tensor (_storage (_tensor a)) (shape (_tensor a))
                     (backend a)))).
Proof.
  intros Ha. unfold Neg.forward, Neg.backward, neg_map. simpl.
  rewrite tensor_map_contiguous by done.
  eexists. split; [reflexivity|]. split; [reflexivity|].
  rewrite tensor_map_contiguous by (split; simpl; [done|]; rewrite length_fmap; apply Ha).
  simpl. do 3 f_equal. unfold contiguous_tensor. do 2 f_equal.
  rewrite <- list_fmap_compose. rewrite <- (list_fmap_id (_storage (_tensor a))) at 2.
  apply list_fmap_ext. intros i x _. simpl. apply float_opp_involutive.
Qed.

Lemma Neg_backward_undoes_forward_witness :
  exists out,
    Neg.forward tracking_ctx t_2x3_other = (tracking_ctx, Ok out)
    /\ _storage (_tensor out) = (fun x => - x)%float <$> _storage (_tensor t_2x3_other)
    /\ Neg.backward (Neg.forward tracking_ctx t_2x3_other).1 out
       = Ok (ReturnOne
               (GradTensor
                  (contiguous_tensor (_storage (_tensor t_2x3_other))
                     (shape (_tensor t_2x3_other)) (backend t_2x3_other)))).
Proof.
  apply (Neg_backward_undoes_forward tracking_ctx t_2x3_other). split; reflexivity.
Defined.

(** ** ReLU and Sum without a dimension *)

(** X24. For contiguous [a] and [grad_output] of one shape, the backward
    of ReLU, on the context its forward leaves, multiplies [grad_output] by
    the result of [relu_back_zip(a, grad_output)]: elementwise
    [grad_output * grad_output] where [a] is positive and
    [grad_output * 0.0] elsewhere. *)
Theorem ReLU_backward_formula (c : Context) (a grad_output : Tensor) :
  contiguous_data (_tensor a) -> contiguous_data (_tensor grad_output) ->
  shape (_tensor a) = shape (_tensor grad_output) ->
  exists t,
    ReLU.backward (ReLU.forward c a).1 grad_output = Ok (ReturnOne (GradTensor t))
    /\ _storage (_tensor t)
       = zip_with (fun x d => if (0 <? x)%float then d * d else d * 0)%float
           (_storage (_tensor a)) (_storage (_tensor grad_output))
    /\ shape (_tensor t) = shape (_tensor grad_output).
Proof.
  intros Ha Hg Hs.
  destruct (ReLU_backward_contiguous c a grad_output Ha Hg Hs) as (t & Ht & Hst & Hsh).
  exists t. split; [exact Ht|]. split; [|exact Hsh]. rewrite Hst.
  apply zip_with_ext; [|done..]. intros x d. unfold operators.relu_back.
  by destruct (0 <? x)%float.
Qed.

Lemma ReLU_backward_formula_witness :
  exists t,
    ReLU.backward (ReLU.forward tracking_ctx m_a).1 m_g = Ok (ReturnOne (GradTensor t))
    /\ _storage (_tensor t)
       = zip_with (fun x d => if (0 <? x)%float then d * d else d * 0)%float
           (_storage (_tensor m_a)) (_storage (_tensor m_g))
    /\ shape (_tensor t) = shape (_tensor m_g).
Proof.
  apply (ReLU_backward_formula tracking_ctx m_a m_g);
    first [split; reflexivity | reflexivity].
Defined.

(** X25. Without a dimension, the backward of Sum, on the context its
    forward leaves, returns one gradient and not a tuple: for a contiguous
    [grad_output] whose shape broadcasts to the shape of the input, a
    tensor of the shape of the input that reads, at every index,
    [grad_output] at the index with the broadcast dimensions at 0. *)
Theorem Sum_backward_without_dim (c : Context) (a grad_output : Tensor) :
  contiguous_data (_tensor grad_output) ->
  broadcasts_to (shape (_tensor grad_output)) (shape (_tensor a)) = true ->
  exists t,
    Sum.backward (Sum.forward c a None).1 grad_output = Ok (ReturnOne (GradTensor t))
    /\ shape (_tensor t) = shape (_tensor a)
    /\ forall key, valid_index key (shape (_tensor a)) = true ->
         Tensor_getitem t key
         = Tensor_getitem grad_output
             (broadcast_index key (shape (_tensor a)) (shape (_tensor grad_output))).
Proof.
  intros Hg Hb. destruct (expand_broadcasts a grad_output Hg Hb) as (t & Ht & Hs & Hk).
  exists t. unfold Sum.backward, Sum.forward. simpl. rewrite Ht. simpl. done.
Qed.

Lemma Sum_backward_without_dim_witness :
  exists t,
    Sum.backward (Sum.forward tracking_ctx t_2x3_other None).1 t_2
      = Ok (ReturnOne (GradTensor t))
    /\ shape (_tensor t) = shape (_tensor t_2x3_other)
    /\ forall key, valid_index key (shape (_tensor t_2x3_other)) = true ->
         Tensor_getitem t key
         = Tensor_getitem t_2
             (broadcast_index key (shape (_tensor t_2x3_other)) (shape (_tensor t_2))).
Proof.
  apply (Sum_backward_without_dim tracking_ctx t_2x3_other t_2).
  - split; reflexivity.
  - reflexivity.
Defined.
